(** * The Playwright render service (apps/playwright-service-ts/api.ts)

    A shallow embedding of the admission semaphore, the per-request browsing
    session, the navigation pipeline and the action interpreter of the
    service, together with the properties its design document states.

    The browser, the clock and the failure behaviour of the file system are
    external: they are an abstract state [B] driven through one [perform]
    function, one constructor of [Call] per Playwright or Node call the
    source makes.  Every call may complete normally or throw. *)

From Stdlib Require Import ZArith QArith List String Ascii Bool Lia.
From Stdlib Require Import Numbers.DecimalString Init.Byte.
From stdpp Require Import base option gmap strings list.

Import ListNotations.
Local Open Scope string_scope.
Local Open Scope Z_scope.
Local Open Scope list_scope.

(** ** JavaScript runtime helpers

    Strings are sequences of bytes; the helpers below are the ASCII and
    UTF-8 readings of the built-ins the source calls. *)

(** [String.prototype.toLowerCase], on the ASCII letters. *)
Definition lower_ascii (c : ascii) : ascii :=
  let n := nat_of_ascii c in
  if ((65 <=? n)%nat && (n <=? 90)%nat)%bool then ascii_of_nat (n + 32) else c.

Fixpoint toLowerCase (s : string) : string :=
  match s with
  | EmptyString => EmptyString
  | String c rest => String (lower_ascii c) (toLowerCase rest)
  end.

(** [String.prototype.includes]. *)
Fixpoint includes (s sub : string) : bool :=
  if String.prefix sub s then true
  else match s with
       | EmptyString => false
       | String _ rest => includes rest sub
       end.

(** [s.replace(/[:.]/g, '-')]. *)
Fixpoint replace_colon_dot (s : string) : string :=
  match s with
  | EmptyString => EmptyString
  | String c rest =>
      String (if (Ascii.eqb c ":" || Ascii.eqb c ".")%bool then "-"%char else c)
             (replace_colon_dot rest)
  end.

(** Template-literal rendering of an integer. *)
Definition show_Z (z : Z) : string := NilZero.string_of_int (Z.to_int z).
Definition show_nat (n : nat) : string := show_Z (Z.of_nat n).
Definition show_bool (b : bool) : string := if b then "true" else "false".

(** A Node [Buffer]. *)
Definition Buffer := list byte.

(** [buffer.toString('utf8')]: the bytes read as a UTF-8 string. *)
Definition Buffer_toString_utf8 (b : Buffer) : string := string_of_list_byte b.

(** [buffer.toString('base64')]. *)
Definition base64_alphabet : string :=
  "ABCDEFGHIJKLMNOPQRSTUVWXYZabcdefghijklmnopqrstuvwxyz0123456789+/".

Definition base64_digit (n : Z) : ascii :=
  match String.get (Z.to_nat n) base64_alphabet with
  | Some c => c
  | None => "="%char
  end.

Definition byteZ (b : byte) : Z := Z.of_N (Byte.to_N b).

Fixpoint Buffer_toString_base64 (b : Buffer) : string :=
  match b with
  | [] => ""
  | [x] =>
      let n := Z.shiftl (byteZ x) 16 in
      String (base64_digit (Z.land (Z.shiftr n 18) 63))
        (String (base64_digit (Z.land (Z.shiftr n 12) 63)) "==")
  | [x; y] =>
      let n := Z.lor (Z.shiftl (byteZ x) 16) (Z.shiftl (byteZ y) 8) in
      String (base64_digit (Z.land (Z.shiftr n 18) 63))
        (String (base64_digit (Z.land (Z.shiftr n 12) 63))
          (String (base64_digit (Z.land (Z.shiftr n 6) 63)) "="))
  | x :: y :: z :: rest =>
      let n := Z.lor (Z.lor (Z.shiftl (byteZ x) 16) (Z.shiftl (byteZ y) 8)) (byteZ z) in
      String (base64_digit (Z.land (Z.shiftr n 18) 63))
        (String (base64_digit (Z.land (Z.shiftr n 12) 63))
          (String (base64_digit (Z.land (Z.shiftr n 6) 63))
            (String (base64_digit (Z.land n 63)) (Buffer_toString_base64 rest))))
  end.

(** The one-character string holding a double quote. *)
Definition dquote : string := String (ascii_of_nat 34) EmptyString.

(** A string in a boolean position: the empty string is falsy. *)
Definition truthy (s : string) : bool := negb (String.eqb s "").

(** ** The admission semaphore (class [Semaphore])

    A queued [resolve] callback is represented by the caller it wakes. *)

Definition Waiter := nat.

Module Semaphore.

Record t := mk { permits : Z; queue : list Waiter }.

(** [new Semaphore(permits)]. *)
Definition new (n : Z) : t := {| permits := n; queue := [] |}.

(** [acquire()]: [true] when the returned promise is already resolved,
    [false] when the caller's [resolve] was queued. *)
Definition acquire (who : Waiter) (s : t) : t * bool :=
  if 0 <? permits s
  then ({| permits := permits s - 1; queue := queue s |}, true)
  else ({| permits := permits s; queue := queue s ++ [who] |}, false).

(** [release()]: the caller whose [resolve] was invoked, if any. *)
Definition release (s : t) : t * option Waiter :=
  let p := permits s + 1 in
  match queue s with
  | nextResolve :: rest => ({| permits := p - 1; queue := rest |}, Some nextResolve)
  | [] => ({| permits := p; queue := [] |}, None)
  end.

Definition getAvailablePermits (s : t) : Z := permits s.
Definition getQueueLength (s : t) : nat := length (queue s).

(** Successive [acquire()] calls by a list of callers, oldest first. *)
Fixpoint acquire_all (callers : list Waiter) (s : t) : t * list bool :=
  match callers with
  | [] => (s, [])
  | who :: rest =>
      let '(s1, now) := acquire who s in
      let '(s2, later) := acquire_all rest s1 in
      (s2, now :: later)
  end.

(** The operations callers apply to the shared semaphore. *)
Inductive op := Acquire (who : Waiter) | Release.

Definition exec (o : op) (s : t) : t :=
  match o with
  | Acquire who => fst (acquire who s)
  | Release => fst (release s)
  end.

Definition run (ops : list op) (s : t) : t := fold_left (fun s o => exec o s) ops s.

(** What every state reached from a fresh semaphore satisfies: the count
    is never negative, and it is zero whenever a caller is waiting. *)
Definition settled (s : t) : Prop :=
  0 <= permits s /\ (queue s <> [] -> permits s = 0).

End Semaphore.

(** [MAX_CONCURRENT_PAGES]: [Math.max(1, Number.parseInt(v ?? '10', 10) || 10)],
    from the parsed environment variable ([None] for an absent variable or
    a [NaN] parse). *)
Definition MAX_CONCURRENT_PAGES_of (parsed : option Z) : Z :=
  Z.max 1 (match parsed with
           | Some n => if n =? 0 then 10 else n
           | None => 10
           end).


(** ** Values thrown and completions *)

(** A thrown value: an [Error] object with its message, or anything else
    with its [String(...)] rendering. *)
Inductive Thrown := ErrorObj (message : string) | OtherValue (text : string).

(** [error instanceof Error ? error.message : String(error)]. *)
Definition errorMsg (e : Thrown) : string :=
  match e with
  | ErrorObj message => message
  | OtherValue text => text
  end.

Inductive Completion (A : Type) := Normal (a : A) | Throw (e : Thrown).
Arguments Normal {A} a.
Arguments Throw {A} e.

(** The value of a normal completion, [d] for a throw. *)
Definition normal_or {A} (d : A) (c : Completion A) : A :=
  match c with
  | Normal a => a
  | Throw _ => d
  end.

(** ** Data model *)

Definition Ctx := nat.
Definition Page := nat.
Definition Elem := nat.
Definition Headers := list (string * string).

(** The response object of a navigation, with what [response.status()] reads. *)
Record Resp := { resp_handle : nat; resp_status : Z }.

(** What [JSON.stringify] makes of an object or an array: its JSON text,
    or the message of the [TypeError] it throws, when the object holds a
    BigInt or a cycle. *)
Inductive Stringified :=
| JsonText (text : string)
| JsonThrows (message : string).

(** A value returned by [page.evaluate]. *)
Inductive JsValue :=
| JsUndefined
| JsNull
| JsBoolean (b : bool)
| JsNumber (n : Q)
| JsBigInt (n : Z)
| JsString (s : string)
| JsObject (json : Stringified).

Definition typeof (v : JsValue) : string :=
  match v with
  | JsUndefined => "undefined"
  | JsNull => "object"
  | JsBoolean _ => "boolean"
  | JsNumber _ => "number"
  | JsBigInt _ => "bigint"
  | JsString _ => "string"
  | JsObject _ => "object"
  end.

Inductive Direction := up | down.

Definition show_Direction (d : Direction) : string :=
  match d with up => "up" | down => "down" end.

(** [type Action]; [Unknown] is an element whose [type] is none of the nine
    tags, which the [switch] sends to its [default] branch. *)
Inductive Action :=
| Wait (milliseconds : option Z) (selector : option string)
| Click (selector : string) (all : option bool)
| Screenshot (fullPage : option bool)
| Write (text : string)
| Press (key : string)
| Scroll (direction : option Direction) (selector : option string)
| Scrape
| ExecuteJavascript (script : string)
| Pdf (landscape : option bool) (scale : option Q) (format : option string)
| Unknown (type : string).

Definition action_type (a : Action) : string :=
  match a with
  | Wait _ _ => "wait"
  | Click _ _ => "click"
  | Screenshot _ => "screenshot"
  | Write _ => "write"
  | Press _ => "press"
  | Scroll _ _ => "scroll"
  | Scrape => "scrape"
  | ExecuteJavascript _ => "executeJavascript"
  | Pdf _ _ _ => "pdf"
  | Unknown type => type
  end.

(** The options object handed to [page.pdf]; an absent key is [None]. *)
Record PdfOptions := {
  pdf_landscape : option bool;
  pdf_scale : option Q;
  pdf_format : option string
}.

Record ScrapeActionContent := { sac_url : string; sac_html : string }.

Record JavascriptReturnValue := { jsr_type : string; jsr_value : JsValue }.

Record ActionResults := {
  screenshots : list string;
  scrapes : list ScrapeActionContent;
  javascriptReturns : list JavascriptReturnValue;
  pdfs : list string
}.

(** The request body, [interface UrlModel]; an absent key is [None]. *)
Record UrlModel := {
  url : option string;
  wait_after_load : option Z;
  timeout : option Z;
  headers : option Headers;
  check_selector : option string;
  skip_tls_verification : option bool;
  actions : option (list Action);
  screenshot : option bool;
  full_page_screenshot : option bool
}.

(** What [scrapePage] returns. *)
Record ScrapeOutcome := {
  so_content : string;
  so_status : option Z;
  so_headers : option Headers;
  so_contentType : option string
}.

(** The JSON documents the handler sends; an omitted key is [None]. *)
Record RenderJson := {
  content : string;
  pageStatusCode : option Z;
  contentType : option string;
  res_screenshot : option string;
  res_actions : option ActionResults;
  pageError : option string
}.

Inductive Body :=
| RenderBody (r : RenderJson)
| ErrorBody (error : string).

Record HttpResponse := { http_status : Z; http_body : Body }.

(** The message of the [TypeError] that [JSON.stringify] throws on a value
    returned by [page.evaluate], [None] when it serialises the value. *)
Definition stringify_fault (v : JsValue) : option string :=
  match v with
  | JsBigInt _ => Some "Do not know how to serialize a BigInt"
  | JsObject (JsonThrows message) => Some message
  | _ => None
  end.

Fixpoint first_fault (values : list JavascriptReturnValue) : option string :=
  match values with
  | [] => None
  | v :: rest =>
      match stringify_fault (jsr_value v) with
      | Some message => Some message
      | None => first_fault rest
      end
  end.

(** [JSON.stringify(body)] on a document of the handler: the fault of the
    first value it cannot serialise.  Every key but the return values of
    the scripts holds strings and numbers. *)
Definition json_fault (body : Body) : option string :=
  match body with
  | RenderBody r =>
      match res_actions r with
      | Some results => first_fault (javascriptReturns results)
      | None => None
      end
  | ErrorBody _ => None
  end.

Record Proxy := {
  server : string;
  username : option string;
  password : option string
}.

Record ContextOptions := {
  userAgent : string;
  viewport : Z * Z;
  ignoreHTTPSErrors : bool;
  proxy : option Proxy
}.

(** ** Route handlers *)

Inductive RouteDecision := RouteAbort | RouteContinue.

(** One run of a route handler on a request URL: the lines it logs and how
    it completes. *)
Record RouteRun := { route_logged : list string; route_result : Completion RouteDecision }.

Definition RouteHandler := string -> RouteRun.

(** The two handlers [createContext] registers, by name. *)
Inductive RouteName := media_route | ad_route.

(** ** The calls into Playwright and Node *)

Inductive WaitUntil := load | networkidle.

(** One constructor per call the source makes, with its arguments.  As
    Playwright documents them, [page.goto] rejects when the navigation
    times out or fails and resolves to [null] when the navigation has no
    response (as for [about:blank]); [waitForSelector], [click],
    [evaluate], [screenshot] and [pdf] reject on a timeout, a missing
    element, a throwing script or a failed capture. *)
Inductive Call :=
| UserAgent_toString
| Browser_newContext (options : ContextOptions)
| Context_route (c : Ctx) (pattern : string) (handler : RouteName)
| Context_newPage (c : Ctx)
| Context_close (c : Ctx)
| Page_setExtraHTTPHeaders (p : Page) (hs : Headers)
| Page_goto (p : Page) (target : string) (waitUntil : WaitUntil) (ms : Z)
| Page_waitForTimeout (p : Page) (ms : Z)
| Page_waitForSelector (p : Page) (selector : string) (ms : Z)
| Page_content (p : Page)
| Page_url (p : Page)
| Page_screenshot (p : Page) (fullPage : bool)
| Page_click (p : Page) (selector : string)
| Locator_all (p : Page) (selector : string)
| Element_click (e : Elem)
| Keyboard_type (p : Page) (text : string)
| Keyboard_press (p : Page) (key : string)
| Locator_scrollTop_add (p : Page) (selector : string) (delta : Z)
| Window_scrollBy (p : Page) (dx dy : Z)
| Page_evaluate (p : Page) (script : string)
| Page_pdf (p : Page) (options : PdfOptions)
| Page_close (p : Page)
| Response_allHeaders (r : Resp)
| Response_body (r : Resp)
| Date_toISOString
| Fs_mkdirSync (dir : string)
| Fs_writeFileSync (file : string) (data : Buffer).

(** The type of what each call resolves to. *)
Definition ret (c : Call) : Type :=
  match c with
  | UserAgent_toString | Page_content _ | Page_url _ | Date_toISOString => string
  | Browser_newContext _ => Ctx
  | Context_newPage _ => Page
  | Page_goto _ _ _ _ => option Resp
  | Page_screenshot _ _ | Page_pdf _ _ | Response_body _ => Buffer
  | Locator_all _ _ => list Elem
  | Page_evaluate _ _ => JsValue
  | Response_allHeaders _ => Headers
  | _ => unit
  end.

(** ** The platform the service runs on

    [B] is the state of everything outside the process; [perform] runs one
    call against it.  [URL_hostname s] is [new URL(s).hostname], [None]
    when the constructor throws its [TypeError].  [getError] is the
    status-to-message helper of [helpers/get_error], whose source is not
    part of this development: it is a parameter, [None] standing for a
    [null] or [undefined] result.  The remaining fields are the constants
    read from the process environment at start-up. *)
Class Platform := {
  B : Type;
  perform : forall c : Call, B -> B * Completion (ret c);
  URL_hostname : string -> option string;
  getError : option Z -> option string;
  BLOCK_MEDIA : bool;
  MAX_CONCURRENT_PAGES : Z;
  SCREENSHOTS_DIR : string;
  PROXY_SERVER : option string;
  PROXY_USERNAME : option string;
  PROXY_PASSWORD : option string
}.

(** ** The world of one process *)

Inductive Level := log | warn | error.

(** The local disk: the directories and the regular files that exist. *)
Record Disk := { dirs : gset string; files : gmap string Buffer }.

(** [calls] is the log of the platform calls made so far, [woken] the
    callers whose queued [resolve] the semaphore has invoked, [sent] the
    HTTP responses written, each in order. *)
Record World `{Platform} := {
  env : B;
  disk : Disk;
  console : list (Level * string);
  calls : list Call;
  pageSemaphore : Semaphore.t;
  woken : list Waiter;
  sent : list HttpResponse
}.

Definition AD_SERVING_DOMAINS : list string := [
  "doubleclick.net";
  "adservice.google.com";
  "googlesyndication.com";
  "googletagservices.com";
  "googletagmanager.com";
  "google-analytics.com";
  "adsystem.com";
  "adservice.com";
  "adnxs.com";
  "ads-twitter.com";
  "facebook.net";
  "fbcdn.net";
  "amazon-adsystem.com"
].

(** [path.join(dir, name)] for a normalised [dir] and a plain file name. *)
Definition path_join (dir name : string) : string := dir +:+ "/" +:+ name.

Declare Scope js_scope.
Delimit Scope js_scope with js.

Section Service.

Context `{Platform}.

(** *** Computations: a world transformer that completes normally or throws *)

Definition M (A : Type) : Type := World -> World * Completion A.

Definition mreturn {A} (a : A) : M A := fun w => (w, Normal a).

Definition throw {A} (e : Thrown) : M A := fun w => (w, Throw e).

Definition bind {A C} (m : M A) (k : A -> M C) : M C :=
  fun w =>
    let '(w1, r) := m w in
    match r with
    | Normal a => k a w1
    | Throw e => (w1, Throw e)
    end.

(** [try { body } catch (error) { handler }]. *)
Definition try_catch {A} (body : M A) (handler : Thrown -> M A) : M A :=
  fun w =>
    let '(w1, r) := body w in
    match r with
    | Normal a => (w1, Normal a)
    | Throw e => handler e w1
    end.

(** [try { body } finally { fin }]: a throw of [fin] replaces the
    completion of [body]. *)
Definition try_finally {A} (body : M A) (fin : M unit) : M A :=
  fun w =>
    let '(w1, r) := body w in
    let '(w2, f) := fin w1 in
    match f with
    | Normal _ => (w2, r)
    | Throw e => (w2, Throw e)
    end.

Notation "x <- m ;; k" := (bind m (fun x => k))
  (at level 100, m at next level, right associativity) : js_scope.
Notation "m ;; k" := (bind m (fun _ => k))
  (at level 100, right associativity) : js_scope.
Local Open Scope js_scope.

Definition when (b : bool) (m : M unit) : M unit := if b then m else mreturn tt.

(** *** Primitive effects *)

(** An awaited or synchronous call into the platform, appended to [calls]. *)
Definition call (c : Call) : M (ret c) :=
  fun w =>
    let '(b, r) := perform c (env w) in
    ({| env := b; disk := disk w; console := console w;
        calls := calls w ++ [c]; pageSemaphore := pageSemaphore w;
        woken := woken w; sent := sent w |}, r).

Definition console_write (l : Level) (line : string) : M unit :=
  fun w =>
    ({| env := env w; disk := disk w;
        console := console w ++ [(l, line)];
        calls := calls w; pageSemaphore := pageSemaphore w;
        woken := woken w; sent := sent w |}, Normal tt).

Definition console_log := console_write log.
Definition console_warn := console_write warn.
Definition console_error := console_write error.

Definition set_disk (d : Disk) : M unit :=
  fun w =>
    ({| env := env w; disk := d; console := console w;
        calls := calls w; pageSemaphore := pageSemaphore w;
        woken := woken w; sent := sent w |}, Normal tt).

Definition get_disk : M Disk := fun w => (w, Normal (disk w)).

(** [fs.existsSync(p)]. *)
Definition fs_existsSync (p : string) : M bool :=
  d <- get_disk ;;
  mreturn (bool_decide (p ∈ dirs d) || bool_decide (is_Some (files d !! p))).

(** [fs.mkdirSync(dir, { recursive: true })]: the platform decides whether
    it throws; otherwise the directory exists afterwards. *)
Definition fs_mkdirSync (dir : string) : M unit :=
  call (Fs_mkdirSync dir) ;;
  d <- get_disk ;;
  set_disk {| dirs := {[ dir ]} ∪ dirs d; files := files d |}.

(** [fs.writeFileSync(file, data)]: the platform decides whether it
    throws; otherwise the file holds [data] afterwards. *)
Definition fs_writeFileSync (file : string) (data : Buffer) : M unit :=
  call (Fs_writeFileSync file data) ;;
  d <- get_disk ;;
  set_disk {| dirs := dirs d; files := <[ file := data ]> (files d) |}.

(** [res.status(code).json(body)]: [JSON.stringify] runs before anything
    is written, and the [TypeError] it throws leaves the response unsent. *)
Definition res_json (code : Z) (body : Body) : M unit :=
  fun w =>
    match json_fault body with
    | Some message => (w, Throw (ErrorObj message))
    | None =>
        ({| env := env w; disk := disk w; console := console w;
            calls := calls w; pageSemaphore := pageSemaphore w; woken := woken w;
            sent := sent w ++ [{| http_status := code; http_body := body |}] |},
         Normal tt)
    end.

(** [pageSemaphore.release()]; a [nextResolve()] it makes is appended to
    [woken]. *)
Definition pageSemaphore_release : M unit :=
  fun w =>
    let '(s, next) := Semaphore.release (pageSemaphore w) in
    ({| env := env w; disk := disk w; console := console w;
        calls := calls w;
        pageSemaphore := s;
        woken := woken w ++ option_list next;
        sent := sent w |}, Normal tt).

(** [pageSemaphore.acquire()] by caller [who]: whether the promise is
    already resolved. *)
Definition pageSemaphore_acquire (who : Waiter) : World -> World * bool :=
  fun w =>
    let '(s, now) := Semaphore.acquire who (pageSemaphore w) in
    ({| env := env w; disk := disk w; console := console w;
        calls := calls w; pageSemaphore := s; woken := woken w; sent := sent w |}, now).

(** *** [createContext] *)

(** The handler of the media route: [await route.abort()]. *)
Definition media_route_handler : RouteHandler :=
  fun _ => {| route_logged := []; route_result := Normal RouteAbort |}.

(** The handler of the ['**/*'] route, run on [request.url()]. *)
Definition ad_route_handler : RouteHandler :=
  fun requestUrl =>
    match URL_hostname requestUrl with
    | None => {| route_logged := []; route_result := Throw (ErrorObj "Invalid URL") |}
    | Some hostname =>
        if existsb (fun domain => includes hostname domain) AD_SERVING_DOMAINS
        then {| route_logged := [hostname]; route_result := Normal RouteAbort |}
        else {| route_logged := []; route_result := Normal RouteContinue |}
    end.

Definition route_handler (name : RouteName) : RouteHandler :=
  match name with
  | media_route => media_route_handler
  | ad_route => ad_route_handler
  end.

Definition contextOptions (userAgent : string) (skipTlsVerification : bool)
  : ContextOptions :=
  {| userAgent := userAgent;
     viewport := (1280, 800);
     ignoreHTTPSErrors := skipTlsVerification;
     proxy :=
       match PROXY_SERVER, PROXY_USERNAME, PROXY_PASSWORD with
       | Some s, Some u, Some p =>
           Some {| server := s; username := Some u; password := Some p |}
       | Some s, _, _ => Some {| server := s; username := None; password := None |}
       | None, _, _ => None
       end |}.

Definition createContext (skipTlsVerification : bool) : M Ctx :=
  userAgent <- call UserAgent_toString ;;
  newContext <- call (Browser_newContext (contextOptions userAgent skipTlsVerification)) ;;
  when BLOCK_MEDIA
    (call (Context_route newContext
             "**/*.{png,jpg,jpeg,gif,svg,mp3,mp4,avi,flac,ogg,wav,webm}" media_route)) ;;
  call (Context_route newContext "**/*" ad_route) ;;
  mreturn newContext.

(** *** [isValidUrl] *)
Definition isValidUrl (urlString : string) : bool :=
  match URL_hostname urlString with
  | Some _ => true
  | None => false
  end.

(** *** [scrapePage] *)

Definition show_WaitUntil (w : WaitUntil) : string :=
  match w with load => "load" | networkidle => "networkidle" end.

(** The [content-type] entry of the headers object. *)
Definition find_content_type (hs : Headers) : option string :=
  option_map snd
    (List.find (fun kv => String.eqb (toLowerCase (fst kv)) "content-type") hs).

(** [ct && (ct.toLowerCase().includes("application/json")
            || ct.toLowerCase().includes("text/plain"))]. *)
Definition is_raw_content_type (ct : option string) : bool :=
  match ct with
  | Some s =>
      truthy s && (includes (toLowerCase s) "application/json"
                   || includes (toLowerCase s) "text/plain")
  | None => false
  end.

Definition scrapePage (page : Page) (target : string) (waitUntil : WaitUntil)
    (waitAfterLoad timeout : Z) (checkSelector : option string) : M ScrapeOutcome :=
  console_log ("Navigating to " +:+ target +:+ " with waitUntil: "
               +:+ show_WaitUntil waitUntil +:+ " and timeout: "
               +:+ show_Z timeout +:+ "ms") ;;
  response <- call (Page_goto page target waitUntil timeout) ;;
  when (0 <? waitAfterLoad) (call (Page_waitForTimeout page waitAfterLoad)) ;;
  match checkSelector with
  | Some sel =>
      when (truthy sel)
        (try_catch (call (Page_waitForSelector page sel timeout))
                   (fun _ => throw (ErrorObj "Required selector not found")))
  | None => mreturn tt
  end ;;
  content <- call (Page_content page) ;;
  match response with
  | Some r =>
      headers <- call (Response_allHeaders r) ;;
      let ct := find_content_type headers in
      content <- (if is_raw_content_type ct
                  then body <- call (Response_body r) ;;
                       mreturn (Buffer_toString_utf8 body)
                  else mreturn content) ;;
      mreturn {| so_content := content; so_status := Some (resp_status r);
                 so_headers := Some headers; so_contentType := ct |}
  | None =>
      mreturn {| so_content := content; so_status := None;
                 so_headers := None; so_contentType := None |}
  end.

(** *** [takeScreenshot] *)
Definition takeScreenshot (page : Page) (fullPage : option bool) : M string :=
  let fullPage := default false fullPage in
  screenshot <- call (Page_screenshot page fullPage) ;;
  present <- fs_existsSync SCREENSHOTS_DIR ;;
  when (negb present) (fs_mkdirSync SCREENSHOTS_DIR) ;;
  iso <- call Date_toISOString ;;
  let timestamp := replace_colon_dot iso in
  let filename := "screenshot-" +:+ timestamp +:+ ".png" in
  let filepath := path_join SCREENSHOTS_DIR filename in
  fs_writeFileSync filepath screenshot ;;
  console_log ("  📸 Screenshot saved: " +:+ filepath) ;;
  mreturn (Buffer_toString_base64 screenshot).

(** *** [executeActions] *)

Definition empty_results : ActionResults :=
  {| screenshots := []; scrapes := []; javascriptReturns := []; pdfs := [] |}.

(** The options object built by the [pdf] case. *)
Definition pdfOptions_of (landscape : option bool) (scale : option Q)
    (format : option string) : PdfOptions :=
  {| pdf_landscape := landscape;
     pdf_scale := scale;
     pdf_format := Some (match format with
                         | Some f => f
                         | None => "Letter"
                         end) |}.

(** The increment the in-page scroll function applies. *)
Definition scroll_delta (dir : Direction) (amount : Z) : Z :=
  match dir with
  | down => amount
  | up => - amount
  end.

(** [for (const element of elements) await element.click()]. *)
Fixpoint click_each (elements : list Elem) : M unit :=
  match elements with
  | [] => mreturn tt
  | element :: rest => call (Element_click element) ;; click_each rest
  end.

(** The body of the [switch] for one action; [results] is the accumulator
    on entry and the result is the accumulator after the pushes of this
    action. *)
Definition executeAction (page : Page) (action : Action) (results : ActionResults)
  : M ActionResults :=
  match action with
  | Wait milliseconds selector =>
      when (bool_decide (milliseconds <> None) && bool_decide (selector <> None))
        (console_warn "⚠️ Wait action has both milliseconds and selector. Using milliseconds.") ;;
      match milliseconds, selector with
      | Some ms, _ =>
          call (Page_waitForTimeout page ms) ;;
          console_log ("  → Waited " +:+ show_Z ms +:+ "ms")
      | None, Some sel =>
          call (Page_waitForSelector page sel 30000) ;;
          console_log ("  → Waited for selector: " +:+ sel)
      | None, None =>
          console_warn "⚠️ Wait action missing both milliseconds and selector"
      end ;;
      mreturn results
  | Click selector all =>
      (if default false all
       then
         elements <- call (Locator_all page selector) ;;
         console_log ("  → Clicking " +:+ show_nat (length elements)
                      +:+ " elements matching: " +:+ selector) ;;
         click_each elements
       else
         call (Page_click page selector) ;;
         console_log ("  → Clicked: " +:+ selector)) ;;
      mreturn results
  | Screenshot fullPage =>
      screenshot <- takeScreenshot page fullPage ;;
      console_log ("  → Screenshot taken (fullPage: "
                   +:+ show_bool (default false fullPage) +:+ ")") ;;
      mreturn {| screenshots := screenshots results ++ [screenshot];
                 scrapes := scrapes results;
                 javascriptReturns := javascriptReturns results;
                 pdfs := pdfs results |}
  | Write text =>
      call (Keyboard_type page text) ;;
      console_log ("  → Typed text: " +:+ dquote +:+ String.substring 0 50 text
                   +:+ (if (50 <? String.length text)%nat then "..." else "")
                   +:+ dquote) ;;
      mreturn results
  | Press key =>
      call (Keyboard_press page key) ;;
      console_log ("  → Pressed key: " +:+ key) ;;
      mreturn results
  | Scroll direction selector =>
      let direction := default down direction in
      let scrollAmount := 500 in
      match selector with
      | Some sel =>
          if truthy sel
          then
            call (Locator_scrollTop_add page sel (scroll_delta direction scrollAmount)) ;;
            console_log ("  → Scrolled " +:+ show_Direction direction
                         +:+ " within: " +:+ sel)
          else
            call (Window_scrollBy page 0 (scroll_delta direction scrollAmount)) ;;
            console_log ("  → Scrolled " +:+ show_Direction direction)
      | None =>
          call (Window_scrollBy page 0 (scroll_delta direction scrollAmount)) ;;
          console_log ("  → Scrolled " +:+ show_Direction direction)
      end ;;
      mreturn results
  | Scrape =>
      html <- call (Page_content page) ;;
      url <- call (Page_url page) ;;
      console_log ("  → Scraped page content ("
                   +:+ show_nat (String.length html) +:+ " chars)") ;;
      mreturn {| screenshots := screenshots results;
                 scrapes := scrapes results ++ [{| sac_url := url; sac_html := html |}];
                 javascriptReturns := javascriptReturns results;
                 pdfs := pdfs results |}
  | ExecuteJavascript script =>
      result <- call (Page_evaluate page script) ;;
      let valueType := typeof result in
      console_log ("  → Executed JavaScript, returned: " +:+ valueType) ;;
      mreturn {| screenshots := screenshots results;
                 scrapes := scrapes results;
                 javascriptReturns :=
                   javascriptReturns results
                     ++ [{| jsr_type := valueType; jsr_value := result |}];
                 pdfs := pdfs results |}
  | Pdf landscape scale format =>
      let pdfOptions := pdfOptions_of landscape scale format in
      pdfBuffer <- call (Page_pdf page pdfOptions) ;;
      let pdfBase64 := Buffer_toString_base64 pdfBuffer in
      console_log ("  → Generated PDF (format: "
                   +:+ default "undefined" (pdf_format pdfOptions)
                   +:+ ", landscape: "
                   +:+ show_bool (default false (pdf_landscape pdfOptions)) +:+ ")") ;;
      mreturn {| screenshots := screenshots results;
                 scrapes := scrapes results;
                 javascriptReturns := javascriptReturns results;
                 pdfs := pdfs results ++ [pdfBase64] |}
  | Unknown type =>
      console_warn ("⚠️ Unknown action type: " +:+ type) ;;
      mreturn results
  end.

(** The console line that opens iteration [i]. *)
Definition progress_line (total i : nat) (action : Action) : string :=
  "Executing action " +:+ show_nat (i + 1) +:+ "/" +:+ show_nat total
  +:+ ": " +:+ action_type action.

(** One iteration of the loop: the progress line, then the [switch] under
    its [try]; the [catch] logs and keeps the accumulator as it was (every
    push is the last fallible step of its case). *)
Definition action_step (page : Page) (total i : nat) (action : Action)
    (results : ActionResults) : M ActionResults :=
  console_log (progress_line total i action) ;;
  try_catch (executeAction page action results)
    (fun error =>
       let errorMsg := errorMsg error in
       console_error ("  ❌ Action failed: " +:+ errorMsg) ;;
       mreturn results).

(** The [for] loop from index [i]. *)
Fixpoint executeActions_from (page : Page) (total i : nat) (actions : list Action)
    (results : ActionResults) : M ActionResults :=
  match actions with
  | [] => mreturn results
  | action :: rest =>
      results <- action_step page total i action results ;;
      executeActions_from page total (S i) rest results
  end.

Definition executeActions (page : Page) (actions : list Action) : M ActionResults :=
  executeActions_from page (length actions) 0 actions empty_results.

(** *** The [/scrape] handler from admission on

    [target] is the request's [url], a string that passed [isValidUrl]
    before the permit was requested. *)

(** [result.status !== 200 ? getError(result.status) : undefined]. *)
Definition pageError_of (status : option Z) : option string :=
  if bool_decide (status = Some 200) then None else getError status.

(** A value of type [string | undefined] in a boolean position. *)
Definition truthy_opt (s : option string) : bool :=
  match s with
  | Some x => truthy x
  | None => false
  end.

Definition show_status (status : option Z) : string :=
  match status with
  | Some n => show_Z n
  | None => "null"
  end.

Definition has_output (r : ActionResults) : bool :=
  (0 <? length (screenshots r))%nat || (0 <? length (scrapes r))%nat
  || (0 <? length (javascriptReturns r))%nat || (0 <? length (pdfs r))%nat.

(** [actionResults.screenshots.unshift(screenshotData)]. *)
Definition unshift_screenshot (screenshotData : string) (r : ActionResults)
  : ActionResults :=
  {| screenshots := screenshotData :: screenshots r;
     scrapes := scrapes r;
     javascriptReturns := javascriptReturns r;
     pdfs := pdfs r |}.

(** The [try] block once [requestContext] and [page] are assigned, in
    the four stretches it is written in. *)

(** Lines 487-492: extra headers, then navigation and capture. *)
Definition scrape_navigate (req : UrlModel) (target : string) (page : Page)
  : M ScrapeOutcome :=
  let wait_after_load := default 0 (wait_after_load req) in
  let timeout := default 15000 (timeout req) in
  match headers req with
  | Some hs => call (Page_setExtraHTTPHeaders page hs)
  | None => mreturn tt
  end ;;
  scrapePage page target load wait_after_load timeout (check_selector req).

(** Lines 494-499: [actionResults], [None] while it is [undefined]. *)
Definition scrape_actions (req : UrlModel) (page : Page) : M (option ActionResults) :=
  match actions req with
  | Some acts =>
      if (0 <? length acts)%nat
      then
        console_log ("Executing " +:+ show_nat (length acts) +:+ " actions...") ;;
        r <- executeActions page acts ;;
        mreturn (Some r)
      else mreturn None
  | None => mreturn None
  end.

Definition wants_screenshot (req : UrlModel) : bool :=
  default false (screenshot req) || default false (full_page_screenshot req).

(** Lines 501-520: [screenshotData] and the updated [actionResults]. *)
Definition scrape_screenshot (req : UrlModel) (page : Page)
    (actionResults : option ActionResults)
  : M (option string * option ActionResults) :=
  shot <-
    (if wants_screenshot req
     then
       console_log "Taking screenshot..." ;;
       screenshotData <-
         takeScreenshot page (Some (default false (full_page_screenshot req))) ;;
       mreturn (Some screenshotData,
                match actionResults with
                | Some r =>
                    if (0 <? length (screenshots r))%nat
                    then Some (unshift_screenshot screenshotData r)
                    else Some r
                | None => None
                end)
     else mreturn (None, actionResults)) ;;
  let screenshotData : option string := fst shot in
  mreturn (screenshotData,
           match snd shot with
           | Some r => Some r
           | None =>
               if truthy_opt screenshotData
               then Some {| screenshots := [default "" screenshotData]; scrapes := [];
                            javascriptReturns := []; pdfs := [] |}
               else None
           end).

(** The object literal handed to [res.json]. *)
Definition render_json (result : ScrapeOutcome) (pageError screenshotData : option string)
    (actionResults : option ActionResults) : RenderJson :=
  {| content := so_content result;
     pageStatusCode := so_status result;
     contentType := so_contentType result;
     res_screenshot := if truthy_opt screenshotData then screenshotData else None;
     res_actions :=
       match actionResults with
       | Some r => if has_output r then Some r else None
       | None => None
       end;
     pageError := if truthy_opt pageError then pageError else None |}.

(** Lines 522-545: the closing console line and the response. *)
Definition scrape_respond (result : ScrapeOutcome) (screenshotData : option string)
    (actionResults : option ActionResults) : M unit :=
  let pageError := pageError_of (so_status result) in
  (if negb (truthy_opt pageError)
   then console_log "✅ Scrape successful!"
   else console_log ("🚨 Scrape failed with status code: "
                     +:+ show_status (so_status result) +:+ " "
                     +:+ default "" pageError)) ;;
  res_json 200 (RenderBody (render_json result pageError screenshotData actionResults)).

Definition scrape_try (req : UrlModel) (target : string) (page : Page) : M unit :=
  result <- scrape_navigate req target page ;;
  actionResults <- scrape_actions req page ;;
  shot <- scrape_screenshot req page actionResults ;;
  scrape_respond result (fst shot) (snd shot).

(** The [catch] block; the console line renders the error by its message. *)
Definition scrape_catch (error : Thrown) : M unit :=
  console_error ("Scrape error: " +:+ errorMsg error) ;;
  res_json 500 (ErrorBody "An error occurred while fetching the page.").

(** The [finally] block, with the two locals as they are when it runs. *)
Definition scrape_finally (requestContext : option Ctx) (page : option Page) : M unit :=
  match page with
  | Some p => call (Page_close p)
  | None => mreturn tt
  end ;;
  match requestContext with
  | Some c => call (Context_close c)
  | None => mreturn tt
  end ;;
  pageSemaphore_release.

(** Lines 480-554: the statement [try ... catch ... finally] that follows
    [await pageSemaphore.acquire()].  The locals [requestContext] and
    [page] are [null] until their assignments complete. *)
Definition scrape_admitted (req : UrlModel) (target : string) : M unit :=
  fun w =>
    match createContext (default false (skip_tls_verification req)) w with
    | (w1, Throw e) =>
        try_finally (scrape_catch e) (scrape_finally None None) w1
    | (w1, Normal requestContext) =>
        match call (Context_newPage requestContext) w1 with
        | (w2, Throw e) =>
            try_finally (scrape_catch e)
              (scrape_finally (Some requestContext) None) w2
        | (w2, Normal page) =>
            try_finally (try_catch (scrape_try req target page) scrape_catch)
              (scrape_finally (Some requestContext) (Some page)) w2
        end
    end.

(** *** Requests sharing the semaphore

    A request reaches [pageSemaphore.acquire()] after its URL was
    validated; from then on it touches the semaphore only in its
    [finally] block, so the work of an admitted request is one step here.
    Requests are told apart by their identifier, which is fresh at each
    arrival.  [sessions] lists the requests that are past [acquire] and
    have not finished their [finally] block. *)

Record System := { world : World; sessions : list Waiter }.

Inductive Event :=
| Arrive (who : Waiter)
| Finish (who : Waiter) (req : UrlModel) (target : string).

Definition known (who : Waiter) (s : System) : bool :=
  bool_decide (who ∈ sessions s)
  || bool_decide (who ∈ Semaphore.queue (pageSemaphore (world s))).

Definition step (ev : Event) (s : System) : System :=
  match ev with
  | Arrive who =>
      if known who s then s
      else
        let '(w, now) := pageSemaphore_acquire who (world s) in
        {| world := w;
           sessions := if now then sessions s ++ [who] else sessions s |}
  | Finish who req target =>
      if bool_decide (who ∈ sessions s)
      then
        let w := fst (scrape_admitted req target (world s)) in
        {| world := w;
           sessions := filter (fun x => x <> who) (sessions s)
                         ++ drop (length (woken (world s))) (woken w) |}
      else s
  end.

Definition run_system (evs : list Event) (s : System) : System :=
  fold_left (fun s ev => step ev s) evs s.

(** The process right after start-up, on platform state [b] and disk [d]. *)
Definition boot (b : B) (d : Disk) : System :=
  {| world := {| env := b;
                 disk := d;
                 console := [];
                 calls := [];
                 pageSemaphore := Semaphore.new MAX_CONCURRENT_PAGES;
                 woken := [];
                 sent := [] |};
     sessions := [] |}.

(** Permits handed out and not yet returned. *)
Definition outstanding (s : System) : Z :=
  MAX_CONCURRENT_PAGES - Semaphore.permits (pageSemaphore (world s)).
End Service.

(** ** Vocabulary of the properties *)

(** Field-wise concatenation of two accumulators. *)
Definition append_results (r d : ActionResults) : ActionResults :=
  {| screenshots := screenshots r ++ screenshots d;
     scrapes := scrapes r ++ scrapes d;
     javascriptReturns := javascriptReturns r ++ javascriptReturns d;
     pdfs := pdfs r ++ pdfs d |}.

(** The actions that capture an artifact. *)
Definition is_capture (a : Action) : bool :=
  match a with
  | Screenshot _ | Pdf _ _ _ => true
  | _ => false
  end.

(** The completion of a computation whose result is added to [r]. *)
Definition onto (r : ActionResults) (c : Completion ActionResults)
  : Completion ActionResults :=
  match c with
  | Normal d => Normal (append_results r d)
  | Throw e => Throw e
  end.

Definition is_close (c : Call) : bool :=
  match c with
  | Page_close _ | Context_close _ => true
  | _ => false
  end.

(** The close calls in a stretch of the call log, in order. *)
Definition closes (cs : list Call) : list Call := List.filter is_close cs.

Section Vocabulary.

Context `{Platform}.

(** [w'] comes after [w] with the semaphore, the wake-ups and the
    responses untouched, the console only appended to, and no page or
    context closed in between. *)
Record steady (w w' : World) : Prop := {
  steady_sem : pageSemaphore w' = pageSemaphore w;
  steady_woken : woken w' = woken w;
  steady_sent : sent w' = sent w;
  steady_console : exists lines, console w' = console w ++ lines;
  steady_calls : exists new, calls w' = calls w ++ new /\ closes new = []
}.

(** A computation that is [steady] from every world. *)
Definition keeps {A} (m : M A) : Prop := forall w, steady w (fst (m w)).

(** A platform none of whose calls throws. *)
Definition fault_free : Prop :=
  forall (c : Call) (b : B), exists a, snd (perform c b) = Normal a.

(** A computation that completes normally from every world. *)
Definition returns {A} (m : M A) : Prop := forall w, exists a, snd (m w) = Normal a.

(** A platform whose [page.evaluate] resolves only to values that
    [JSON.stringify] accepts. *)
Definition evaluates_to_json : Prop :=
  forall (page : Page) (script : string) (b : B) (v : JsValue),
    snd (perform (Page_evaluate page script) b) = Normal v -> stringify_fault v = None.

(** The return values of the scripts in the results of a request. *)
Definition script_values (results : option ActionResults) : list JavascriptReturnValue :=
  match results with
  | Some r => javascriptReturns r
  | None => []
  end.

(** The response of a completed render. *)
Definition render_response (result : ScrapeOutcome)
    (shot : option string * option ActionResults) : HttpResponse :=
  {| http_status := 200;
     http_body := RenderBody (render_json result (pageError_of (so_status result))
                                          (fst shot) (snd shot)) |}.

(** A render response with a null status code and the page error
    [getError] gives for null. *)
Definition null_status_response (resp : HttpResponse) : Prop :=
  exists r,
    resp = {| http_status := 200; http_body := RenderBody r |}
    /\ pageStatusCode r = None
    /\ pageError r = (if truthy_opt (getError None) then getError None else None).

(** The response of the [catch] block. *)
Definition failure_response : HttpResponse :=
  {| http_status := 500;
     http_body := ErrorBody "An error occurred while fetching the page." |}.

(** The closes the [finally] block issues for the locals it finds. *)
Definition teardown_calls (requestContext : option Ctx) (page : option Page) : list Call :=
  match page with Some p => [Page_close p] | None => [] end
  ++ match requestContext with Some c => [Context_close c] | None => [] end.

(** The response a request is answered with, by the path it takes. *)
Definition answer_of (req : UrlModel) (target : string) (w : World)
    (resp : HttpResponse) : Prop :=
  match createContext (default false (skip_tls_verification req)) w with
  | (w1, Normal requestContext) =>
      match call (Context_newPage requestContext) w1 with
      | (w2, Normal page) =>
          match scrape_try req target page w2 with
          | (w3, Normal _) => sent w3 = sent w2 ++ [resp]
          | (_, Throw _) => resp = failure_response
          end
      | (_, Throw _) => resp = failure_response
      end
  | (_, Throw _) => resp = failure_response
  end.

(** The page and context a request holds when its [finally] block runs. *)
Definition held_handles (req : UrlModel) (w : World) : option Ctx * option Page :=
  match createContext (default false (skip_tls_verification req)) w with
  | (w1, Normal requestContext) =>
      match call (Context_newPage requestContext) w1 with
      | (_, Normal page) => (Some requestContext, Some page)
      | (_, Throw _) => (Some requestContext, None)
      end
  | (_, Throw _) => (None, None)
  end.


End Vocabulary.

(** ** A concrete platform

    A small deterministic browser used to run the service on concrete
    requests: navigation to [unreachable.example] times out, [about:blank]
    yields no response object, a URL containing [/api/] answers JSON, the
    selector [#missing] never matches, and a full-page capture exceeds the
    size the browser can render.  Its state counts the calls made. *)
Module Demo.

Definition png : Buffer := [x89; x50; x4e; x47].
Definition pdf : Buffer := [x25; x50; x44; x46].
Definition json_body : Buffer := [x5b; x31; x2c; x32; x5d].
Definition html : string := "<html><body><pre>[1,2]</pre></body></html>".

(** Hostname of an [http://] or [https://] URL: the text after the scheme
    up to the first of [/], [?], [#] and [:]. *)
Fixpoint host_prefix (s : string) : string :=
  match s with
  | EmptyString => EmptyString
  | String c rest =>
      if (Ascii.eqb c "/" || Ascii.eqb c "?" || Ascii.eqb c "#" || Ascii.eqb c ":")%bool
      then EmptyString
      else String c (host_prefix rest)
  end.

Definition hostname (s : string) : option string :=
  if String.prefix "https://" s
  then Some (toLowerCase (host_prefix (String.substring 8 (String.length s - 8) s)))
  else if String.prefix "http://" s
  then Some (toLowerCase (host_prefix (String.substring 7 (String.length s - 7) s)))
  else if String.eqb s "about:blank" then Some ""
  else None.

(** Modelled from the spec: the status-to-classification table of
    [helpers/get_error], whose source is absent; a null status is a
    navigation failure, 4xx a client-side and 5xx a server-side page
    error, and a status below 300 has no classification. *)
Definition classify (status : option Z) : option string :=
  match status with
  | None => Some "No response received"
  | Some n =>
      if n <? 300 then None
      else if n <? 400 then Some "Redirection"
      else if n <? 500 then Some "Client Error"
      else Some "Server Error"
  end.

Definition too_large : Thrown :=
  ErrorObj "page.screenshot: Cannot take screenshot larger than 32767 pixels on any dimension".

Definition timeout_error (what : string) (ms : Z) : Thrown :=
  ErrorObj (what +:+ ": Timeout " +:+ show_Z ms +:+ "ms exceeded.").

Definition respond (c : Call) (n : nat) : Completion (ret c) :=
  match c as c0 return Completion (ret c0) with
  | UserAgent_toString => Normal "Mozilla/5.0 (X11; Linux x86_64)"
  | Browser_newContext _ => Normal n
  | Context_route _ _ _ => Normal tt
  | Context_newPage _ => Normal n
  | Context_close _ => Normal tt
  | Page_setExtraHTTPHeaders _ _ => Normal tt
  | Page_goto _ target _ ms =>
      if includes target "unreachable.example" then Throw (timeout_error "page.goto" ms)
      else if String.eqb target "about:blank" then Normal None
      else if includes target "/api/"
      then Normal (Some {| resp_handle := 1; resp_status := 200 |})
      else if includes target "/gone"
      then Normal (Some {| resp_handle := 2; resp_status := 404 |})
      else Normal (Some {| resp_handle := 0; resp_status := 200 |})
  | Page_waitForTimeout _ _ => Normal tt
  | Page_waitForSelector _ selector ms =>
      if String.eqb selector "#missing"
      then Throw (timeout_error "page.waitForSelector" ms)
      else Normal tt
  | Page_content _ => Normal html
  | Page_url _ => Normal "https://example.com/"
  | Page_screenshot _ fullPage =>
      if fullPage
      then Throw too_large
      else Normal png
  | Page_click _ selector =>
      if String.eqb selector "#missing"
      then Throw (timeout_error "page.click" 30000)
      else Normal tt
  | Locator_all _ selector =>
      if String.eqb selector "#missing" then Normal [] else Normal [10; 11; 12]%nat
  | Element_click _ => Normal tt
  | Keyboard_type _ _ => Normal tt
  | Keyboard_press _ _ => Normal tt
  | Locator_scrollTop_add _ _ _ => Normal tt
  | Window_scrollBy _ _ _ => Normal tt
  | Page_evaluate _ script =>
      if String.eqb script "throw 1"
      then Throw (ErrorObj "page.evaluate: 1")
      else Normal (JsString "Example Domain")
  | Page_pdf _ options =>
      if String.eqb (default "" (pdf_format options)) "Poster"
      then Throw (ErrorObj "page.pdf: Unknown paper format: Poster")
      else Normal pdf
  | Page_close _ => Normal tt
  | Response_allHeaders r =>
      if (resp_handle r =? 1)%nat
      then Normal [("Content-Type", "Application/JSON; charset=utf-8")]
      else Normal [("content-type", "text/html")]
  | Response_body _ => Normal json_body
  | Date_toISOString => Normal "2024-01-02T03:04:05.678Z"
  | Fs_mkdirSync _ => Normal tt
  | Fs_writeFileSync _ _ => Normal tt
  end.

#[local] Instance platform : Platform := {|
  B := nat;
  perform := fun c n => (S n, respond c n);
  URL_hostname := hostname;
  getError := classify;
  BLOCK_MEDIA := false;
  MAX_CONCURRENT_PAGES := 2;
  SCREENSHOTS_DIR := "/srv/screenshots";
  PROXY_SERVER := None;
  PROXY_USERNAME := None;
  PROXY_PASSWORD := None
|}.

(** The world after start-up. *)
Definition empty_disk : Disk := {| dirs := ∅; files := ∅ |}.

Definition w0 : World := world (boot 0%nat empty_disk).

Definition request (target : string) : UrlModel :=
  {| url := Some target; wait_after_load := None; timeout := None; headers := None;
     check_selector := None; skip_tls_verification := None; actions := None;
     screenshot := None; full_page_screenshot := None |}.

Definition with_actions (acts : list Action) (r : UrlModel) : UrlModel :=
  {| url := url r; wait_after_load := wait_after_load r; timeout := timeout r;
     headers := headers r; check_selector := check_selector r;
     skip_tls_verification := skip_tls_verification r; actions := Some acts;
     screenshot := screenshot r; full_page_screenshot := full_page_screenshot r |}.

Definition with_screenshot (r : UrlModel) : UrlModel :=
  {| url := url r; wait_after_load := wait_after_load r; timeout := timeout r;
     headers := headers r; check_selector := check_selector r;
     skip_tls_verification := skip_tls_verification r; actions := actions r;
     screenshot := Some true; full_page_screenshot := full_page_screenshot r |}.

Definition with_full_page_screenshot (r : UrlModel) : UrlModel :=
  {| url := url r; wait_after_load := wait_after_load r; timeout := timeout r;
     headers := headers r; check_selector := check_selector r;
     skip_tls_verification := skip_tls_verification r; actions := actions r;
     screenshot := screenshot r; full_page_screenshot := Some true |}.

(** The same browser with every fault removed: a call that would throw
    resolves to an empty value instead. *)
Definition blank (c : Call) : ret c :=
  match c as c0 return ret c0 with
  | UserAgent_toString | Page_content _ | Page_url _ | Date_toISOString => ""
  | Browser_newContext _ => 0%nat
  | Context_newPage _ => 0%nat
  | Page_goto _ _ _ _ => None
  | Page_screenshot _ _ | Page_pdf _ _ | Response_body _ => []
  | Locator_all _ _ => []
  | Page_evaluate _ _ => JsUndefined
  | Response_allHeaders _ => []
  | Context_route _ _ _ | Context_close _ | Page_setExtraHTTPHeaders _ _
  | Page_waitForTimeout _ _ | Page_waitForSelector _ _ _ | Page_click _ _
  | Element_click _ | Keyboard_type _ _ | Keyboard_press _ _
  | Locator_scrollTop_add _ _ _ | Window_scrollBy _ _ _ | Page_close _
  | Fs_mkdirSync _ | Fs_writeFileSync _ _ => tt
  end.

Definition calm_respond (c : Call) (n : nat) : Completion (ret c) :=
  Normal (normal_or (blank c) (respond c n)).

Definition calm : Platform := {|
  B := nat;
  perform := fun c n => (S n, calm_respond c n);
  URL_hostname := hostname;
  getError := classify;
  BLOCK_MEDIA := true;
  MAX_CONCURRENT_PAGES := 2;
  SCREENSHOTS_DIR := "/srv/screenshots";
  PROXY_SERVER := Some "http://proxy.example:8080";
  PROXY_USERNAME := None;
  PROXY_PASSWORD := None
|}.

Definition calm_w0 : @World calm := world (boot (H := calm) 0%nat empty_disk).

End Demo.

(** The concrete platform with scripts that return a BigInt:
    [page.evaluate] resolves to [10n], everything else is as in [Demo]. *)
Module Big.

Definition respond (c : Call) (n : nat) : Completion (ret c) :=
  match c as c0 return Completion (ret c0) with
  | Page_evaluate _ _ => Normal (JsBigInt 10)
  | c0 => Demo.respond c0 n
  end.

Definition platform : Platform := {|
  B := nat;
  perform := fun c n => (S n, respond c n);
  URL_hostname := Demo.hostname;
  getError := Demo.classify;
  BLOCK_MEDIA := false;
  MAX_CONCURRENT_PAGES := 2;
  SCREENSHOTS_DIR := "/srv/screenshots";
  PROXY_SERVER := None;
  PROXY_USERNAME := None;
  PROXY_PASSWORD := None
|}.

Definition w0 : @World platform := world (boot (H := platform) 0%nat Demo.empty_disk).

End Big.

(** ** Bookkeeping for histories

    Counters and logs that are read off a run; they take no part in it. *)

Module SemaphoreLog.
Import Semaphore.

Definition is_acquire (o : op) : bool :=
  match o with
  | Acquire _ => true
  | Release => false
  end.

(** The [acquire()] and [release()] calls of a history. *)
Definition acquires (ops : list op) : nat := length (List.filter is_acquire ops).
Definition releases (ops : list op) : nat :=
  length (List.filter (fun o => negb (is_acquire o)) ops).

(** The promises of [acquire()] a history has resolved from state [s] on:
    those resolved at once, and those of queued callers that a
    [release()] resolved. *)
Fixpoint grants (ops : list op) (s : t) : nat :=
  match ops with
  | [] => 0
  | Acquire who :: rest =>
      ((if snd (acquire who s) then 1 else 0) + grants rest (fst (acquire who s)))%nat
  | Release :: rest =>
      ((match snd (release s) with Some _ => 1 | None => 0 end)
       + grants rest (fst (release s)))%nat
  end.

End SemaphoreLog.

(** The actions of each producing kind. *)
Definition is_screenshot_action (a : Action) : bool :=
  match a with Screenshot _ => true | _ => false end.
Definition is_scrape_action (a : Action) : bool :=
  match a with Scrape => true | _ => false end.
Definition is_javascript_action (a : Action) : bool :=
  match a with ExecuteJavascript _ => true | _ => false end.
Definition is_pdf_action (a : Action) : bool :=
  match a with Pdf _ _ _ => true | _ => false end.

Definition count_actions (kind : Action -> bool) (acts : list Action) : nat :=
  length (List.filter kind acts).

Section Admission.

Context `{Platform}.

(** The order in which requests reached [pageSemaphore.acquire()] and the
    order in which their promises were resolved. *)
Record Admissions := { arrived : list Waiter; resolved : list Waiter }.

Definition note (ev : Event) (s : System) (l : Admissions) : Admissions :=
  match ev with
  | Arrive who =>
      if known who s then l
      else {| arrived := arrived l ++ [who];
              resolved := if snd (pageSemaphore_acquire who (world s))
                          then resolved l ++ [who]
                          else resolved l |}
  | Finish who req target =>
      if bool_decide (who ∈ sessions s)
      then {| arrived := arrived l;
              resolved := resolved l
                          ++ drop (length (woken (world s)))
                               (woken (world (step ev s))) |}
      else l
  end.

Fixpoint admissions (evs : list Event) (s : System) (l : Admissions) : Admissions :=
  match evs with
  | [] => l
  | ev :: rest => admissions rest (step ev s) (note ev s l)
  end.

End Admission.

(** Two variations of the concrete platform: one with a page that cannot
    be closed, [page.close()] rejecting, and one on which no route can be
    installed, [context.route()] rejecting; everything else is as in
    [Demo]. *)
Module Stuck.

Definition respond (c : Call) (n : nat) : Completion (ret c) :=
  match c as c0 return Completion (ret c0) with
  | Page_close _ => Throw (ErrorObj "page.close: Target crashed")
  | c0 => Demo.respond c0 n
  end.

Definition platform : Platform := {|
  B := nat;
  perform := fun c n => (S n, respond c n);
  URL_hostname := Demo.hostname;
  getError := Demo.classify;
  BLOCK_MEDIA := false;
  MAX_CONCURRENT_PAGES := 2;
  SCREENSHOTS_DIR := "/srv/screenshots";
  PROXY_SERVER := None;
  PROXY_USERNAME := None;
  PROXY_PASSWORD := None
|}.

Definition w0 : @World platform := world (boot (H := platform) 0%nat Demo.empty_disk).

Definition respond_unrouted (c : Call) (n : nat) : Completion (ret c) :=
  match c as c0 return Completion (ret c0) with
  | Context_route _ _ _ => Throw (ErrorObj "browserContext.route: Target closed")
  | c0 => Demo.respond c0 n
  end.

Definition unrouted : Platform := {|
  B := nat;
  perform := fun c n => (S n, respond_unrouted c n);
  URL_hostname := Demo.hostname;
  getError := Demo.classify;
  BLOCK_MEDIA := false;
  MAX_CONCURRENT_PAGES := 2;
  SCREENSHOTS_DIR := "/srv/screenshots";
  PROXY_SERVER := None;
  PROXY_USERNAME := None;
  PROXY_PASSWORD := None
|}.

Definition unrouted_w0 : @World unrouted :=
  world (boot (H := unrouted) 0%nat Demo.empty_disk).

End Stuck.

(** ** Start-up, the health probe and the head of the [/scrape] handler

    The code before [pageSemaphore.acquire()] and the [/health] handler
    read and assign the module variable [browser].  A process is the
    world together with that variable, [true] once a launch has assigned
    it, and the log of the launches made. *)

Record LaunchOptions := { headless : bool; args : list string }.

(** The [args] of [chromium.launch] in [initializeBrowser]. *)
Definition LAUNCH_ARGS : list string := [
  "--no-sandbox";
  "--disable-setuid-sandbox";
  "--disable-dev-shm-usage";
  "--disable-accelerated-2d-canvas";
  "--no-first-run";
  "--no-zygote";
  "--disable-gpu"
].

(** What this code needs from outside the process beyond [Platform]:
    [chromium.launch(options)], run against the platform state;
    [JSON.stringify] of a headers object; and the constant [HEADLESS]
    read from the process environment. *)
Class Runtime `{Platform} := {
  chromium_launch : LaunchOptions -> B -> B * Completion unit;
  JSON_stringify : Headers -> string;
  HEADLESS : bool
}.

Record Process `{Platform} := {
  proc_world : World;
  browser : bool;
  launched : list LaunchOptions
}.

(** The JSON documents of [/health]. *)
Inductive HealthJson :=
| Healthy (maxConcurrentPages activePages : Z)
| Unhealthy (error : string).

Record HealthResponse := { health_status : Z; health_body : HealthJson }.

(** How the head of the [/scrape] handler leaves a request: answered with
    a 400, past [acquire()], suspended in [acquire()], or, when the launch
    rejects, never answered, the handler's promise rejecting with the
    launch error. *)
Inductive Arrival :=
| Rejected
| Granted
| Queued
| Unanswered (e : Thrown).

Section Entry.

Context {H : Platform} {R : Runtime}.

Notation "x <- m ;; k" := (bind m (fun x => k))
  (at level 100, m at next level, right associativity) : js_scope.
Notation "m ;; k" := (bind m (fun _ => k))
  (at level 100, right associativity) : js_scope.
Local Open Scope js_scope.

(** Computations on a process. *)
Definition P (A : Type) : Type := Process -> Process * Completion A.

Definition pbind {A C} (m : P A) (k : A -> P C) : P C :=
  fun p =>
    let '(p1, r) := m p in
    match r with
    | Normal a => k a p1
    | Throw e => (p1, Throw e)
    end.

(** A computation on the world, run in a process. *)
Definition in_world {A} (m : M A) : P A :=
  fun p =>
    let '(w, r) := m (proc_world p) in
    ({| proc_world := w; browser := browser p; launched := launched p |}, r).

(** [initializeBrowser]: [browser] is assigned when the launch resolves. *)
Definition initializeBrowser : P unit :=
  pbind (in_world (console_log ("Launching browser with headless: "
                                +:+ show_bool HEADLESS)))
    (fun _ p =>
       let options := {| headless := HEADLESS; args := LAUNCH_ARGS |} in
       let w := proc_world p in
       let '(b, r) := chromium_launch options (env w) in
       ({| proc_world := {| env := b; disk := disk w; console := console w;
                            calls := calls w; pageSemaphore := pageSemaphore w;
                            woken := woken w; sent := sent w |};
           browser := match r with
                      | Normal _ => true
                      | Throw _ => browser p
                      end;
           launched := launched p ++ [options] |}, r)).

(** [if (!browser) { await initializeBrowser(); }]. *)
Definition ensure_browser : P unit :=
  fun p => if browser p then (p, Normal tt) else initializeBrowser p.

(** *** [/health] *)

(** Lines 418-421: a context and a page are opened and closed. *)
Definition health_probe : M unit :=
  testContext <- createContext false ;;
  testPage <- call (Context_newPage testContext) ;;
  call (Page_close testPage) ;;
  call (Context_close testContext).

(** [error instanceof Error ? error.message : 'Unknown error occurred']. *)
Definition health_error (err : Thrown) : string :=
  match err with
  | ErrorObj message => message
  | OtherValue _ => "Unknown error occurred"
  end.

(** The handler; its result is the response it sends. *)
Definition health : Process -> Process * HealthResponse :=
  fun p =>
    match pbind ensure_browser (fun _ => in_world health_probe) p with
    | (p1, Normal _) =>
        (p1, {| health_status := 200;
                health_body :=
                  Healthy MAX_CONCURRENT_PAGES
                    (MAX_CONCURRENT_PAGES
                     - Semaphore.getAvailablePermits (pageSemaphore (proc_world p1))) |})
    | (p1, Throw err) =>
        (fst (in_world (console_error ("Health check failed: " +:+ errorMsg err)) p1),
         {| health_status := 503; health_body := Unhealthy (health_error err) |})
    end.

(** *** [/scrape] up to [pageSemaphore.acquire()] *)

(** Lines 451-461: the banner. *)
Definition scrape_banner (req : UrlModel) : M unit :=
  console_log "================= Scrape Request =================" ;;
  console_log ("URL: " +:+ default "undefined" (url req)) ;;
  console_log ("Wait After Load: " +:+ show_Z (default 0 (wait_after_load req))) ;;
  console_log ("Timeout: " +:+ show_Z (default 15000 (timeout req))) ;;
  console_log ("Headers: " +:+ match headers req with
                               | Some hs => JSON_stringify hs
                               | None => "None"
                               end) ;;
  console_log ("Check Selector: " +:+ (if truthy_opt (check_selector req)
                                       then default "" (check_selector req)
                                       else "None")) ;;
  console_log ("Skip TLS Verification: "
               +:+ show_bool (default false (skip_tls_verification req))) ;;
  console_log ("Screenshot: " +:+ show_bool (default false (screenshot req))) ;;
  console_log ("Full Page Screenshot: "
               +:+ show_bool (default false (full_page_screenshot req))) ;;
  console_log ("Actions: " +:+ show_nat (match actions req with
                                         | Some acts => length acts
                                         | None => 0%nat
                                         end) +:+ " actions") ;;
  console_log "==================================================".

(** Lines 439-478, for the request of caller [who]. *)
Definition scrape_head (who : Waiter) (req : UrlModel) : Process -> Process * Arrival :=
  fun p =>
    let p1 := fst (in_world (scrape_banner req) p) in
    if negb (truthy_opt (url req))
    then (fst (in_world (res_json 400 (ErrorBody "URL is required")) p1), Rejected)
    else if negb (isValidUrl (default "" (url req)))
    then (fst (in_world (res_json 400 (ErrorBody "Invalid URL")) p1), Rejected)
    else
      let p2 :=
        fst (in_world
               (when (negb (truthy_opt PROXY_SERVER))
                  (console_warn "⚠️ WARNING: No proxy server provided. Your IP address may be blocked."))
               p1) in
      match ensure_browser p2 with
      | (p3, Throw e) => (p3, Unanswered e)
      | (p3, Normal _) =>
          let '(w, now) := pageSemaphore_acquire who (proc_world p3) in
          ({| proc_world := w; browser := browser p3; launched := launched p3 |},
           if now then Granted else Queued)
      end.

(** The world with [lines] appended to the console, and the computations
    that do nothing else. *)
Definition logging (lines : list (Level * string)) (w : World) : World :=
  {| env := env w; disk := disk w; console := console w ++ lines;
     calls := calls w; pageSemaphore := pageSemaphore w; woken := woken w;
     sent := sent w |}.

Definition only_logs (m : M unit) : Prop :=
  forall w, exists lines, m w = (logging lines w, Normal tt).

(** The whole handler for a request that [acquire()] lets through at
    once. *)
Definition scrape (who : Waiter) (req : UrlModel) : Process -> Process * Arrival :=
  fun p =>
    let '(p1, arrival) := scrape_head who req p in
    match arrival with
    | Granted =>
        (fst (in_world (scrape_admitted req (default "" (url req))) p1), Granted)
    | _ => (p1, arrival)
    end.

End Entry.

(** Launches and [JSON.stringify] for the concrete platform: a launch
    that resolves and one that rejects; the headers are rendered without
    escapes. *)
Module Host.

Definition stringify (hs : Headers) : string :=
  "{" +:+ String.concat ","
            (map (fun kv => dquote +:+ fst kv +:+ dquote +:+ ":"
                            +:+ dquote +:+ snd kv +:+ dquote) hs)
  +:+ "}".

Definition runtime : @Runtime Demo.platform := {|
  chromium_launch := fun _ (n : @B Demo.platform) => (S n, Normal tt);
  JSON_stringify := stringify;
  HEADLESS := true
|}.

Definition failing : @Runtime Demo.platform := {|
  chromium_launch := fun _ (n : @B Demo.platform) =>
    (S n, Throw (ErrorObj "browserType.launch: Executable doesn't exist"));
  JSON_stringify := stringify;
  HEADLESS := true
|}.

(** The process before any launch, and once the browser is assigned. *)
Definition cold : @Process Demo.platform :=
  {| proc_world := Demo.w0; browser := false; launched := [] |}.

Definition warm : @Process Demo.platform :=
  {| proc_world := Demo.w0; browser := true;
     launched := [{| headless := true; args := LAUNCH_ARGS |}] |}.

End Host.

(** ** The client of the service ([scrapeURLWithPlaywright])

    What the client does with a parsed response body: the [schema] it
    hands to the fetch helper, and the test that guards [getInnerJson]. *)
Module Client.

(** The zod object schema on a document of the service.  [content] and
    [pageStatusCode] are required, a string and a number; the other keys
    are optional, and a document of type [RenderJson] has them with the
    types the schema asks for whenever it has them. *)
Definition schema_accepts (body : Body) : bool :=
  match body with
  | RenderBody r =>
      match pageStatusCode r with
      | Some _ => true
      | None => false
      end
  | ErrorBody _ => false
  end.

(** [response.contentType?.includes("application/json")]. *)
Definition wants_inner_json (contentType : option string) : bool :=
  match contentType with
  | Some ct => includes ct "application/json"
  | None => false
  end.

End Client.

(** The concrete platform with a JSON endpoint that names its content type
    in lower case. *)
Module Api.

Definition respond (c : Call) (n : nat) : Completion (ret c) :=
  match c as c0 return Completion (ret c0) with
  | Response_allHeaders _ => Normal [("content-type", "application/json")]
  | c0 => Demo.respond c0 n
  end.

Definition platform : Platform := {|
  B := nat;
  perform := fun c n => (S n, respond c n);
  URL_hostname := Demo.hostname;
  getError := Demo.classify;
  BLOCK_MEDIA := false;
  MAX_CONCURRENT_PAGES := 2;
  SCREENSHOTS_DIR := "/srv/screenshots";
  PROXY_SERVER := None;
  PROXY_USERNAME := None;
  PROXY_PASSWORD := None
|}.

Definition w0 : @World platform := world (boot (H := platform) 0%nat Demo.empty_disk).

End Api.

(** * Properties *)

(** A run is the pair of its final world and its completion. *)
Lemma run_eq {W A} (m : W * Completion A) (c : Completion A) :
  snd m = c -> m = (fst m, c).
Proof. intros <-. now destruct m. Qed.

(** ** The semaphore *)

Module SemaphoreFacts.
Import Semaphore.

Lemma settled_new n : 0 <= n -> settled (new n).
Proof. intros Hn; split; [exact Hn | intros Hq; now elim Hq]. Qed.

Lemma settled_exec o s : settled s -> settled (exec o s).
Proof.
  unfold settled. intros [Hp Hq]. destruct o as [who|]; cbn.
  - unfold acquire. destruct (Z.ltb_spec 0 (permits s)) as [Hlt|Hge]; cbn.
    + split; [lia|]. intros Hne. apply Hq in Hne. lia.
    + split; [lia|]. intros _. lia.
  - unfold release. destruct (queue s) as [|w rest] eqn:E; cbn.
    + split; [lia|]. intros Hne; now elim Hne.
    + assert (permits s = 0) by (apply Hq; discriminate).
      split; [lia|]. intros _. lia.
Qed.

Lemma settled_run ops : forall s, settled s -> settled (run ops s).
Proof.
  induction ops as [|o ops IH]; intros s Hs; cbn; [exact Hs|].
  apply IH, settled_exec, Hs.
Qed.

Lemma run_app ops1 ops2 s : run (ops1 ++ ops2) s = run ops2 (run ops1 s).
Proof. unfold run. apply fold_left_app. Qed.

Lemma acquire_all_run callers : forall s,
  fst (acquire_all callers s) = run (map Acquire callers) s.
Proof.
  induction callers as [|who rest IH]; intros s; cbn; [reflexivity|].
  destruct (acquire who s) as [s1 now] eqn:E1.
  destruct (acquire_all rest s1) as [s2 later] eqn:E2.
  cbn. rewrite <- IH, E2. reflexivity.
Qed.



End SemaphoreFacts.



(** ** The action interpreter *)

Lemma append_results_empty_r r : append_results r empty_results = r.
Proof. destruct r; unfold append_results; cbn. now rewrite !app_nil_r. Qed.

Lemma append_results_empty_l r : append_results empty_results r = r.
Proof. now destruct r. Qed.

Lemma append_results_assoc a b c :
  append_results (append_results a b) c = append_results a (append_results b c).
Proof. unfold append_results; cbn. now rewrite <- !app_assoc. Qed.

Ltac unfold_js :=
  unfold action_step, executeAction, takeScreenshot, fs_existsSync, fs_mkdirSync,
    fs_writeFileSync, get_disk, set_disk, console_log, console_warn, console_error,
    console_write, when, try_catch, bind, mreturn, throw, call in *.

Ltac case_js :=
  repeat match goal with
    | |- context [perform ?c ?b] =>
        let E := fresh "E" in destruct (perform c b) as [? [?|?]] eqn:E; cbn
    | |- context [match ?x with _ => _ end] =>
        let E := fresh "E" in destruct x eqn:E; cbn
    end.

Section ActionFacts.

Context `{Platform}.

(** What an action does to the world does not depend on the accumulator,
    and its pushes go after what the accumulator holds. *)
Lemma executeAction_onto page a r w :
  executeAction page a r w
  = (fst (executeAction page a empty_results w),
     onto r (snd (executeAction page a empty_results w))).
Proof.
  destruct a; unfold_js; cbn;
    case_js; unfold onto, append_results; cbn;
    rewrite ?app_nil_r; try reflexivity; now destruct r.
Qed.

Lemma action_step_onto page total i a r w :
  action_step page total i a r w
  = (fst (action_step page total i a empty_results w),
     onto r (snd (action_step page total i a empty_results w))).
Proof.
  unfold action_step, bind, try_catch, console_log, console_write. cbn.
  rewrite executeAction_onto.
  destruct (executeAction page a empty_results _) as [w1 [d|e]]; cbn; [reflexivity|].
  unfold console_error, console_write, mreturn; cbn.
  now rewrite append_results_empty_r.
Qed.

(** An iteration never throws. *)
Lemma action_step_normal page total i a r w :
  exists r', snd (action_step page total i a r w) = Normal r'.
Proof.
  unfold action_step, bind, try_catch, console_log, console_write. cbn.
  destruct (executeAction page a r _) as [w1 [d|e]]; cbn; eauto.
Qed.

Lemma executeActions_from_normal page total acts : forall i r w,
  exists r', snd (executeActions_from page total i acts r w) = Normal r'.
Proof.
  induction acts as [|a rest IH]; intros i r w; cbn; [eauto|].
  unfold bind. destruct (action_step_normal page total i a r w) as [r1 E].
  destruct (action_step page total i a r w) as [w1 c]; cbn in E; subst c.
  apply IH.
Qed.

Lemma executeActions_from_onto page total acts : forall i r w,
  executeActions_from page total i acts r w
  = (fst (executeActions_from page total i acts empty_results w),
     onto r (snd (executeActions_from page total i acts empty_results w))).
Proof.
  induction acts as [|a rest IH]; intros i r w; cbn.
  - unfold mreturn; cbn. now rewrite append_results_empty_r.
  - unfold bind. rewrite action_step_onto.
    destruct (action_step_normal page total i a empty_results w) as [d E].
    destruct (action_step page total i a empty_results w) as [w1 c]; cbn in E; subst c.
    cbn. rewrite IH. rewrite (IH (S i) d).
    destruct (executeActions_from_normal page total rest (S i) empty_results w1)
      as [d' E'].
    destruct (executeActions_from page total (S i) rest empty_results w1) as [w2 c];
      cbn in E'; subst c.
    cbn. now rewrite append_results_assoc.
Qed.

Lemma executeActions_from_app page total pre post : forall i r w,
  executeActions_from page total i (pre ++ post) r w
  = (let '(w1, c) := executeActions_from page total i pre r w in
     match c with
     | Normal r1 => executeActions_from page total (i + length pre) post r1 w1
     | Throw e => (w1, Throw e)
     end).
Proof.
  induction pre as [|a rest IH]; intros i r w; cbn.
  - unfold mreturn. now rewrite Nat.add_0_r.
  - unfold bind. destruct (action_step page total i a r w) as [w1 [r1|e]]; [|reflexivity].
    rewrite IH. now replace (S i + length rest)%nat with (i + S (length rest))%nat by lia.
Qed.

End ActionFacts.

(** ** What a computation leaves alone *)

Section Frames.

Context `{Platform}.

Lemma steady_refl w : steady w w.
Proof. split; try reflexivity; exists []; now rewrite app_nil_r. Qed.

Lemma steady_trans w1 w2 w3 : steady w1 w2 -> steady w2 w3 -> steady w1 w3.
Proof.
  intros [S1 W1 T1 (l1 & L1) (n1 & C1 & F1)] [S2 W2 T2 (l2 & L2) (n2 & C2 & F2)].
  split; try congruence.
  - exists (l1 ++ l2). now rewrite L2, L1, app_assoc.
  - exists (n1 ++ n2). split.
    + now rewrite C2, C1, app_assoc.
    + unfold closes in *. now rewrite List.filter_app, F1, F2.
Qed.

Lemma keeps_mreturn {A} (a : A) : keeps (mreturn a).
Proof. intros w. apply steady_refl. Qed.

Lemma keeps_throw {A} e : keeps (@throw _ A e).
Proof. intros w. apply steady_refl. Qed.

Lemma keeps_bind {A C} (m : M A) (k : A -> M C) :
  keeps m -> (forall a, keeps (k a)) -> keeps (bind m k).
Proof.
  intros Hm Hk w. unfold bind. specialize (Hm w).
  destruct (m w) as [w1 [a|e]]; cbn in *; [|exact Hm].
  eapply steady_trans; [exact Hm | apply Hk].
Qed.

Lemma keeps_try_catch {A} (m : M A) (h : Thrown -> M A) :
  keeps m -> (forall e, keeps (h e)) -> keeps (try_catch m h).
Proof.
  intros Hm Hh w. unfold try_catch. specialize (Hm w).
  destruct (m w) as [w1 [a|e]]; cbn in *; [exact Hm|].
  eapply steady_trans; [exact Hm | apply Hh].
Qed.

Lemma keeps_when b (m : M unit) : keeps m -> keeps (when b m).
Proof. intros Hm. destruct b; cbn; [exact Hm | apply keeps_mreturn]. Qed.

Lemma keeps_call c : is_close c = false -> keeps (call c).
Proof.
  intros Hc w. unfold call. destruct (perform c (env w)) as [b r]; cbn.
  split; cbn; try reflexivity.
  - exists []. now rewrite app_nil_r.
  - exists [c]. split; [reflexivity|]. unfold closes; cbn. now rewrite Hc.
Qed.

Lemma keeps_console_write l line : keeps (console_write l line).
Proof.
  intros w. split; cbn; try reflexivity.
  - now exists [(l, line)].
  - exists []. now rewrite app_nil_r.
Qed.

Lemma keeps_get_disk : keeps get_disk.
Proof. intros w. apply steady_refl. Qed.

Lemma keeps_set_disk d : keeps (set_disk d).
Proof.
  intros w. split; cbn; try reflexivity; exists []; now rewrite app_nil_r.
Qed.

End Frames.

Ltac keeps_step :=
  lazymatch goal with
  | |- keeps (bind _ _) => apply keeps_bind; [|intros ?]
  | |- keeps (try_catch _ _) => apply keeps_try_catch; [|intros ?]
  | |- keeps (when _ _) => apply keeps_when
  | |- keeps (mreturn _) => apply keeps_mreturn
  | |- keeps (throw _) => apply keeps_throw
  | |- keeps (call ?c) => apply (keeps_call c); reflexivity
  | |- keeps (console_log _) => apply keeps_console_write
  | |- keeps (console_warn _) => apply keeps_console_write
  | |- keeps (console_error _) => apply keeps_console_write
  | |- keeps get_disk => apply keeps_get_disk
  | |- keeps (set_disk _) => apply keeps_set_disk
  | |- keeps (match ?x with _ => _ end) => destruct x
  | |- keeps (let _ := _ in _) => cbv zeta
  end.

Ltac keeps_tac := repeat keeps_step.

Section FrameFacts.

Context `{Platform}.

Lemma keeps_fs_existsSync p : keeps (fs_existsSync p).
Proof. unfold fs_existsSync. keeps_tac. Qed.

Lemma keeps_fs_mkdirSync d : keeps (fs_mkdirSync d).
Proof. unfold fs_mkdirSync. keeps_tac. Qed.

Lemma keeps_fs_writeFileSync f d : keeps (fs_writeFileSync f d).
Proof. unfold fs_writeFileSync. keeps_tac. Qed.

Lemma keeps_takeScreenshot page fullPage : keeps (takeScreenshot page fullPage).
Proof.
  unfold takeScreenshot. keeps_tac;
    auto using keeps_fs_existsSync, keeps_fs_mkdirSync, keeps_fs_writeFileSync.
Qed.

Lemma keeps_scrapePage page target wu wal ms sel :
  keeps (scrapePage page target wu wal ms sel).
Proof. unfold scrapePage. keeps_tac. Qed.

Lemma keeps_click_each elements : keeps (click_each elements).
Proof. induction elements; cbn; keeps_tac. assumption. Qed.

Lemma keeps_executeAction page a r : keeps (executeAction page a r).
Proof.
  destruct a; cbn; keeps_tac; auto using keeps_takeScreenshot, keeps_click_each.
Qed.

Lemma keeps_action_step page total i a r : keeps (action_step page total i a r).
Proof. unfold action_step. keeps_tac. apply keeps_executeAction. Qed.

Lemma keeps_executeActions_from page total acts : forall i r,
  keeps (executeActions_from page total i acts r).
Proof.
  induction acts as [|a rest IH]; intros i r; cbn; keeps_tac.
  - apply keeps_action_step.
  - apply IH.
Qed.

Lemma keeps_createContext skip : keeps (createContext skip).
Proof. unfold createContext. keeps_tac. Qed.

Lemma keeps_scrape_navigate req target page : keeps (scrape_navigate req target page).
Proof. unfold scrape_navigate. keeps_tac. apply keeps_scrapePage. Qed.

Lemma keeps_scrape_actions req page : keeps (scrape_actions req page).
Proof.
  unfold scrape_actions, executeActions. keeps_tac. apply keeps_executeActions_from.
Qed.

Lemma keeps_scrape_screenshot req page ar : keeps (scrape_screenshot req page ar).
Proof. unfold scrape_screenshot. keeps_tac. apply keeps_takeScreenshot. Qed.

End FrameFacts.

(** ** What completes on a platform without faults *)

Section Returns.

Context `{Platform}.

Lemma returns_mreturn {A} (a : A) : returns (mreturn a).
Proof. intros w. now exists a. Qed.

Lemma returns_bind {A C} (m : M A) (k : A -> M C) :
  returns m -> (forall a, returns (k a)) -> returns (bind m k).
Proof.
  intros Hm Hk w. unfold bind. destruct (Hm w) as [a Ea].
  destruct (m w) as [w1 c]. cbn in Ea. subst c. apply Hk.
Qed.

Lemma returns_try_catch {A} (m : M A) (h : Thrown -> M A) :
  returns m -> returns (try_catch m h).
Proof.
  intros Hm w. unfold try_catch. destruct (Hm w) as [a Ea].
  destruct (m w) as [w1 c]. cbn in Ea. subst c. now exists a.
Qed.

Lemma returns_when b (m : M unit) : returns m -> returns (when b m).
Proof. intros Hm. destruct b; cbn; [exact Hm | apply returns_mreturn]. Qed.

Lemma returns_call c : fault_free -> returns (call c).
Proof.
  intros Hok w. unfold call. destruct (Hok c (env w)) as [a Ea].
  destruct (perform c (env w)) as [b r]. cbn in Ea. subst r. now exists a.
Qed.

Lemma returns_console_write l line : returns (console_write l line).
Proof. intros w. now exists tt. Qed.

Lemma returns_get_disk : returns get_disk.
Proof. intros w. now exists (disk w). Qed.

Lemma returns_set_disk d : returns (set_disk d).
Proof. intros w. now exists tt. Qed.

Lemma returns_res_json code body :
  json_fault body = None -> returns (res_json code body).
Proof. intros Hj w. unfold res_json. rewrite Hj. now exists tt. Qed.

End Returns.

Ltac returns_step Hok :=
  lazymatch goal with
  | |- returns (bind _ _) => apply returns_bind; [|intros ?]
  | |- returns (try_catch _ _) => apply returns_try_catch
  | |- returns (when _ _) => apply returns_when
  | |- returns (mreturn _) => apply returns_mreturn
  | |- returns (call ?c) => apply (returns_call c Hok)
  | |- returns (console_log _) => apply returns_console_write
  | |- returns (console_warn _) => apply returns_console_write
  | |- returns (console_error _) => apply returns_console_write
  | |- returns (res_json _ _) => apply returns_res_json; reflexivity
  | |- returns get_disk => apply returns_get_disk
  | |- returns (set_disk _) => apply returns_set_disk
  | |- returns (match ?x with _ => _ end) => destruct x
  | |- returns (let _ := _ in _) => cbv zeta
  end.

Ltac returns_tac Hok := repeat returns_step Hok.

Section ReturnFacts.

Context `{Platform}.

Lemma returns_takeScreenshot page fullPage :
  fault_free -> returns (takeScreenshot page fullPage).
Proof.
  intros Hok. unfold takeScreenshot, fs_existsSync, fs_mkdirSync, fs_writeFileSync.
  returns_tac Hok.
Qed.

Lemma returns_scrapePage page target wu wal ms sel :
  fault_free -> returns (scrapePage page target wu wal ms sel).
Proof. intros Hok. unfold scrapePage. returns_tac Hok. Qed.

Lemma returns_createContext skip : fault_free -> returns (createContext skip).
Proof. intros Hok. unfold createContext. returns_tac Hok. Qed.

Lemma returns_executeActions page acts : returns (executeActions page acts).
Proof. intros w. apply executeActions_from_normal. Qed.

Lemma returns_scrape_navigate req target page :
  fault_free -> returns (scrape_navigate req target page).
Proof.
  intros Hok. unfold scrape_navigate. returns_tac Hok; auto using returns_scrapePage.
Qed.

Lemma returns_scrape_screenshot req page ar :
  fault_free -> returns (scrape_screenshot req page ar).
Proof.
  intros Hok. unfold scrape_screenshot.
  returns_tac Hok; auto using returns_takeScreenshot.
Qed.

End ReturnFacts.

(** ** The try block of the handler *)

Section TryFacts.

Context `{Platform}.

Lemma scrape_actions_normal req page w :
  exists ar, snd (scrape_actions req page w) = Normal ar.
Proof.
  unfold scrape_actions. destruct (actions req) as [acts|]; [|cbn; eauto].
  destruct (0 <? length acts)%nat; [|cbn; eauto].
  unfold bind, console_log, console_write, executeActions; cbn.
  match goal with |- context [executeActions_from ?p ?t ?i ?l ?r ?w] =>
    destruct (executeActions_from_normal p t l i r w) as [r' E];
    destruct (executeActions_from p t i l r w) as [w1 c]; cbn in E; subst c
  end.
  cbn. eauto.
Qed.

(** *** The values the scripts returned *)

Lemma first_fault_app a b :
  first_fault (a ++ b)
  = match first_fault a with
    | Some message => Some message
    | None => first_fault b
    end.
Proof.
  induction a as [|v a IH]; cbn; [reflexivity|].
  destruct (stringify_fault (jsr_value v)); [reflexivity | exact IH].
Qed.

(** On a platform whose scripts return what [JSON.stringify] accepts, so
    are the return values an action pushes. *)
Lemma executeAction_values page a w w' d :
  evaluates_to_json ->
  executeAction page a empty_results w = (w', Normal d) ->
  first_fault (javascriptReturns d) = None.
Proof.
  intros Hj. destruct a; unfold_js; cbn; case_js; intros Hrun; inversion Hrun; subst;
    cbn; try reflexivity.
  match goal with
  | Hp : perform (Page_evaluate ?p ?s) ?b = (_, Normal ?v) |- _ =>
      rewrite (Hj p s b v) by (now rewrite Hp)
  end.
  reflexivity.
Qed.

Lemma action_step_values page total i a r w w' r' :
  evaluates_to_json ->
  first_fault (javascriptReturns r) = None ->
  action_step page total i a r w = (w', Normal r') ->
  first_fault (javascriptReturns r') = None.
Proof.
  intros Hj Hr. rewrite action_step_onto.
  unfold action_step, bind, try_catch, console_log, console_write.
  cbn [fst snd].
  destruct (executeAction page a empty_results _) as [w1 [d|e]] eqn:E; cbn;
    intros Hrun; injection Hrun as _ <-.
  - unfold append_results. cbn. rewrite first_fault_app, Hr.
    exact (executeAction_values _ _ _ _ _ Hj E).
  - rewrite append_results_empty_r. exact Hr.
Qed.

Lemma executeActions_from_values page total acts : forall i r w w' r',
  evaluates_to_json ->
  first_fault (javascriptReturns r) = None ->
  executeActions_from page total i acts r w = (w', Normal r') ->
  first_fault (javascriptReturns r') = None.
Proof.
  induction acts as [|a rest IH]; intros i r w w' r' Hj Hr; cbn.
  - unfold mreturn. intros E. now injection E as _ <-.
  - unfold bind. destruct (action_step page total i a r w) as [w1 [r1|e]] eqn:E1;
      [|discriminate].
    apply (IH (S i) r1 w1 w' r' Hj).
    exact (action_step_values _ _ _ _ _ _ _ _ Hj Hr E1).
Qed.

Lemma scrape_actions_values req page w w' ar :
  evaluates_to_json ->
  scrape_actions req page w = (w', Normal ar) ->
  first_fault (script_values ar) = None.
Proof.
  intros Hj. unfold scrape_actions.
  destruct (actions req) as [acts|]; [|intros E; now injection E as _ <-].
  destruct (0 <? length acts)%nat; [|intros E; now injection E as _ <-].
  unfold bind at 1 2, console_log at 1, console_write at 1. cbn [fst snd].
  unfold executeActions.
  destruct (executeActions_from page (length acts) 0 acts empty_results _)
    as [w1 [r|e]] eqn:E; [|discriminate].
  cbn. intros Hrun. injection Hrun as _ <-. cbn.
  exact (executeActions_from_values _ _ _ _ empty_results _ _ _ Hj eq_refl E).
Qed.

(** The screenshot stretch leaves the return values of the scripts as
    they are. *)
Lemma scrape_screenshot_values req page ar w w' shot :
  scrape_screenshot req page ar w = (w', Normal shot) ->
  script_values (snd shot) = script_values ar.
Proof.
  unfold scrape_screenshot. destruct (wants_screenshot req).
  - unfold bind at 1 2 3, console_log at 1, console_write at 1. cbn [fst snd].
    destruct (takeScreenshot page _ _) as [w1 [d|e]]; [|discriminate].
    cbn. intros E. injection E as _ <-. cbn.
    destruct ar as [r|]; [|now destruct (truthy d)].
    now destruct (length (screenshots r)).
  - cbn. intros E. injection E as _ <-. now destruct ar.
Qed.

(** The document of a render serialises when the return values do. *)
Lemma render_json_fault result pageError sd ar :
  json_fault (RenderBody (render_json result pageError sd ar))
  = match ar with
    | Some r => if has_output r then first_fault (javascriptReturns r) else None
    | None => None
    end.
Proof.
  unfold json_fault, render_json. cbn [res_actions].
  destruct ar as [r|]; [|reflexivity]. now destruct (has_output r).
Qed.

Lemma render_json_serializes result pageError sd ar :
  first_fault (script_values ar) = None ->
  json_fault (RenderBody (render_json result pageError sd ar)) = None.
Proof.
  intros Hv. rewrite render_json_fault. destruct ar as [r|]; [|reflexivity].
  now destruct (has_output r).
Qed.

(** *** The response of a render *)

(** The closing stretch sends the render response, unless its document
    does not serialise: then it throws and nothing is sent. *)
Lemma scrape_respond_run result sd ar w :
  match json_fault (http_body (render_response result (sd, ar))) with
  | None =>
      exists w', scrape_respond result sd ar w = (w', Normal tt)
        /\ pageSemaphore w' = pageSemaphore w /\ woken w' = woken w
        /\ calls w' = calls w
        /\ sent w' = sent w ++ [render_response result (sd, ar)]
  | Some message =>
      exists w', scrape_respond result sd ar w = (w', Throw (ErrorObj message))
        /\ steady w w'
  end.
Proof.
  unfold render_response. cbn [http_body fst snd].
  unfold scrape_respond, bind, console_log, console_write, res_json.
  destruct (json_fault _) as [message|];
    destruct (negb _); cbn; eexists; (split; [reflexivity|]);
    try (repeat split; reflexivity);
    (split; cbn; try reflexivity; [eexists; reflexivity | exists []; split;
       [now rewrite app_nil_r | reflexivity]]).
Qed.

(** A render whose three stretches complete and whose document serialises
    answers with [render_response]. *)
Lemma scrape_try_completes req target page w w1 w2 w3 result ar shot :
  scrape_navigate req target page w = (w1, Normal result) ->
  scrape_actions req page w1 = (w2, Normal ar) ->
  scrape_screenshot req page ar w2 = (w3, Normal shot) ->
  json_fault (http_body (render_response result shot)) = None ->
  exists w4, scrape_try req target page w = (w4, Normal tt)
    /\ steady w w3
    /\ pageSemaphore w4 = pageSemaphore w /\ woken w4 = woken w
    /\ calls w4 = calls w3
    /\ sent w4 = sent w ++ [render_response result shot].
Proof.
  intros E1 E2 E3 Hj.
  assert (S3 : steady w w3).
  { eapply steady_trans; [|eapply steady_trans].
    - generalize (keeps_scrape_navigate req target page w). rewrite E1. exact id.
    - generalize (keeps_scrape_actions req page w1). rewrite E2. exact id.
    - generalize (keeps_scrape_screenshot req page ar w2). rewrite E3. exact id. }
  unfold scrape_try, bind. rewrite E1, E2, E3.
  pose proof (scrape_respond_run result (fst shot) (snd shot) w3) as Hr.
  destruct shot as [sd ar']. cbn [fst snd] in *. rewrite Hj in Hr.
  destruct Hr as (w4 & E4 & S4 & W4 & C4 & T4).
  exists w4. rewrite E4.
  split; [reflexivity|]. split; [exact S3|].
  destruct S3 as [S W T L C]. repeat split; congruence.
Qed.

(** A render whose three stretches complete and whose document does not
    serialise throws the [TypeError] of [JSON.stringify], nothing sent. *)
Lemma scrape_try_unserializable req target page w w1 w2 w3 result ar shot message :
  scrape_navigate req target page w = (w1, Normal result) ->
  scrape_actions req page w1 = (w2, Normal ar) ->
  scrape_screenshot req page ar w2 = (w3, Normal shot) ->
  json_fault (http_body (render_response result shot)) = Some message ->
  exists w4, scrape_try req target page w = (w4, Throw (ErrorObj message))
    /\ steady w w4.
Proof.
  intros E1 E2 E3 Hj.
  assert (S3 : steady w w3).
  { eapply steady_trans; [|eapply steady_trans].
    - generalize (keeps_scrape_navigate req target page w). rewrite E1. exact id.
    - generalize (keeps_scrape_actions req page w1). rewrite E2. exact id.
    - generalize (keeps_scrape_screenshot req page ar w2). rewrite E3. exact id. }
  unfold scrape_try, bind. rewrite E1, E2, E3.
  pose proof (scrape_respond_run result (fst shot) (snd shot) w3) as Hr.
  destruct shot as [sd ar']. cbn [fst snd] in *. rewrite Hj in Hr.
  destruct Hr as (w4 & E4 & S4).
  exists w4. rewrite E4. split; [reflexivity|]. eapply steady_trans; eassumption.
Qed.

(** A render that throws has sent nothing. *)
Lemma scrape_try_throws req target page w w' e :
  scrape_try req target page w = (w', Throw e) -> steady w w'.
Proof.
  intros E.
  generalize (keeps_scrape_navigate req target page w).
  destruct (scrape_navigate req target page w) as [w1 [result|e1]] eqn:E1; cbn;
    [|unfold scrape_try, bind in E; rewrite E1 in E; injection E as <- _; exact id].
  intros S1.
  generalize (keeps_scrape_actions req page w1).
  destruct (scrape_actions req page w1) as [w2 [ar|e2]] eqn:E2; cbn;
    [|unfold scrape_try, bind in E; rewrite E1, E2 in E; injection E as <- _;
      intros S2; eapply steady_trans; eassumption].
  intros S2.
  generalize (keeps_scrape_screenshot req page ar w2).
  destruct (scrape_screenshot req page ar w2) as [w3 [shot|e3]] eqn:E3; cbn;
    [|unfold scrape_try, bind in E; rewrite E1, E2, E3 in E; injection E as <- _;
      intros S3; eauto using steady_trans].
  intros S3.
  destruct (json_fault (http_body (render_response result shot))) as [message|] eqn:Hj.
  - destruct (scrape_try_unserializable _ _ _ _ _ _ _ _ _ _ _ E1 E2 E3 Hj)
      as (w4 & E4 & S4).
    rewrite E in E4. injection E4 as <- _. exact S4.
  - destruct (scrape_try_completes _ _ _ _ _ _ _ _ _ _ E1 E2 E3 Hj) as (w4 & E4 & _).
    rewrite E in E4. discriminate.
Qed.

(** The stretches of a render that completes. *)
Lemma scrape_try_inv req target page w w4 :
  scrape_try req target page w = (w4, Normal tt) ->
  exists w1 w2 w3 result ar shot,
    scrape_navigate req target page w = (w1, Normal result)
    /\ scrape_actions req page w1 = (w2, Normal ar)
    /\ scrape_screenshot req page ar w2 = (w3, Normal shot)
    /\ json_fault (http_body (render_response result shot)) = None.
Proof.
  intros E.
  destruct (scrape_navigate req target page w) as [w1 [result|e1]] eqn:E1;
    [|unfold scrape_try, bind in E; rewrite E1 in E; discriminate].
  destruct (scrape_actions req page w1) as [w2 [ar|e2]] eqn:E2;
    [|unfold scrape_try, bind in E; rewrite E1, E2 in E; discriminate].
  destruct (scrape_screenshot req page ar w2) as [w3 [shot|e3]] eqn:E3;
    [|unfold scrape_try, bind in E; rewrite E1, E2, E3 in E; discriminate].
  exists w1, w2, w3, result, ar, shot.
  split; [first [exact E1 | reflexivity]|].
  split; [first [exact E2 | reflexivity]|].
  split; [first [exact E3 | reflexivity]|].
  destruct (json_fault (http_body (render_response result shot))) as [message|] eqn:Hj;
    [|reflexivity].
  destruct (scrape_try_unserializable _ _ _ _ _ _ _ _ _ _ _ E1 E2 E3 Hj)
    as (w5 & E5 & _).
  rewrite E in E5. discriminate.
Qed.

(** On a platform without faults whose scripts return what
    [JSON.stringify] accepts, the try block completes. *)
Lemma returns_scrape_try req target page :
  fault_free -> evaluates_to_json -> returns (scrape_try req target page).
Proof.
  intros Hok Hj w.
  destruct (returns_scrape_navigate req target page Hok w) as [result E1].
  destruct (scrape_navigate req target page w) as [w1 c1] eqn:R1. cbn in E1. subst c1.
  destruct (scrape_actions_normal req page w1) as [ar E2].
  destruct (scrape_actions req page w1) as [w2 c2] eqn:R2. cbn in E2. subst c2.
  destruct (returns_scrape_screenshot req page ar Hok w2) as [shot E3].
  destruct (scrape_screenshot req page ar w2) as [w3 c3] eqn:R3. cbn in E3. subst c3.
  destruct (scrape_try_completes _ _ _ _ _ _ _ _ _ _ R1 R2 R3) as (w4 & E4 & _).
  { apply render_json_serializes.
    rewrite (scrape_screenshot_values _ _ _ _ _ _ R3).
    exact (scrape_actions_values _ _ _ _ _ Hj R2). }
  exists tt. now rewrite E4.
Qed.

End TryFacts.

(** C1. A fault raised by action [k] is logged and the loop goes on with
    the actions after it: the batch returns, without throwing, what the
    actions before and after [k] produced.  No action list makes
    [executeActions] throw, and an action of unknown type only logs a
    warning.  In a render whose navigation completed and which asks for no
    top-level screenshot the actions stretch completes whatever the
    actions do, and the render is answered with its 200 response; the one
    exception is a document that [JSON.stringify] rejects because a script
    returned a BigInt or a cyclic object, where [res.json] throws its
    [TypeError] with nothing sent, which cannot happen on a platform whose
    scripts return only values that serialise. *)
Theorem executeActions_isolates_faults `{Platform} (page : Page) :
  (forall (pre post : list Action) (a : Action) (w w1 w2 : World)
          (r1 : ActionResults) (e : Thrown),
      let acts := pre ++ a :: post in
      let k := length pre in
      executeActions_from page (length acts) 0 pre empty_results w = (w1, Normal r1) ->
      executeAction page a r1
        (fst (console_log (progress_line (length acts) k a) w1)) = (w2, Throw e) ->
      exists w3 w4 r2,
        w3 = fst (console_error ("  ❌ Action failed: " +:+ errorMsg e) w2)
        /\ console w3 = console w2 ++ [(error, "  ❌ Action failed: " +:+ errorMsg e)]
        /\ executeActions_from page (length acts) (S k) post empty_results w3
           = (w4, Normal r2)
        /\ In (error, "  ❌ Action failed: " +:+ errorMsg e) (console w4)
        /\ executeActions page acts w = (w4, Normal (append_results r1 r2)))
  /\ (forall (acts : list Action) (w : World),
         exists r, snd (executeActions page acts w) = Normal r)
  /\ (forall (type : string) (total i : nat) (r : ActionResults) (w : World),
         let w' := fst (action_step page total i (Unknown type) r w) in
         snd (action_step page total i (Unknown type) r w) = Normal r
         /\ calls w' = calls w
         /\ console w' = console w
                         ++ [(log, progress_line total i (Unknown type));
                             (warn, "⚠️ Unknown action type: " +:+ type)])
  /\ (forall (req : UrlModel) (target : string) (w w1 : World) (result : ScrapeOutcome),
         scrape_navigate req target page w = (w1, Normal result) ->
         wants_screenshot req = false ->
         exists w2 ar,
           scrape_actions req page w1 = (w2, Normal ar)
           /\ (let document :=
                 RenderBody (render_json result (pageError_of (so_status result))
                               None ar) in
               match json_fault document with
               | None =>
                   exists w',
                     scrape_try req target page w = (w', Normal tt)
                     /\ sent w' = sent w ++ [{| http_status := 200;
                                                http_body := document |}]
               | Some message =>
                   exists w',
                     scrape_try req target page w = (w', Throw (ErrorObj message))
                     /\ sent w' = sent w
               end
               /\ (evaluates_to_json -> json_fault document = None))).
Proof.
  split; [|split; [|split]].
  - intros pre post a w w1 w2 r1 e acts k Epre Ea.
    unfold executeActions. subst acts. rewrite executeActions_from_app, Epre.
    cbn [executeActions_from]. unfold bind at 1.
    unfold action_step at 1. unfold bind at 1, try_catch at 1.
    fold k. change (0 + k)%nat with k.
    destruct (console_log (progress_line (length (pre ++ a :: post)) k a) w1)
      as [wl cl] eqn:El.
    assert (cl = Normal tt) by (unfold console_log, console_write in El; congruence).
    subst cl. cbn [fst] in Ea. rewrite Ea.
    unfold bind at 1.
    destruct (console_error ("  ❌ Action failed: " +:+ errorMsg e) w2) as [w3 c3] eqn:E3.
    assert (c3 = Normal tt) by (unfold console_error, console_write in E3; congruence).
    subst c3. unfold mreturn at 1.
    rewrite executeActions_from_onto.
    destruct (executeActions_from_normal page (length (pre ++ a :: post)) post (S k)
                empty_results w3) as [r2 E2].
    destruct (executeActions_from page (length (pre ++ a :: post)) (S k) post
                empty_results w3) as [w4 c4] eqn:E4.
    cbn in E2. subst c4. exists w3, w4, r2.
    assert (Hw3 : w3 = fst (console_error ("  ❌ Action failed: " +:+ errorMsg e) w2))
      by now rewrite E3.
    assert (Hc3 : console w3
                  = console w2 ++ [(error, "  ❌ Action failed: " +:+ errorMsg e)])
      by now rewrite Hw3.
    split; [first [exact Hw3 | reflexivity]|]. split; [exact Hc3|].
    split; [first [exact E4 | reflexivity]|].
    split; [|reflexivity].
    pose proof (keeps_executeActions_from page (length (pre ++ a :: post)) post (S k)
                  empty_results w3) as Hk.
    rewrite E4 in Hk. destruct (steady_console _ _ Hk) as [lines Hl]. cbn [fst] in Hl.
    rewrite Hl, Hc3. apply in_or_app. left. apply in_or_app. right. now left.
  - intros acts w. apply executeActions_from_normal.
  - intros type total i r w. cbn. unfold progress_line. cbn.
    split; [reflexivity | split; [reflexivity | now rewrite <- app_assoc]].
  - intros req target w w1 result Enav Hshot.
    destruct (scrape_actions_normal req page w1) as [ar Ear].
    destruct (scrape_actions req page w1) as [w2 c2] eqn:E2. cbn in Ear. subst c2.
    assert (E3 : scrape_screenshot req page ar w2 = (w2, Normal (None, ar))).
    { unfold scrape_screenshot. rewrite Hshot. cbn. now destruct ar. }
    exists w2, ar. split; [reflexivity|]. cbn zeta. split.
    + destruct (json_fault _) as [message|] eqn:Hj.
      * destruct (scrape_try_unserializable _ _ _ _ _ _ _ _ _ _ _ Enav E2 E3 Hj)
          as (w4 & E4 & S4).
        exists w4. split; [exact E4 | exact (steady_sent _ _ S4)].
      * destruct (scrape_try_completes _ _ _ _ _ _ _ _ _ _ Enav E2 E3 Hj)
          as (w4 & E4 & _ & _ & _ & _ & T4).
        exists w4. split; [exact E4 | exact T4].
    + intros Hjson. apply render_json_serializes.
      exact (scrape_actions_values _ _ _ _ _ Hjson E2).
Qed.

(** ** The handler around the try block *)

Section HandlerFacts.

Context `{Platform}.

Lemma scrape_catch_run e w :
  exists w', scrape_catch e w = (w', Normal tt)
    /\ pageSemaphore w' = pageSemaphore w /\ woken w' = woken w
    /\ calls w' = calls w
    /\ sent w' = sent w ++ [failure_response].
Proof. unfold scrape_catch, bind, console_error, console_write, res_json. cbn. eauto 10. Qed.

(** The [finally] block never touches the responses. *)
Lemma scrape_finally_sent rc pg w : sent (fst (scrape_finally rc pg w)) = sent w.
Proof.
  unfold scrape_finally, bind, call, mreturn, pageSemaphore_release.
  destruct pg, rc; cbn; case_js; reflexivity.
Qed.

(** When its closes complete, the [finally] block issues them in order and
    releases the permit once. *)
Lemma scrape_finally_run rc pg w :
  (forall p b, snd (perform (Page_close p) b) = Normal tt) ->
  (forall c b, snd (perform (Context_close c) b) = Normal tt) ->
  exists w', scrape_finally rc pg w = (w', Normal tt)
    /\ pageSemaphore w' = fst (Semaphore.release (pageSemaphore w))
    /\ woken w' = woken w ++ option_list (snd (Semaphore.release (pageSemaphore w)))
    /\ calls w' = calls w ++ teardown_calls rc pg
    /\ sent w' = sent w.
Proof.
  intros Hp Hc.
  unfold scrape_finally, bind, call, mreturn, pageSemaphore_release, teardown_calls.
  destruct pg as [p|], rc as [c|]; cbn.
  - specialize (Hp p (env w)). destruct (perform (Page_close p) (env w)) as [b1 r1].
    cbn in Hp. subst r1. cbn.
    specialize (Hc c b1). destruct (perform (Context_close c) b1) as [b2 r2].
    cbn in Hc. subst r2. cbn.
    destruct (Semaphore.release (pageSemaphore w)) as [s next]. cbn.
    eexists. split; [reflexivity|]. cbn. rewrite <- app_assoc. auto.
  - specialize (Hp p (env w)). destruct (perform (Page_close p) (env w)) as [b1 r1].
    cbn in Hp. subst r1. cbn.
    destruct (Semaphore.release (pageSemaphore w)) as [s next]. cbn.
    eexists. split; [reflexivity|]. cbn. auto.
  - specialize (Hc c (env w)). destruct (perform (Context_close c) (env w)) as [b2 r2].
    cbn in Hc. subst r2. cbn.
    destruct (Semaphore.release (pageSemaphore w)) as [s next]. cbn.
    eexists. split; [reflexivity|]. cbn. auto.
  - destruct (Semaphore.release (pageSemaphore w)) as [s next]. cbn.
    eexists. split; [reflexivity|]. cbn. rewrite app_nil_r. auto.
Qed.

(** The try block under its catch: one response, nothing closed. *)
Lemma guarded_try_run req target page w :
  exists w' resp,
    try_catch (scrape_try req target page) scrape_catch w = (w', Normal tt)
    /\ pageSemaphore w' = pageSemaphore w /\ woken w' = woken w
    /\ (exists new, calls w' = calls w ++ new /\ closes new = [])
    /\ sent w' = sent w ++ [resp]
    /\ match scrape_try req target page w with
       | (w3, Normal _) => sent w3 = sent w ++ [resp]
       | (_, Throw _) => resp = failure_response
       end.
Proof.
  unfold try_catch.
  destruct (scrape_try req target page w) as [w3 [[]|e]] eqn:E.
  - destruct (scrape_try_inv _ _ _ _ _ E)
      as (w1 & w2 & w3' & result & ar & shot & E1 & E2 & E3 & Hjs).
    destruct (scrape_try_completes _ _ _ _ _ _ _ _ _ _ E1 E2 E3 Hjs)
      as (w4 & E4 & S3 & S4 & W4 & C4 & T4).
    rewrite E in E4. injection E4 as <-.
    exists w3, (render_response result shot).
    destruct S3 as [_ _ _ _ (new & Cn & Fn)].
    repeat split; auto. exists new. split; congruence.
  - apply scrape_try_throws in E. destruct E as [S W T L C].
    destruct (scrape_catch_run e w3) as (w' & E' & S' & W' & C' & T').
    exists w', failure_response. rewrite E'.
    repeat split; try congruence.
    destruct C as (new & Cn & Fn). exists new. split; congruence.
Qed.

(** Every admitted request is answered exactly once, and with the
    response of its path, whatever its teardown does. *)
Lemma scrape_admitted_sent req target w :
  exists resp,
    sent (fst (scrape_admitted req target w)) = sent w ++ [resp]
    /\ answer_of req target w resp.
Proof.
  unfold scrape_admitted, answer_of, try_finally.
  generalize (keeps_createContext (default false (skip_tls_verification req)) w).
  destruct (createContext _ w) as [w1 [ctx|e]]; cbn [fst snd]; intros S1.
  - generalize (keeps_call (Context_newPage ctx) eq_refl w1).
    destruct (call (Context_newPage ctx) w1) as [w2 [page|e]]; cbn [fst snd]; intros S2;
      change (ret (Context_newPage ctx)) with Page in *.
    + destruct (guarded_try_run req target page w2)
        as (w' & resp & E & _ & _ & _ & T & A).
      exists resp. rewrite E.
      generalize (scrape_finally_sent (Some ctx) (Some page) w').
      destruct (scrape_finally (Some ctx) (Some page) w') as [w'' [[]|e']]; cbn;
        intros T'; (split; [|exact A]);
        rewrite T', T, (steady_sent _ _ S2), (steady_sent _ _ S1); reflexivity.
    + destruct (scrape_catch_run e w2) as (w' & E & _ & _ & _ & T).
      exists failure_response. rewrite E.
      generalize (scrape_finally_sent (Some ctx) None w').
      destruct (scrape_finally (Some ctx) None w') as [w'' [[]|e']]; cbn;
        intros T'; (split; [|reflexivity]);
        rewrite T', T, (steady_sent _ _ S2), (steady_sent _ _ S1); reflexivity.
  - destruct (scrape_catch_run e w1) as (w' & E & _ & _ & _ & T).
    exists failure_response. rewrite E.
    generalize (scrape_finally_sent None None w').
    destruct (scrape_finally None None w') as [w'' [[]|e']]; cbn;
      intros T'; (split; [|reflexivity]);
      rewrite T', T, (steady_sent _ _ S1); reflexivity.
Qed.

(** One admitted request, start to end, when closes complete. *)
Lemma scrape_admitted_teardown req target w :
  (forall p b, snd (perform (Page_close p) b) = Normal tt) ->
  (forall c b, snd (perform (Context_close c) b) = Normal tt) ->
  let w' := fst (scrape_admitted req target w) in
  snd (scrape_admitted req target w) = Normal tt
  /\ pageSemaphore w' = fst (Semaphore.release (pageSemaphore w))
  /\ woken w' = woken w ++ option_list (snd (Semaphore.release (pageSemaphore w)))
  /\ exists new,
       calls w' = calls w ++ new
       /\ closes new
          = teardown_calls (fst (held_handles req w)) (snd (held_handles req w)).
Proof.
  intros Hp Hc. unfold scrape_admitted, held_handles, try_finally.
  generalize (keeps_createContext (default false (skip_tls_verification req)) w).
  destruct (createContext _ w) as [w1 [ctx|e]]; cbn [fst snd];
    intros [S1 W1 _ _ (n1 & C1 & F1)].
  - generalize (keeps_call (Context_newPage ctx) eq_refl w1).
    destruct (call (Context_newPage ctx) w1) as [w2 [page|e]]; cbn [fst snd];
      intros [S2 W2 _ _ (n2 & C2 & F2)];
      change (ret (Context_newPage ctx)) with Page in *.
    + destruct (guarded_try_run req target page w2)
        as (w3 & resp & E & S3 & W3 & (n3 & C3 & F3) & _).
      rewrite E.
      destruct (scrape_finally_run (Some ctx) (Some page) w3 Hp Hc)
        as (w4 & E4 & S4 & W4 & C4 & _).
      rewrite E4. cbn. repeat split; try congruence.
      exists (n1 ++ n2 ++ n3 ++ teardown_calls (Some ctx) (Some page)). split.
      * rewrite C4, C3, C2, C1. now rewrite <- !app_assoc.
      * unfold closes in *. rewrite !List.filter_app, F1, F2, F3. reflexivity.
    + destruct (scrape_catch_run e w2) as (w3 & E & S3 & W3 & C3 & _).
      rewrite E.
      destruct (scrape_finally_run (Some ctx) None w3 Hp Hc)
        as (w4 & E4 & S4 & W4 & C4 & _).
      rewrite E4. cbn. repeat split; try congruence.
      exists (n1 ++ n2 ++ teardown_calls (Some ctx) None). split.
      * rewrite C4, C3, C2, C1. now rewrite <- !app_assoc.
      * unfold closes in *. rewrite !List.filter_app, F1, F2. reflexivity.
  - destruct (scrape_catch_run e w1) as (w3 & E & S3 & W3 & C3 & _).
    rewrite E.
    destruct (scrape_finally_run None None w3 Hp Hc) as (w4 & E4 & S4 & W4 & C4 & _).
    rewrite E4. cbn. repeat split; try congruence.
    exists (n1 ++ teardown_calls None None). split.
    * rewrite C4, C3, C1. now rewrite <- !app_assoc.
    * unfold closes in *. rewrite !List.filter_app, F1. reflexivity.
Qed.

End HandlerFacts.

(** ** Requests sharing the semaphore *)

Section SystemFacts.

Context `{Platform}.






End SystemFacts.

(** ** The permit, whatever the teardown does *)

Section TeardownFacts.

Context `{Platform}.

(** The [finally] block either completes, having released the permit
    once, or throws from a close, the semaphore left as it was. *)
Lemma scrape_finally_cases rc pg w :
  let w' := fst (scrape_finally rc pg w) in
  (snd (scrape_finally rc pg w) = Normal tt
   /\ pageSemaphore w' = fst (Semaphore.release (pageSemaphore w))
   /\ woken w' = woken w ++ option_list (snd (Semaphore.release (pageSemaphore w))))
  \/ ((exists e, snd (scrape_finally rc pg w) = Throw e)
      /\ pageSemaphore w' = pageSemaphore w /\ woken w' = woken w).
Proof.
  unfold scrape_finally, bind, call, mreturn, pageSemaphore_release.
  destruct pg as [p|], rc as [c|]; cbn;
    repeat match goal with
      | |- context [perform ?c ?b] => destruct (perform c b) as [? [[]|?]]; cbn
      end;
    try (right; split; [eexists; reflexivity | split; reflexivity]);
    left; destruct (Semaphore.release (pageSemaphore w)) as [s next]; cbn; auto.
Qed.

(** The same for the whole handler from admission on. *)
Lemma scrape_admitted_cases req target w :
  let w' := fst (scrape_admitted req target w) in
  (snd (scrape_admitted req target w) = Normal tt
   /\ pageSemaphore w' = fst (Semaphore.release (pageSemaphore w))
   /\ woken w' = woken w ++ option_list (snd (Semaphore.release (pageSemaphore w))))
  \/ ((exists e, snd (scrape_admitted req target w) = Throw e)
      /\ pageSemaphore w' = pageSemaphore w /\ woken w' = woken w).
Proof.
  assert (Hfin : forall rc pg w0 (c : Completion unit),
             c = Normal tt ->
             pageSemaphore w0 = pageSemaphore w -> woken w0 = woken w ->
             let w' := fst (try_finally (fun w => (w0, c)) (scrape_finally rc pg) w) in
             let r := snd (try_finally (fun w => (w0, c)) (scrape_finally rc pg) w) in
             (r = Normal tt
              /\ pageSemaphore w' = fst (Semaphore.release (pageSemaphore w))
              /\ woken w' = woken w
                            ++ option_list (snd (Semaphore.release (pageSemaphore w))))
             \/ ((exists e, r = Throw e)
                 /\ pageSemaphore w' = pageSemaphore w /\ woken w' = woken w)).
  { intros rc pg w0 c -> S0 W0. unfold try_finally.
    pose proof (scrape_finally_cases rc pg w0) as Hc. cbn zeta in Hc.
    destruct (scrape_finally rc pg w0) as [w' [[]|e]]; cbn [fst snd] in *.
    - destruct Hc as [(_ & Hs & Hw)|([e He] & _)]; [|discriminate].
      left. rewrite Hs, Hw, S0, W0. auto.
    - destruct Hc as [(Hd & _)|(_ & Hs & Hw)]; [discriminate|].
      right. rewrite Hs, Hw, S0, W0. eauto. }
  unfold scrape_admitted.
  generalize (keeps_createContext (default false (skip_tls_verification req)) w).
  destruct (createContext _ w) as [w1 [ctx|e]]; cbn [fst snd];
    intros [S1 W1 _ _ _].
  - generalize (keeps_call (Context_newPage ctx) eq_refl w1).
    destruct (call (Context_newPage ctx) w1) as [w2 [page|e]]; cbn [fst snd];
      intros [S2 W2 _ _ _];
      change (ret (Context_newPage ctx)) with Page in *.
    + destruct (guarded_try_run req target page w2)
        as (w3 & resp & E & S3 & W3 & _).
      unfold try_finally at 1 2 3 4 5 6. rewrite E.
      apply (Hfin (Some ctx) (Some page) w3 (Normal tt) eq_refl); congruence.
    + destruct (scrape_catch_run e w2) as (w3 & E & S3 & W3 & _).
      unfold try_finally at 1 2 3 4 5 6. rewrite E.
      apply (Hfin (Some ctx) None w3 (Normal tt) eq_refl); congruence.
  - destruct (scrape_catch_run e w1) as (w3 & E & S3 & W3 & _).
    unfold try_finally at 1 2 3 4 5 6. rewrite E.
    apply (Hfin None None w3 (Normal tt) eq_refl); congruence.
Qed.

End TeardownFacts.



(** The statements on the concrete platform: a request whose second action
    faults and whose page and context are both opened. *)
Lemma executeActions_isolates_faults_witness :
  (exists r,
      snd (executeActions (H := Demo.platform) 7%nat
             [Scrape; Click "#missing" None; Scrape] Demo.w0) = Normal r
      /\ length (scrapes r) = 2%nat)
  /\ (let req := Demo.with_actions [Click "#missing" None; ExecuteJavascript "1"]
                   (Demo.request "https://example.com/") in
      exists r,
        sent (fst (scrape_try (H := Demo.platform) req "https://example.com/" 3%nat
                     Demo.w0))
        = [{| http_status := 200; http_body := RenderBody r |}])
  /\ (let req := Demo.with_actions [ExecuteJavascript "10n"]
                   (Demo.request "https://example.com/") in
      let run := scrape_try (H := Big.platform) req "https://example.com/" 3%nat Big.w0 in
      snd run = Throw (ErrorObj "Do not know how to serialize a BigInt")
      /\ sent (fst run) = []).
Proof.
  split; [|split].
  - set (pre := executeActions_from (H := Demo.platform) 7%nat 3 0 [Scrape]
                  empty_results Demo.w0).
    set (r1 := normal_or empty_results (snd pre)).
    set (wl := fst (console_log (progress_line 3 1 (Click "#missing" None)) (fst pre))).
    set (e := ErrorObj "page.click: Timeout 30000ms exceeded.").
    assert (E1 : pre = (fst pre, Normal r1)).
    { apply run_eq. vm_compute. reflexivity. }
    assert (E2 : executeAction 7%nat (Click "#missing" None) r1 wl
                 = (fst (executeAction 7%nat (Click "#missing" None) r1 wl), Throw e)).
    { apply run_eq. vm_compute. reflexivity. }
    destruct (proj1 (executeActions_isolates_faults (H := Demo.platform) 7%nat)
                [Scrape] [Scrape] (Click "#missing" None) Demo.w0 _ _ r1 e E1 E2)
      as (w3 & w4 & r2 & E3 & _ & E4 & _ & E).
    exists (append_results r1 r2). split; [exact (f_equal snd E)|].
    subst w3.
    apply (f_equal (fun x => length (scrapes (normal_or empty_results (snd x))))) in E4.
    cbn [snd normal_or] in E4. unfold append_results. cbn [scrapes].
    rewrite length_app, <- E4. vm_compute. reflexivity.
  - intros req.
    set (nav := scrape_navigate (H := Demo.platform) req "https://example.com/" 3%nat
                  Demo.w0).
    set (result := normal_or {| so_content := ""; so_status := None; so_headers := None;
                                so_contentType := None |} (snd nav)).
    assert (E1 : nav = (fst nav, Normal result)).
    { apply run_eq. vm_compute. reflexivity. }
    destruct (proj2 (proj2 (proj2 (executeActions_isolates_faults (H := Demo.platform)
                                     3%nat)))
                req "https://example.com/" Demo.w0 (fst nav) result E1 eq_refl)
      as (w2 & ar & E2 & Hrun & _).
    apply (f_equal (fun x => normal_or None (snd x))) in E2. cbn [snd normal_or] in E2.
    assert (Hj : json_fault (RenderBody (render_json result
                                           (pageError_of (H := Demo.platform)
                                              (so_status result)) None ar))
                 = None).
    { rewrite <- E2. vm_compute. reflexivity. }
    rewrite Hj in Hrun. destruct Hrun as (w' & E & T).
    eexists. rewrite E. exact T.
  - intros req run.
    set (nav := scrape_navigate (H := Big.platform) req "https://example.com/" 3%nat
                  Big.w0).
    set (result := normal_or {| so_content := ""; so_status := None; so_headers := None;
                                so_contentType := None |} (snd nav)).
    assert (E1 : nav = (fst nav, Normal result)).
    { apply run_eq. vm_compute. reflexivity. }
    destruct (proj2 (proj2 (proj2 (executeActions_isolates_faults (H := Big.platform)
                                     3%nat)))
                req "https://example.com/" Big.w0 (fst nav) result E1 eq_refl)
      as (w2 & ar & E2 & Hrun & _).
    apply (f_equal (fun x => normal_or None (snd x))) in E2. cbn [snd normal_or] in E2.
    assert (Hj : json_fault (RenderBody (render_json result
                                           (pageError_of (H := Big.platform)
                                              (so_status result)) None ar))
                 = Some "Do not know how to serialize a BigInt").
    { rewrite <- E2. vm_compute. reflexivity. }
    rewrite Hj in Hrun. destruct Hrun as (w' & E & T).
    subst run. rewrite E. split; [reflexivity | exact T].
Defined.


(** ** Navigation and capture *)

Section ScrapePageFacts.

Context `{Platform}.

Lemma includes_empty_false sub : sub <> "" -> includes "" sub = false.
Proof. destruct sub; [congruence | reflexivity]. Qed.

(** The test [scrapePage] makes on the content type, spelled out. *)
Lemma is_raw_content_type_spec ct :
  is_raw_content_type ct = true
  <-> exists s, ct = Some s
        /\ (includes (toLowerCase s) "application/json" = true
            \/ includes (toLowerCase s) "text/plain" = true).
Proof.
  unfold is_raw_content_type. split.
  - destruct ct as [s|]; [|discriminate]. intros Hraw.
    apply andb_true_iff in Hraw as [_ Hinc]. apply orb_true_iff in Hinc. eauto.
  - intros (s & -> & Hinc). apply andb_true_iff. split.
    + destruct s; [|reflexivity]. cbn in Hinc. destruct Hinc; discriminate.
    + now apply orb_true_iff.
Qed.

End ScrapePageFacts.

(** What a returning [scrapePage] did, step by step. *)
Lemma scrapePage_inv `{Platform} (page : Page) (target : string)
    (waitUntil : WaitUntil) (waitAfterLoad timeout : Z) (checkSelector : option string)
    (w w' : World) (o : ScrapeOutcome) :
  scrapePage page target waitUntil waitAfterLoad timeout checkSelector w = (w', Normal o) ->
  exists (response : option Resp) (html : string) (wh : World),
    snd (perform (Page_goto page target waitUntil timeout) (env w)) = Normal response
    /\ snd (call (Page_content page) wh) = Normal html
    /\ match response with
       | None =>
           o = {| so_content := html; so_status := None;
                  so_headers := None; so_contentType := None |}
       | Some r =>
           exists (hs : Headers),
             let wc := fst (call (Page_content page) wh) in
             let wb := fst (call (Response_allHeaders r) wc) in
             snd (call (Response_allHeaders r) wc) = Normal hs
             /\ so_status o = Some (resp_status r)
             /\ so_headers o = Some hs
             /\ so_contentType o = find_content_type hs
             /\ ((exists ct, find_content_type hs = Some ct
                    /\ (includes (toLowerCase ct) "application/json" = true
                        \/ includes (toLowerCase ct) "text/plain" = true))
                 -> exists body, snd (call (Response_body r) wb) = Normal body
                      /\ so_content o = Buffer_toString_utf8 body)
             /\ (~ (exists ct, find_content_type hs = Some ct
                      /\ (includes (toLowerCase ct) "application/json" = true
                          \/ includes (toLowerCase ct) "text/plain" = true))
                 -> so_content o = html)
       end.
Proof.
  unfold scrapePage, bind at 1. intros E.
  destruct (console_log _ w) as [wn [[]|e0]] eqn:El; [|discriminate].
  assert (Hn : env wn = env w).
  { unfold console_log, console_write in El. injection El as <-. reflexivity. }
  unfold bind at 1 in E.
  destruct (call (Page_goto page target waitUntil timeout) wn)
    as [wg [response|e1]] eqn:Eg; [|discriminate].
  unfold bind at 1 in E.
  destruct (when (0 <? waitAfterLoad) _ wg) as [w2 [[]|e2]] eqn:Ew; [|discriminate].
  unfold bind at 1 in E.
  match type of E with
  | context [match ?m w2 with _ => _ end] =>
      destruct (m w2) as [wh [[]|e3]] eqn:Es; [|discriminate]
  end.
  unfold bind at 1 in E.
  destruct (call (Page_content page) wh) as [w4 [html|e4]] eqn:Ec; [|discriminate].
  cbn [ret] in response, html.
  exists response, html, wh. rewrite Ec. cbn [fst snd].
  split.
  { apply (f_equal snd) in Eg. unfold call in Eg. rewrite Hn in Eg.
    destruct (perform _ (env w)) as [b1 r1]. exact Eg. }
  split; [reflexivity|].
  destruct response as [r|].
  - unfold bind at 1 in E.
    destruct (call (Response_allHeaders r) w4) as [wb [hs|e5]] eqn:Eh; [|discriminate].
    cbn [ret] in hs.
    exists hs. cbn zeta. cbn [fst snd]. try rewrite Eh. cbn [fst snd].
    split; [reflexivity|].
    unfold bind at 1 in E.
    destruct (is_raw_content_type (find_content_type hs)) eqn:Eraw.
    + unfold bind at 1 in E.
      destruct (call (Response_body r) wb) as [w6 [body|e6]] eqn:Eb; [|discriminate].
      cbn [ret] in body.
      cbn in E. injection E as <- <-. cbn. repeat split.
      * intros _. exists body. split; reflexivity.
      * intros Hno. elim Hno. now apply is_raw_content_type_spec.
    + cbn in E. injection E as <- <-. cbn. repeat split.
      intros Hyes. apply is_raw_content_type_spec in Hyes. congruence.
  - cbn in E. injection E as <- <-. reflexivity.
Qed.

(** C7. When [scrapePage] returns, its content is the rendered HTML of
    [page.content()] unless navigation produced a response whose
    content-type header, lower-cased, contains [application/json] or
    [text/plain]; then it is the response body read as UTF-8.  With a
    response the outcome carries its status, its headers and the
    content-type found in them; without one the status is null.  On a
    platform without faults [scrapePage] does return. *)
Theorem scrapePage_content_selection `{Platform} (page : Page) (target : string)
    (waitUntil : WaitUntil) (waitAfterLoad timeout : Z) (checkSelector : option string)
    (w : World) :
  (forall (w' : World) (o : ScrapeOutcome),
      scrapePage page target waitUntil waitAfterLoad timeout checkSelector w
      = (w', Normal o) ->
      exists (response : option Resp) (html : string) (wh : World),
          snd (perform (Page_goto page target waitUntil timeout) (env w)) = Normal response
          /\ snd (call (Page_content page) wh) = Normal html
          /\ match response with
             | None =>
                 o = {| so_content := html; so_status := None;
                        so_headers := None; so_contentType := None |}
             | Some r =>
                 exists (hs : Headers),
                   let wc := fst (call (Page_content page) wh) in
                   let wb := fst (call (Response_allHeaders r) wc) in
                   snd (call (Response_allHeaders r) wc) = Normal hs
                   /\ so_status o = Some (resp_status r)
                   /\ so_headers o = Some hs
                   /\ so_contentType o = find_content_type hs
                   /\ ((exists ct, find_content_type hs = Some ct
                          /\ (includes (toLowerCase ct) "application/json" = true
                              \/ includes (toLowerCase ct) "text/plain" = true))
                       -> exists body, snd (call (Response_body r) wb) = Normal body
                            /\ so_content o = Buffer_toString_utf8 body)
                   /\ (~ (exists ct, find_content_type hs = Some ct
                            /\ (includes (toLowerCase ct) "application/json" = true
                                \/ includes (toLowerCase ct) "text/plain" = true))
                       -> so_content o = html)
             end)
  /\ (fault_free ->
      exists o,
        snd (scrapePage page target waitUntil waitAfterLoad timeout checkSelector w)
        = Normal o).
Proof.
  split.
  - intros w' o. apply scrapePage_inv.
  - intros Hok. now apply returns_scrapePage.
Qed.

(** A JSON endpoint on the concrete platform, and the same page on the
    platform without faults. *)
Lemma scrapePage_content_selection_witness :
  (exists o,
      snd (scrapePage (H := Demo.platform) 3%nat "https://example.com/api/items"
             load 0 15000 None Demo.w0) = Normal o
      /\ so_content o = "[1,2]"
      /\ so_status o = Some 200
      /\ so_contentType o = Some "Application/JSON; charset=utf-8")
  /\ (exists o,
         snd (scrapePage (H := Demo.calm) 3%nat "https://example.com/api/items"
                load 0 15000 None Demo.calm_w0) = Normal o).
Proof.
  split.
  - set (run := scrapePage (H := Demo.platform) 3%nat "https://example.com/api/items"
                  load 0 15000 None Demo.w0).
    set (o := normal_or {| so_content := ""; so_status := None; so_headers := None;
                           so_contentType := None |} (snd run)).
    assert (E : run = (fst run, Normal o)).
    { apply run_eq. vm_compute. reflexivity. }
    exists o. split; [now rewrite E|].
    destruct (proj1 (scrapePage_content_selection (H := Demo.platform) 3%nat
                       "https://example.com/api/items" load 0 15000 None Demo.w0)
                (fst run) o E)
      as (response & html & wh & Eg & Ec & Hr).
    cbn in Eg. injection Eg as <-.
    destruct Hr as (hs & Eh & Hs & Hh & Hct & Hraw & _).
    cbn in Eh. injection Eh as <-.
    split; [|split; [exact Hs | exact Hct]].
    destruct Hraw as (body & Eb & Hc).
    { eexists. split; [reflexivity|]. left. vm_compute. reflexivity. }
    rewrite Hc. cbn in Eb. injection Eb as <-. reflexivity.
  - apply (proj2 (scrapePage_content_selection (H := Demo.calm) 3%nat
                    "https://example.com/api/items" load 0 15000 None Demo.calm_w0)).
    intros c b. eexists. reflexivity.
Defined.

(** ** The [pdf] action *)

(** C9. The [pdf] case calls the renderer once, with an options object
    whose format is the action's own, or [Letter] when the action gives
    none, and whose landscape and scale keys are present exactly when the
    action gives them, with the action's values. *)
Theorem pdf_action_options `{Platform} (page : Page) (landscape : option bool)
    (scale : option Q) (format : option string) (results : ActionResults) (w : World) :
  let options := pdfOptions_of landscape scale format in
  calls (fst (executeAction page (Pdf landscape scale format) results w))
  = calls w ++ [Page_pdf page options]
  /\ match format with
     | None => pdf_format options = Some "Letter"
     | Some f => pdf_format options = Some f
     end
  /\ pdf_landscape options = landscape
  /\ pdf_scale options = scale.
Proof.
  cbn. split; [|now destruct format].
  unfold bind, call, console_log, console_write, mreturn.
  destruct (perform _ (env w)) as [b [buf|e]]; reflexivity.
Qed.

(** ** Screenshots *)

(** What a returning [takeScreenshot] did. *)
Lemma takeScreenshot_inv `{Platform} (page : Page)
    (fullPage : option bool) (w w' : World) (data : string) :
  takeScreenshot page fullPage w = (w', Normal data) ->
  exists (png : Buffer) (iso : string) (wd : World),
    let file := path_join SCREENSHOTS_DIR
                  ("screenshot-" +:+ replace_colon_dot iso +:+ ".png") in
    snd (call (Page_screenshot page (default false fullPage)) w) = Normal png
    /\ snd (call Date_toISOString wd) = Normal iso
    /\ data = Buffer_toString_base64 png
    /\ files (disk w') !! file = Some png
    /\ (forall other, other <> file -> files (disk w') !! other = files (disk w) !! other)
    /\ dirs (disk w')
       = (if bool_decide (SCREENSHOTS_DIR ∈ dirs (disk w))
             || bool_decide (is_Some (files (disk w) !! SCREENSHOTS_DIR))
          then dirs (disk w)
          else {[ SCREENSHOTS_DIR ]} ∪ dirs (disk w)).
Proof.
  unfold takeScreenshot, fs_existsSync, fs_mkdirSync, fs_writeFileSync, get_disk,
    set_disk, console_log, console_write, when, bind, mreturn, call.
  intros E.
  destruct (perform (Page_screenshot page (default false fullPage)) (env w))
    as [b1 [png|e1]] eqn:E1; [|discriminate].
  cbn in E.
  destruct (bool_decide (SCREENSHOTS_DIR ∈ dirs (disk w))
            || bool_decide (is_Some (files (disk w) !! SCREENSHOTS_DIR))) eqn:Ex;
    cbn in E.
  - destruct (perform Date_toISOString b1) as [b2 [iso|e2]] eqn:E2; [|discriminate].
    cbn in E.
    destruct (perform (Fs_writeFileSync _ png) b2) as [b3 [[]|e3]] eqn:E3; [|discriminate].
    cbn in E. injection E as <- <-.
    exists png, iso,
      {| env := b1; disk := disk w; console := console w; calls := [];
         pageSemaphore := pageSemaphore w; woken := woken w; sent := sent w |}.
    cbn. rewrite E2. cbn. repeat split.
    + apply lookup_insert_eq.
    + intros other Hne. apply lookup_insert_ne. congruence.
  - destruct (perform (Fs_mkdirSync SCREENSHOTS_DIR) b1) as [b2 [[]|e2]] eqn:E2;
      [|discriminate].
    cbn in E.
    destruct (perform Date_toISOString b2) as [b3 [iso|e3]] eqn:E3; [|discriminate].
    cbn in E.
    destruct (perform (Fs_writeFileSync _ png) b3) as [b4 [[]|e4]] eqn:E4; [|discriminate].
    cbn in E. injection E as <- <-.
    exists png, iso,
      {| env := b2; disk := disk w; console := console w; calls := [];
         pageSemaphore := pageSemaphore w; woken := woken w; sent := sent w |}.
    cbn. rewrite E3. cbn. repeat split.
    + apply lookup_insert_eq.
    + intros other Hne. apply lookup_insert_ne. congruence.
Qed.

(** The disk after a capture, as [takeScreenshot_inv] gives it, carried
    over a world with the same platform state and disk. *)
Lemma takeScreenshot_on_same_disk `{Platform} (page : Page) (fullPage : option bool)
    (w0 w w' : World) (data : string) :
  env w0 = env w -> disk w0 = disk w ->
  takeScreenshot page fullPage w0 = (w', Normal data) ->
  exists (png : Buffer) (iso : string) (wd : World),
    let file := path_join SCREENSHOTS_DIR
                  ("screenshot-" +:+ replace_colon_dot iso +:+ ".png") in
    snd (perform (Page_screenshot page (default false fullPage)) (env w)) = Normal png
    /\ snd (call Date_toISOString wd) = Normal iso
    /\ data = Buffer_toString_base64 png
    /\ files (disk w') !! file = Some png
    /\ (forall other, other <> file -> files (disk w') !! other = files (disk w) !! other)
    /\ dirs (disk w')
       = (if bool_decide (SCREENSHOTS_DIR ∈ dirs (disk w))
             || bool_decide (is_Some (files (disk w) !! SCREENSHOTS_DIR))
          then dirs (disk w)
          else {[ SCREENSHOTS_DIR ]} ∪ dirs (disk w)).
Proof.
  intros He Hd E.
  destruct (takeScreenshot_inv _ _ _ _ _ E) as (png & iso & wd & Ep & Ec & Hdata & Hf & Ho & Hdirs).
  exists png, iso, wd. cbn zeta in *. rewrite <- Hd, <- He.
  unfold call in Ep. destruct (perform _ (env w0)) as [b1 r1]. cbn in Ep.
  repeat split; auto.
Qed.

(** C10. A capture that returns has written the PNG bytes of
    [page.screenshot] to [SCREENSHOTS_DIR/screenshot-<timestamp>.png], the
    timestamp being the ISO time with [:] and [.] replaced by [-]; it
    returns the base64 text of those same bytes, leaves every other file
    as it was, and has created the directory when nothing existed under
    its name.  On a platform without faults every capture returns.  Both
    paths to a capture go through it: a [screenshot] action that completes
    has pushed the base64 text of the bytes it wrote to that file, and only
    that, to the screenshots of the results; and when the screenshot flags
    are set, the top-level stretch that completes yields as
    [screenshotData] the base64 text of the bytes it wrote. *)
Theorem takeScreenshot_saves_what_it_returns `{Platform} (page : Page)
    (fullPage : option bool) (w : World) :
  (forall (w' : World) (data : string),
      takeScreenshot page fullPage w = (w', Normal data) ->
      exists (png : Buffer) (iso : string) (wd : World),
        let file := path_join SCREENSHOTS_DIR
                      ("screenshot-" +:+ replace_colon_dot iso +:+ ".png") in
        snd (call (Page_screenshot page (default false fullPage)) w) = Normal png
        /\ snd (call Date_toISOString wd) = Normal iso
        /\ data = Buffer_toString_base64 png
        /\ files (disk w') !! file = Some png
        /\ (forall other, other <> file ->
               files (disk w') !! other = files (disk w) !! other)
        /\ dirs (disk w')
           = (if bool_decide (SCREENSHOTS_DIR ∈ dirs (disk w))
                 || bool_decide (is_Some (files (disk w) !! SCREENSHOTS_DIR))
              then dirs (disk w)
              else {[ SCREENSHOTS_DIR ]} ∪ dirs (disk w)))
  /\ (fault_free -> exists data, snd (takeScreenshot page fullPage w) = Normal data)
  /\ (forall (results results' : ActionResults) (w' : World),
         executeAction page (Screenshot fullPage) results w = (w', Normal results') ->
         exists (png : Buffer) (iso : string) (wd : World),
           let file := path_join SCREENSHOTS_DIR
                         ("screenshot-" +:+ replace_colon_dot iso +:+ ".png") in
           snd (perform (Page_screenshot page (default false fullPage)) (env w))
           = Normal png
           /\ snd (call Date_toISOString wd) = Normal iso
           /\ results'
              = {| screenshots := screenshots results ++ [Buffer_toString_base64 png];
                   scrapes := scrapes results;
                   javascriptReturns := javascriptReturns results;
                   pdfs := pdfs results |}
           /\ files (disk w') !! file = Some png
           /\ (forall other, other <> file ->
                  files (disk w') !! other = files (disk w) !! other)
           /\ dirs (disk w')
              = (if bool_decide (SCREENSHOTS_DIR ∈ dirs (disk w))
                    || bool_decide (is_Some (files (disk w) !! SCREENSHOTS_DIR))
                 then dirs (disk w)
                 else {[ SCREENSHOTS_DIR ]} ∪ dirs (disk w)))
  /\ (forall (req : UrlModel) (actionResults : option ActionResults) (w' : World)
             (shot : option string * option ActionResults),
         wants_screenshot req = true ->
         fullPage = Some (default false (full_page_screenshot req)) ->
         scrape_screenshot req page actionResults w = (w', Normal shot) ->
         exists (png : Buffer) (iso : string) (wd : World),
           let file := path_join SCREENSHOTS_DIR
                         ("screenshot-" +:+ replace_colon_dot iso +:+ ".png") in
           snd (perform (Page_screenshot page (default false fullPage)) (env w))
           = Normal png
           /\ snd (call Date_toISOString wd) = Normal iso
           /\ fst shot = Some (Buffer_toString_base64 png)
           /\ files (disk w') !! file = Some png
           /\ (forall other, other <> file ->
                  files (disk w') !! other = files (disk w) !! other)
           /\ dirs (disk w')
              = (if bool_decide (SCREENSHOTS_DIR ∈ dirs (disk w))
                    || bool_decide (is_Some (files (disk w) !! SCREENSHOTS_DIR))
                 then dirs (disk w)
                 else {[ SCREENSHOTS_DIR ]} ∪ dirs (disk w))).
Proof.
  split; [|split; [|split]].
  - intros w' data. apply takeScreenshot_inv.
  - intros Hok. now apply returns_takeScreenshot.
  - intros results results' w'. cbn [executeAction]. unfold bind at 1.
    destruct (takeScreenshot page fullPage w) as [w1 [data|e]] eqn:Et; [|discriminate].
    unfold bind, console_log, console_write, mreturn. cbn [fst snd].
    intros E. injection E as <- <-.
    destruct (takeScreenshot_on_same_disk page fullPage w w w1 data eq_refl eq_refl Et)
      as (png & iso & wd & Ep & Ec & -> & Hf & Ho & Hd).
    exists png, iso, wd. cbn zeta in *. cbn [disk]. auto 10.
  - intros req actionResults w' shot Hwant -> E.
    unfold scrape_screenshot in E. rewrite Hwant in E.
    unfold bind at 1 2 3, console_log at 1, console_write at 1 in E.
    cbn [fst snd] in E.
    match type of E with context [takeScreenshot ?p ?f ?w0] =>
      destruct (takeScreenshot p f w0) as [w1 [data|e]] eqn:Et; [|discriminate];
      destruct (takeScreenshot_on_same_disk p f w0 w w1 data eq_refl eq_refl Et)
        as (png & iso & wd & Ep & Ec & -> & Hf & Ho & Hd)
    end.
    cbn in E. injection E as <- <-.
    exists png, iso, wd. cbn zeta in *. cbn [fst]. auto 10.
Qed.

(** A first capture on the concrete platform, on an empty disk; a capture
    on the platform without faults; a [screenshot] action; and the
    top-level stretch of a request with the screenshot flag. *)
Lemma takeScreenshot_saves_what_it_returns_witness :
  (let run := takeScreenshot (H := Demo.platform) 3%nat None Demo.w0 in
   snd run = Normal "iVBORw=="
   /\ files (disk (fst run)) !! "/srv/screenshots/screenshot-2024-01-02T03-04-05-678Z.png"
      = Some Demo.png
   /\ "/srv/screenshots" ∈ dirs (disk (fst run)))
  /\ (exists data,
         snd (takeScreenshot (H := Demo.calm) 3%nat (Some true) Demo.calm_w0)
         = Normal data)
  /\ (let run := executeAction (H := Demo.platform) 3%nat (Screenshot None) empty_results
                   Demo.w0 in
      snd run = Normal {| screenshots := ["iVBORw=="]; scrapes := [];
                          javascriptReturns := []; pdfs := [] |}
      /\ files (disk (fst run))
            !! "/srv/screenshots/screenshot-2024-01-02T03-04-05-678Z.png"
         = Some Demo.png)
  /\ (let run := scrape_screenshot (H := Demo.platform)
                   (Demo.with_screenshot (Demo.request "https://example.com/")) 3%nat
                   None Demo.w0 in
      fst (normal_or (None, None) (snd run)) = Some "iVBORw=="
      /\ files (disk (fst run))
            !! "/srv/screenshots/screenshot-2024-01-02T03-04-05-678Z.png"
         = Some Demo.png).
Proof.
  split; [|split; [|split]].
  - intros run.
    assert (E : run = (fst run, Normal "iVBORw==")).
    { apply run_eq. vm_compute. reflexivity. }
    destruct (proj1 (takeScreenshot_saves_what_it_returns (H := Demo.platform) 3%nat None
                       Demo.w0) (fst run) "iVBORw==" E)
      as (png & iso & wd & Ep & Ed & Hdata & Hfile & _ & Hdirs).
    cbn in Ep. injection Ep as <-. cbn in Ed. injection Ed as <-.
    split; [now rewrite E|]. split; [exact Hfile|].
    rewrite Hdirs. cbn. apply elem_of_union_l, elem_of_singleton. reflexivity.
  - apply (proj1 (proj2 (takeScreenshot_saves_what_it_returns (H := Demo.calm) 3%nat
                           (Some true) Demo.calm_w0))).
    intros c b. eexists. reflexivity.
  - intros run.
    set (made := normal_or empty_results (snd run)).
    assert (E : run = (fst run, Normal made)).
    { apply run_eq. vm_compute. reflexivity. }
    destruct (proj1 (proj2 (proj2 (takeScreenshot_saves_what_it_returns
                                     (H := Demo.platform) 3%nat None Demo.w0)))
                empty_results made (fst run) E)
      as (png & iso & wd & Ep & Ed & Hmade & Hfile & _).
    cbn in Ep. injection Ep as <-. cbn in Ed. injection Ed as <-.
    split; [rewrite E; cbn [snd]; now rewrite Hmade | exact Hfile].
  - intros run.
    set (shot := normal_or (None, None) (snd run)).
    assert (E : run = (fst run, Normal shot)).
    { apply run_eq. vm_compute. reflexivity. }
    destruct (proj2 (proj2 (proj2 (takeScreenshot_saves_what_it_returns
                                     (H := Demo.platform) 3%nat (Some false) Demo.w0)))
                (Demo.with_screenshot (Demo.request "https://example.com/")) None
                (fst run) shot eq_refl eq_refl E)
      as (png & iso & wd & Ep & Ed & Hshot & Hfile & _).
    cbn in Ep. injection Ep as <-. cbn in Ed. injection Ed as <-.
    split; [exact Hshot | exact Hfile].
Defined.

(** ** The network filter *)

(** C5, as the source has it: on a request whose URL the [URL] constructor
    accepts, the handler of the catch-all route returns a decision without
    throwing, abort exactly when the host name contains an entry of
    [AD_SERVING_DOMAINS] and continue otherwise; on a URL the constructor
    rejects, the handler throws the constructor's error. *)
Theorem ad_route_decides_parsed_urls `{Platform} (requestUrl : string) :
  match URL_hostname requestUrl with
  | Some hostname =>
      route_result (route_handler ad_route requestUrl)
      = Normal (if existsb (fun domain => includes hostname domain) AD_SERVING_DOMAINS
                then RouteAbort else RouteContinue)
  | None =>
      route_result (route_handler ad_route requestUrl) = Throw (ErrorObj "Invalid URL")
  end.
Proof.
  unfold route_handler, ad_route_handler.
  destruct (URL_hostname requestUrl) as [hostname|]; [|reflexivity].
  destruct (existsb _ AD_SERVING_DOMAINS); reflexivity.
Qed.

(** A request URL the constructor rejects makes the handler throw: the
    filter is not total and the request is not allowed to continue. *)
Lemma ad_route_throws_on_malformed_url :
  URL_hostname (Platform := Demo.platform) "not a url" = None
  /\ route_result (route_handler (H := Demo.platform) ad_route "not a url")
     = Throw (ErrorObj "Invalid URL")
  /\ route_result (route_handler (H := Demo.platform) ad_route "not a url")
     <> Normal RouteContinue.
Proof. repeat split. discriminate. Qed.

(** ** Faults and what the caller gets *)

Section FaultFacts.

Context `{Platform}.

(** Navigation that throws makes the try block throw. *)
Lemma scrape_try_navigation_fault req target page w :
  (forall p b, exists e,
      snd (perform (Page_goto p target load (default 15000 (timeout req))) b) = Throw e) ->
  exists e, snd (scrape_try req target page w) = Throw e.
Proof.
  intros Hgoto.
  assert (Hpage : forall w0, exists e,
             snd (scrapePage page target load (default 0 (wait_after_load req))
                    (default 15000 (timeout req)) (check_selector req) w0) = Throw e).
  { intros w0. unfold scrapePage, bind at 1 2, console_log, console_write, call.
    cbn [fst snd env].
    destruct (Hgoto page (env w0)) as [e He].
    destruct (perform _ (env w0)) as [b1 r1]. cbn in He. subst r1. cbn. eauto. }
  unfold scrape_try, scrape_navigate, bind at 1 2.
  destruct (headers req) as [hs|].
  - destruct (call (Page_setExtraHTTPHeaders page hs) w) as [w1 [[]|e1]];
      [|cbn; eauto].
    destruct (Hpage w1) as [e He].
    destruct (scrapePage _ _ _ _ _ _ w1) as [w2 c]. cbn in He. subst c. cbn. eauto.
  - unfold mreturn. destruct (Hpage w) as [e He].
    destruct (scrapePage _ _ _ _ _ _ w) as [w2 c]. cbn in He. subst c. cbn. eauto.
Qed.

(** A top-level capture that throws makes the try block throw. *)
Lemma scrape_try_capture_fault req target page w :
  wants_screenshot req = true ->
  (forall p b, exists e,
      snd (perform (Page_screenshot p (default false (full_page_screenshot req))) b)
      = Throw e) ->
  exists e, snd (scrape_try req target page w) = Throw e.
Proof.
  intros Hwant Hshot.
  destruct (scrape_try req target page w) as [w4 [[]|e]] eqn:E; [|cbn; eauto].
  destruct (scrape_try_inv _ _ _ _ _ E)
    as (w1 & w2 & w3 & result & ar & shot & _ & _ & E3 & _).
  assert (Htake : forall w0, exists e,
             snd (takeScreenshot page (Some (default false (full_page_screenshot req)))
                    w0) = Throw e).
  { intros w0. unfold takeScreenshot, bind at 1, call. cbn [default].
    destruct (Hshot page (env w0)) as [e He].
    destruct (perform _ (env w0)) as [b1 r1]. cbn in He. subst r1. cbn. eauto. }
  unfold scrape_screenshot in E3. rewrite Hwant in E3.
  unfold bind at 1 2 3, console_log, console_write in E3. cbn [fst snd] in E3.
  match type of E3 with context [takeScreenshot ?p ?f ?w0] =>
    destruct (Htake w0) as [e He];
    destruct (takeScreenshot p f w0) as [w5 c]; cbn in He; subst c
  end.
  discriminate.
Qed.

(** A try block that throws is answered with the failure response. *)
Lemma scrape_admitted_failure req target w :
  (forall page w2, exists e, snd (scrape_try req target page w2) = Throw e) ->
  sent (fst (scrape_admitted req target w)) = sent w ++ [failure_response].
Proof.
  intros Hthrows. destruct (scrape_admitted_sent req target w) as (resp & Hsent & Ha).
  rewrite Hsent. f_equal. f_equal. unfold answer_of in Ha.
  destruct (createContext _ w) as [w1 [ctx|e]]; [|exact Ha].
  destruct (call (Context_newPage ctx) w1) as [w2 [page|e]]; [|exact Ha].
  destruct (Hthrows page w2) as [e He].
  destruct (scrape_try req target page w2) as [w3 c]. cbn in He. subst c. exact Ha.
Qed.

(** Navigation without a response object leaves the status null. *)
Lemma scrape_navigate_null_status req target page w w1 result :
  (forall p b,
      snd (perform (Page_goto p target load (default 15000 (timeout req))) b)
      = Normal None) ->
  scrape_navigate req target page w = (w1, Normal result) ->
  so_status result = None.
Proof.
  intros Hnull. unfold scrape_navigate, bind at 1. intros E.
  assert (exists w0, scrapePage page target load (default 0 (wait_after_load req))
                       (default 15000 (timeout req)) (check_selector req) w0
                     = (w1, Normal result)) as [w0 E0].
  { destruct (headers req) as [hs|].
    - destruct (call (Page_setExtraHTTPHeaders page hs) w) as [w0 [[]|e0]];
        [eauto | discriminate].
    - unfold mreturn in E. eauto. }
  clear E. rename E0 into E.
  destruct (scrapePage_inv _ _ _ _ _ _ _ _ _ E)
    as (response & html & wh & Eg & _ & Hr).
  rewrite (Hnull page (env w0)) in Eg. injection Eg as <-. now subst result.
Qed.

End FaultFacts.

(** C4, as the source has it.  A request whose navigation throws (a
    timeout, an unreachable host) is answered with the response of the
    handler's catch block, status 500 and a fixed error text.  A request
    whose navigation resolves without a response object is answered with a
    render response whose status code is null and whose page error is what
    [getError] gives for null, unless something else throws, a later call
    or [res.json] on a document that does not serialise; on a platform
    without faults whose scripts return only values that [JSON.stringify]
    accepts it is always that response. *)
Theorem navigation_fault_answers_500 `{Platform} (req : UrlModel) (target : string) :
  let ms := default 15000 (timeout req) in
  ((forall p b, exists e, snd (perform (Page_goto p target load ms) b) = Throw e) ->
   forall w,
     sent (fst (scrape_admitted req target w))
     = sent w ++ [{| http_status := 500;
                     http_body := ErrorBody "An error occurred while fetching the page." |}])
  /\ ((forall p b, snd (perform (Page_goto p target load ms) b) = Normal None) ->
      forall w, exists resp,
        sent (fst (scrape_admitted req target w)) = sent w ++ [resp]
        /\ (null_status_response resp
            \/ resp = {| http_status := 500;
                         http_body := ErrorBody "An error occurred while fetching the page." |})
        /\ (fault_free -> evaluates_to_json -> null_status_response resp)).
Proof.
  intros ms. split.
  - intros Hgoto w. apply scrape_admitted_failure.
    intros page w2. now apply scrape_try_navigation_fault.
  - intros Hnull w. destruct (scrape_admitted_sent req target w) as (resp & Hsent & Ha).
    exists resp. split; [exact Hsent|]. unfold answer_of in Ha.
    assert (Hrender : forall page w2 w3,
               scrape_try req target page w2 = (w3, Normal tt) ->
               sent w3 = sent w2 ++ [resp] -> null_status_response resp).
    { intros page w2 w3 E Hs.
      destruct (scrape_try_inv _ _ _ _ _ E)
        as (wa & wb & wc & result & ar & shot & E1 & E2 & E3 & Hjs).
      destruct (scrape_try_completes _ _ _ _ _ _ _ _ _ _ E1 E2 E3 Hjs)
        as (w4 & E4 & _ & _ & _ & _ & T4).
      rewrite E in E4. injection E4 as <-. rewrite Hs in T4.
      apply app_inv_head in T4. injection T4 as ->.
      pose proof (scrape_navigate_null_status _ _ _ _ _ _ Hnull E1) as Hst.
      eexists. split; [reflexivity|]. cbn. rewrite Hst. split; reflexivity. }
    split.
    + destruct (createContext _ w) as [w1 [ctx|e]]; [|now right].
      destruct (call (Context_newPage ctx) w1) as [w2 [page|e]]; [|now right].
      destruct (scrape_try req target page w2) as [w3 [[]|e]] eqn:E; [|now right].
      left. exact (Hrender _ _ _ E Ha).
    + intros Hok Hjson.
      destruct (returns_createContext (default false (skip_tls_verification req)) Hok w)
        as [ctx Ec].
      destruct (createContext _ w) as [w1 c1]. cbn in Ec. subst c1.
      destruct (returns_call (Context_newPage ctx) Hok w1) as [page Ep].
      destruct (call (Context_newPage ctx) w1) as [w2 c2]. cbn in Ep. subst c2.
      destruct (returns_scrape_try req target page Hok Hjson w2) as [[] Et].
      destruct (scrape_try req target page w2) as [w3 c3] eqn:E. cbn in Et. subst c3.
      exact (Hrender _ _ _ E Ha).
Qed.

(** On the concrete platform: a timed-out navigation; on the platform
    without faults: [about:blank]. *)
Lemma navigation_fault_answers_500_witness :
  sent (fst (scrape_admitted (H := Demo.platform)
               (Demo.request "https://unreachable.example/")
               "https://unreachable.example/" Demo.w0))
  = [{| http_status := 500;
        http_body := ErrorBody "An error occurred while fetching the page." |}]
  /\ exists r,
       sent (fst (scrape_admitted (H := Demo.calm) (Demo.request "about:blank")
                    "about:blank" Demo.calm_w0))
       = [{| http_status := 200; http_body := RenderBody r |}]
       /\ pageStatusCode r = None
       /\ pageError r = Some "No response received".
Proof.
  split.
  - apply (proj1 (navigation_fault_answers_500 (H := Demo.platform)
                    (Demo.request "https://unreachable.example/")
                    "https://unreachable.example/")).
    intros p b. eexists. reflexivity.
  - destruct (proj2 (navigation_fault_answers_500 (H := Demo.calm)
                       (Demo.request "about:blank") "about:blank")
                (fun p b => eq_refl) Demo.calm_w0) as (resp & Hsent & _ & Hresp).
    destruct Hresp as (r & Hr & Hst & Herr).
    { intros c b. eexists. reflexivity. }
    { intros page script b v E. cbn in E. unfold Demo.calm_respond, Demo.respond in E.
      destruct (String.eqb script "throw 1"); injection E as <-; reflexivity. }
    exists r. subst resp. split; [exact Hsent|]. split; [exact Hst | exact Herr].
Defined.

(** A navigation that times out is answered with status 500 and the fixed
    error text: no render response, no null status code, no page error. *)
Lemma navigation_timeout_is_a_500 :
  let run := scrape_admitted (H := Demo.platform)
               (Demo.request "https://unreachable.example/")
               "https://unreachable.example/" Demo.w0 in
  (forall p b,
      snd (perform (Platform := Demo.platform)
             (Page_goto p "https://unreachable.example/" load 15000) b)
      = Throw (Demo.timeout_error "page.goto" 15000))
  /\ sent (fst run)
     = [{| http_status := 500;
           http_body := ErrorBody "An error occurred while fetching the page." |}]
  /\ ~ (exists code r,
           In {| http_status := code; http_body := RenderBody r |} (sent (fst run))).
Proof.
  intros run.
  assert (Hsent : sent (fst run)
                  = [{| http_status := 500;
                        http_body := ErrorBody "An error occurred while fetching the page." |}])
    by (vm_compute; reflexivity).
  split; [reflexivity|]. split; [exact Hsent|].
  rewrite Hsent. intros (code & r & [Hin|[]]). discriminate.
Qed.

(** C6, as the source has it.  A capture that throws at the top level, the
    screenshot flags being set, fails the render: the request is answered
    with status 500.  A capture that throws inside a [screenshot] or [pdf]
    action is caught by the action loop like any other action fault: the
    iteration logs it and completes with the accumulator unchanged. *)
Theorem capture_fault_fails_render_at_top_level_only `{Platform} :
  (forall (req : UrlModel) (target : string),
      wants_screenshot req = true ->
      (forall p b, exists e,
          snd (perform (Page_screenshot p (default false (full_page_screenshot req))) b)
          = Throw e) ->
      forall w,
        sent (fst (scrape_admitted req target w))
        = sent w ++ [{| http_status := 500;
                        http_body := ErrorBody "An error occurred while fetching the page." |}])
  /\ (forall (page : Page) (total i : nat) (a : Action) (r : ActionResults)
             (w w2 : World) (e : Thrown),
         is_capture a = true ->
         executeAction page a r (fst (console_log (progress_line total i a) w))
         = (w2, Throw e) ->
         action_step page total i a r w
         = (fst (console_error ("  ❌ Action failed: " +:+ errorMsg e) w2), Normal r)).
Proof.
  split.
  - intros req target Hwant Hshot w. apply scrape_admitted_failure.
    intros page w2. now apply scrape_try_capture_fault.
  - intros page total i a r w w2 e _ Ea.
    unfold action_step, bind at 1, try_catch.
    destruct (console_log (progress_line total i a) w) as [wl cl] eqn:El.
    assert (cl = Normal tt) by (unfold console_log, console_write in El; congruence).
    subst cl. cbn [fst] in Ea. rewrite Ea. reflexivity.
Qed.

Lemma capture_fault_fails_render_at_top_level_only_witness :
  sent (fst (scrape_admitted (H := Demo.platform)
               (Demo.with_full_page_screenshot (Demo.request "https://example.com/"))
               "https://example.com/" Demo.w0))
  = [{| http_status := 500;
        http_body := ErrorBody "An error occurred while fetching the page." |}]
  /\ snd (action_step (H := Demo.platform) 3%nat 1 0 (Screenshot (Some true))
            empty_results Demo.w0) = Normal empty_results.
Proof.
  destruct (capture_fault_fails_render_at_top_level_only (H := Demo.platform))
    as [Htop Hact].
  split.
  - apply (Htop (Demo.with_full_page_screenshot (Demo.request "https://example.com/"))
             "https://example.com/" eq_refl).
    intros p b. eexists. reflexivity.
  - set (wl := fst (console_log (progress_line 1 0 (Screenshot (Some true))) Demo.w0)).
    assert (Ea : executeAction (H := Demo.platform) 3%nat (Screenshot (Some true))
                   empty_results wl
                 = (fst (executeAction 3%nat (Screenshot (Some true)) empty_results wl),
                    Throw Demo.too_large)).
    { apply run_eq. vm_compute. reflexivity. }
    rewrite (Hact 3%nat 1%nat 0%nat (Screenshot (Some true)) empty_results Demo.w0 _
               Demo.too_large eq_refl Ea).
    reflexivity.
Defined.

(** A capture that throws inside a [screenshot] action, and one inside a
    [pdf] action, do not fail the render: it is answered with status 200
    and the fault is only a console line. *)
Lemma capture_fault_in_action_is_isolated :
  let run := scrape_admitted (H := Demo.platform)
               (Demo.with_actions [Screenshot (Some true); Pdf None None (Some "Poster")]
                  (Demo.request "https://example.com/"))
               "https://example.com/" Demo.w0 in
  (forall p b,
      snd (perform (Platform := Demo.platform) (Page_screenshot p true) b)
      = Throw Demo.too_large)
  /\ (forall p o b,
         pdf_format o = Some "Poster" ->
         snd (perform (Platform := Demo.platform) (Page_pdf p o) b)
         = Throw (ErrorObj "page.pdf: Unknown paper format: Poster"))
  /\ map http_status (sent (fst run)) = [200]
  /\ List.filter (fun l => match fst l with error => true | _ => false end)
       (console (fst run))
     = [(error, "  ❌ Action failed: " +:+ errorMsg Demo.too_large);
        (error, "  ❌ Action failed: page.pdf: Unknown paper format: Poster")].
Proof.
  intros run. split; [reflexivity|]. split.
  - intros p o b Ho. cbn. now rewrite Ho.
  - split; vm_compute; reflexivity.
Qed.

(** C8, as the source has it.  When the screenshot flags are set, the
    actions ran and left at least one screenshot, and the top-level capture
    completes, the document handed to [res.json] has an [actions] block
    whose screenshots are the top-level capture followed by the
    screenshots of the actions as [executeActions] returned them, its
    other three sequences unchanged; with one action screenshot the
    sequence has length two.  The render is answered with that document
    and status 200, unless [JSON.stringify] rejects the document because of
    a value a script returned: then the try block throws and nothing is
    sent by it. *)
Theorem top_level_screenshot_goes_first `{Platform} (req : UrlModel) (target : string)
    (page : Page) (w w1 w2 w3 : World) (result : ScrapeOutcome) (ar : ActionResults)
    (screenshotData : string) :
  wants_screenshot req = true ->
  scrape_navigate req target page w = (w1, Normal result) ->
  scrape_actions req page w1 = (w2, Normal (Some ar)) ->
  screenshots ar <> [] ->
  takeScreenshot page (Some (default false (full_page_screenshot req)))
    (fst (console_log "Taking screenshot..." w2)) = (w3, Normal screenshotData) ->
  let final := unshift_screenshot screenshotData ar in
  let r := render_json result (pageError_of (so_status result)) (Some screenshotData)
             (Some final) in
  res_screenshot r = (if truthy screenshotData then Some screenshotData else None)
  /\ res_actions r = Some final
  /\ screenshots final = screenshotData :: screenshots ar
  /\ scrapes final = scrapes ar
  /\ javascriptReturns final = javascriptReturns ar
  /\ pdfs final = pdfs ar
  /\ (length (screenshots ar) = 1%nat -> length (screenshots final) = 2%nat)
  /\ match json_fault (RenderBody r) with
     | None =>
         exists w4,
           scrape_try req target page w = (w4, Normal tt)
           /\ sent w4 = sent w ++ [{| http_status := 200; http_body := RenderBody r |}]
     | Some message =>
         exists w4,
           scrape_try req target page w = (w4, Throw (ErrorObj message))
           /\ sent w4 = sent w
     end.
Proof.
  intros Hwant E1 E2 Hne E3 final r.
  assert (Hpos : (0 <? length (screenshots ar))%nat = true).
  { destruct (screenshots ar); [congruence | reflexivity]. }
  assert (Es : scrape_screenshot req page (Some ar) w2
               = (w3, Normal (Some screenshotData, Some final))).
  { unfold scrape_screenshot. rewrite Hwant.
    unfold console_log, console_write in E3. cbn [fst] in E3.
    unfold bind, mreturn, console_log, console_write. cbn [fst snd].
    rewrite E3. cbn [fst snd truthy_opt default]. rewrite Hpos. reflexivity. }
  assert (Hout : has_output final = true) by reflexivity.
  split; [reflexivity|].
  split; [subst r; unfold render_json; cbn [res_actions]; now rewrite Hout|].
  do 4 (split; [reflexivity|]).
  split; [intros Hlen; cbn; now rewrite Hlen|].
  change (RenderBody r)
    with (http_body (render_response result (Some screenshotData, Some final))).
  destruct (json_fault _) as [message|] eqn:Hj.
  - destruct (scrape_try_unserializable _ _ _ _ _ _ _ _ _ _ _ E1 E2 Es Hj)
      as (w4 & E4 & S4).
    exists w4. split; [exact E4 | exact (steady_sent _ _ S4)].
  - destruct (scrape_try_completes _ _ _ _ _ _ _ _ _ _ E1 E2 Es Hj)
      as (w4 & E4 & _ & _ & _ & _ & T4).
    exists w4. split; [exact E4 | exact T4].
Qed.

(** One screenshot action and the screenshot flag, on the concrete
    platform. *)
Lemma top_level_screenshot_goes_first_witness :
  let req := Demo.with_screenshot
               (Demo.with_actions [Screenshot None] (Demo.request "https://example.com/")) in
  exists r final,
    map http_body (sent (fst (scrape_try (H := Demo.platform) req "https://example.com/"
                                3%nat Demo.w0))) = [RenderBody r]
    /\ res_actions r = Some final
    /\ screenshots final = ["iVBORw=="; "iVBORw=="].
Proof.
  intros req.
  set (nav := scrape_navigate (H := Demo.platform) req "https://example.com/" 3%nat Demo.w0).
  set (result := normal_or {| so_content := ""; so_status := None; so_headers := None;
                              so_contentType := None |} (snd nav)).
  assert (E1 : nav = (fst nav, Normal result)).
  { apply run_eq. vm_compute. reflexivity. }
  set (acts := scrape_actions req 3%nat (fst nav)).
  set (ar := {| screenshots := ["iVBORw=="]; scrapes := []; javascriptReturns := [];
                pdfs := [] |}).
  assert (E2 : acts = (fst acts, Normal (Some ar))).
  { apply run_eq. vm_compute. reflexivity. }
  set (shot := takeScreenshot 3%nat (Some (default false (full_page_screenshot req)))
                 (fst (console_log "Taking screenshot..." (fst acts)))).
  assert (E3 : shot = (fst shot, Normal "iVBORw==")).
  { apply run_eq. vm_compute. reflexivity. }
  destruct (top_level_screenshot_goes_first (H := Demo.platform) req "https://example.com/"
              3%nat Demo.w0 (fst nav) (fst acts) (fst shot) result ar "iVBORw=="
              eq_refl E1 E2 ltac:(discriminate) E3)
    as (_ & Hact & Hshots & _ & _ & _ & _ & (w4 & E4 & T4)).
  eexists. exists (unshift_screenshot "iVBORw==" ar). rewrite E4. cbn [fst]. rewrite T4.
  split; [reflexivity|]. split; [exact Hact | exact Hshots].
Defined.

(** With the screenshot flag set and one [screenshot] action whose capture
    throws, the top-level capture completing, the response carries the
    top-level screenshot and no [actions] block at all: there is no
    screenshot sequence for it to be element 0 of. *)
Lemma failed_action_screenshot_leaves_no_sequence :
  let req := Demo.with_screenshot
               (Demo.with_actions [Screenshot (Some true)]
                  (Demo.request "https://example.com/")) in
  sent (fst (scrape_admitted (H := Demo.platform) req "https://example.com/" Demo.w0))
  = [{| http_status := 200;
        http_body :=
          RenderBody {| content := Demo.html;
                        pageStatusCode := Some 200;
                        contentType := Some "text/html";
                        res_screenshot := Some "iVBORw==";
                        res_actions := None;
                        pageError := None |} |}].
Proof. vm_compute. reflexivity. Qed.

(** * Further properties *)

(** ** The semaphore as a counter *)

Module SemaphoreLogFacts.
Import Semaphore SemaphoreLog.

Lemma conservation ops : forall s,
  permits (run ops s) + Z.of_nat (grants ops s) = permits s + Z.of_nat (releases ops)
  /\ (length (queue (run ops s)) + grants ops s = length (queue s) + acquires ops)%nat.
Proof.
  induction ops as [|o ops IH]; intros s; [cbn; split; lia|].
  destruct o as [who|]; unfold acquires, releases in *;
    cbn [run fold_left exec grants List.filter is_acquire negb length].
  - destruct (IH (fst (acquire who s))) as [IH1 IH2]. unfold run in IH1, IH2.
    revert IH1 IH2. unfold acquire.
    destruct (0 <? permits s); cbn [fst snd permits queue];
      rewrite ?length_app; cbn [length]; lia.
  - destruct (IH (fst (release s))) as [IH1 IH2]. unfold run in IH1, IH2.
    revert IH1 IH2. unfold release.
    destruct (queue s) as [|next rest]; cbn [fst snd permits queue length]; lia.
Qed.

End SemaphoreLogFacts.

(** X1. Every permit is accounted for.  Along any history of [acquire()]
    and [release()] calls, from any state, the count plus the promises
    resolved equals the initial count plus the releases, and the callers
    waiting plus the promises resolved equal the callers waiting at the
    start plus the acquires.  From a fresh semaphore of capacity [N >= 0]
    the count is never negative, it is zero whenever a caller waits, and
    the promises resolved never exceed [N] plus the releases. *)
Theorem semaphore_accounts_for_every_permit :
  (forall (ops : list Semaphore.op) (s : Semaphore.t),
      Semaphore.getAvailablePermits (Semaphore.run ops s)
        + Z.of_nat (SemaphoreLog.grants ops s)
      = Semaphore.getAvailablePermits s + Z.of_nat (SemaphoreLog.releases ops)
      /\ (Semaphore.getQueueLength (Semaphore.run ops s) + SemaphoreLog.grants ops s
          = Semaphore.getQueueLength s + SemaphoreLog.acquires ops)%nat)
  /\ (forall (N : Z) (ops : list Semaphore.op),
         0 <= N ->
         let s := Semaphore.run ops (Semaphore.new N) in
         0 <= Semaphore.getAvailablePermits s
         /\ ((0 < Semaphore.getQueueLength s)%nat -> Semaphore.getAvailablePermits s = 0)
         /\ Z.of_nat (SemaphoreLog.grants ops (Semaphore.new N))
            <= N + Z.of_nat (SemaphoreLog.releases ops)).
Proof.
  split.
  - intros ops s. apply SemaphoreLogFacts.conservation.
  - intros N ops HN s.
    destruct (SemaphoreFacts.settled_run ops _ (SemaphoreFacts.settled_new N HN))
      as [Hp Hq].
    fold s in Hp, Hq.
    destruct (SemaphoreLogFacts.conservation ops (Semaphore.new N)) as [Hc _].
    fold s in Hc. cbn [Semaphore.new Semaphore.permits] in Hc.
    unfold Semaphore.getAvailablePermits, Semaphore.getQueueLength.
    split; [exact Hp|]. split; [|lia].
    intros Hlen. apply Hq. intros E. rewrite E in Hlen. cbn in Hlen. lia.
Qed.

(** Capacity 1: two callers, a release, a third caller. *)
Lemma semaphore_accounts_for_every_permit_witness :
  0 <= 1
  /\ (let ops := [Semaphore.Acquire 1%nat; Semaphore.Acquire 2%nat; Semaphore.Release;
                  Semaphore.Acquire 3%nat] in
      Z.of_nat (SemaphoreLog.grants ops (Semaphore.new 1))
      <= 1 + Z.of_nat (SemaphoreLog.releases ops)
      /\ Semaphore.getAvailablePermits (Semaphore.run ops (Semaphore.new 1)) = 0).
Proof.
  split; [lia|]. intros ops.
  destruct (proj2 semaphore_accounts_for_every_permit 1 ops ltac:(lia))
    as (_ & Hzero & Hle).
  split; [exact Hle|]. apply Hzero. vm_compute. lia.
Defined.

(** X2. With nobody waiting, a caller that acquires and then releases
    leaves the semaphore exactly as it found it; when it had to queue, the
    promise its own [release()] resolves is its own. *)
Theorem semaphore_acquire_release_round_trip (who : Waiter) (s : Semaphore.t) :
  0 <= Semaphore.permits s ->
  Semaphore.queue s = [] ->
  fst (Semaphore.release (fst (Semaphore.acquire who s))) = s
  /\ snd (Semaphore.release (fst (Semaphore.acquire who s)))
     = (if snd (Semaphore.acquire who s) then None else Some who).
Proof.
  destruct s as [p q]. cbn. intros Hp ->. unfold Semaphore.acquire, Semaphore.release.
  cbn. destruct (Z.ltb_spec 0 p); cbn; split; try reflexivity; f_equal; lia.
Qed.

Lemma semaphore_acquire_release_round_trip_witness :
  fst (Semaphore.release (fst (Semaphore.acquire 7%nat (Semaphore.new 0))))
  = Semaphore.new 0
  /\ snd (Semaphore.release (fst (Semaphore.acquire 7%nat (Semaphore.new 0))))
     = Some 7%nat.
Proof.
  exact (semaphore_acquire_release_round_trip 7%nat (Semaphore.new 0)
           ltac:(cbn; lia) eq_refl).
Defined.

(** X3. The capacity read at start-up is at least one: a positive setting
    is taken as it is, a negative one gives 1, and zero, an absent variable
    or an unparsable one give 10.  So the first caller of a fresh semaphore
    of that capacity is always admitted. *)
Theorem MAX_CONCURRENT_PAGES_is_positive (parsed : option Z) :
  1 <= MAX_CONCURRENT_PAGES_of parsed
  /\ (forall n, parsed = Some n -> 1 <= n -> MAX_CONCURRENT_PAGES_of parsed = n)
  /\ (forall n, parsed = Some n -> n < 0 -> MAX_CONCURRENT_PAGES_of parsed = 1)
  /\ (parsed = None \/ parsed = Some 0 -> MAX_CONCURRENT_PAGES_of parsed = 10)
  /\ (forall who,
         snd (Semaphore.acquire who (Semaphore.new (MAX_CONCURRENT_PAGES_of parsed)))
         = true).
Proof.
  unfold MAX_CONCURRENT_PAGES_of.
  split; [lia|]. split; [|split; [|split]].
  - intros n -> Hn. destruct (Z.eqb_spec n 0); lia.
  - intros n -> Hn. destruct (Z.eqb_spec n 0); lia.
  - intros [->| ->]; reflexivity.
  - intros who. unfold Semaphore.acquire, Semaphore.new. cbn [Semaphore.permits].
    destruct (Z.ltb_spec 0 (Z.max 1 match parsed with
                                    | Some n => if n =? 0 then 10 else n
                                    | None => 10
                                    end)); [reflexivity | lia].
Qed.

Lemma MAX_CONCURRENT_PAGES_is_positive_witness :
  MAX_CONCURRENT_PAGES_of (Some 4) = 4
  /\ MAX_CONCURRENT_PAGES_of (Some (-3)) = 1
  /\ MAX_CONCURRENT_PAGES_of (Some 0) = 10.
Proof.
  split; [|split].
  - exact (proj1 (proj2 (MAX_CONCURRENT_PAGES_is_positive (Some 4))) 4 eq_refl
             ltac:(lia)).
  - exact (proj1 (proj2 (proj2 (MAX_CONCURRENT_PAGES_is_positive (Some (-3))))) (-3)
             eq_refl ltac:(lia)).
  - exact (proj1 (proj2 (proj2 (proj2 (MAX_CONCURRENT_PAGES_is_positive (Some 0)))))
             (or_intror eq_refl)).
Defined.

(** ** Arrivals and completions, whatever the teardown does *)

Section AdmissionFacts.

Context `{Platform}.

(** A step keeps the semaphore settled. *)
Lemma step_settled ev s :
  Semaphore.settled (pageSemaphore (world s)) ->
  Semaphore.settled (pageSemaphore (world (step ev s))).
Proof.
  intros Hs. destruct ev as [who|who req target]; cbn.
  - destruct (known who s); [exact Hs|].
    pose proof (SemaphoreFacts.settled_exec (Semaphore.Acquire who) _ Hs) as Hs'.
    cbn in Hs'. unfold pageSemaphore_acquire.
    destruct (Semaphore.acquire who (pageSemaphore (world s))) as [s' now].
    exact Hs'.
  - destruct (bool_decide (who ∈ sessions s)); [|exact Hs]. cbn.
    destruct (scrape_admitted_cases req target (world s))
      as [(_ & Hsem & _)|(_ & Hsem & _)]; rewrite Hsem; [|exact Hs].
    exact (SemaphoreFacts.settled_exec Semaphore.Release _ Hs).
Qed.

(** A step keeps the semaphore settled and the sessions within the
    permits that are out, whether or not teardowns complete. *)
Lemma step_within ev s :
  Semaphore.settled (pageSemaphore (world s))
  /\ Z.of_nat (length (sessions s)) <= outstanding s ->
  Semaphore.settled (pageSemaphore (world (step ev s)))
  /\ Z.of_nat (length (sessions (step ev s))) <= outstanding (step ev s).
Proof.
  unfold outstanding. intros [Hset Hlen]. destruct ev as [who|who req target]; cbn.
  - destruct (known who s); [now split|].
    pose proof (SemaphoreFacts.settled_exec (Semaphore.Acquire who) _ Hset) as Hset'.
    cbn in Hset'. revert Hset'.
    unfold pageSemaphore_acquire, Semaphore.acquire.
    destruct (Z.ltb_spec 0 (Semaphore.permits (pageSemaphore (world s)))); cbn;
      intros Hset'; (split; [exact Hset'|]); rewrite ?length_app; cbn; lia.
  - destruct (bool_decide (who ∈ sessions s)) eqn:Hin; [|now split].
    apply bool_decide_eq_true in Hin. cbn.
    pose proof (length_filter_lt (fun x => x <> who) (sessions s) who Hin
                  ltac:(intros Hc; now apply Hc)) as Hlt.
    destruct (scrape_admitted_cases req target (world s))
      as [(_ & Hsem & Hwoken)|(_ & Hsem & Hwoken)];
      rewrite Hsem, Hwoken.
    + rewrite drop_app_length.
      pose proof (SemaphoreFacts.settled_exec Semaphore.Release _ Hset) as Hset'.
      cbn in Hset'. split; [exact Hset'|].
      destruct Hset as [Hp Hq]. unfold Semaphore.release.
      destruct (Semaphore.queue (pageSemaphore (world s))) as [|next rest] eqn:Eq;
        cbn; rewrite length_app; cbn; lia.
    + rewrite drop_all, app_nil_r. split; [exact Hset|]. lia.
Qed.

Lemma run_system_within evs : forall s,
  Semaphore.settled (pageSemaphore (world s))
  /\ Z.of_nat (length (sessions s)) <= outstanding s ->
  Semaphore.settled (pageSemaphore (world (run_system evs s)))
  /\ Z.of_nat (length (sessions (run_system evs s))) <= outstanding (run_system evs s).
Proof.
  induction evs as [|ev evs IH]; intros s Hs; cbn; [exact Hs|].
  apply IH, step_within, Hs.
Qed.

(** A step keeps the arrivals equal to the admissions followed by the
    queue. *)
Lemma note_fifo ev s l :
  Semaphore.settled (pageSemaphore (world s)) ->
  arrived l = resolved l ++ Semaphore.queue (pageSemaphore (world s)) ->
  arrived (note ev s l)
  = resolved (note ev s l) ++ Semaphore.queue (pageSemaphore (world (step ev s))).
Proof.
  intros [Hp Hq] Hl. destruct ev as [who|who req target]; cbn.
  - destruct (known who s); [exact Hl|]. cbn.
    unfold pageSemaphore_acquire, Semaphore.acquire.
    destruct (Z.ltb_spec 0 (Semaphore.permits (pageSemaphore (world s)))); cbn.
    + rewrite Hl.
      destruct (Semaphore.queue (pageSemaphore (world s))) as [|x rest] eqn:Eq.
      * now rewrite !app_nil_r.
      * assert (Semaphore.permits (pageSemaphore (world s)) = 0)
          by (apply Hq; discriminate). lia.
    + rewrite Hl. now rewrite app_assoc.
  - destruct (bool_decide (who ∈ sessions s)) eqn:Hin; [|exact Hl]. cbn.
    destruct (scrape_admitted_cases req target (world s))
      as [(_ & Hsem & Hwoken)|(_ & Hsem & Hwoken)];
      rewrite Hsem, Hwoken.
    + rewrite drop_app_length, Hl. unfold Semaphore.release.
      destruct (Semaphore.queue (pageSemaphore (world s))) as [|next rest]; cbn.
      * now rewrite !app_nil_r.
      * now rewrite <- app_assoc.
    + rewrite drop_all, app_nil_r. exact Hl.
Qed.

Lemma admissions_fifo evs : forall s l,
  Semaphore.settled (pageSemaphore (world s)) ->
  arrived l = resolved l ++ Semaphore.queue (pageSemaphore (world s)) ->
  arrived (admissions evs s l)
  = resolved (admissions evs s l)
    ++ Semaphore.queue (pageSemaphore (world (run_system evs s))).
Proof.
  induction evs as [|ev evs IH]; intros s l Hs Hl; cbn; [exact Hl|].
  apply IH; [|now apply note_fifo].
  now apply step_settled.
Qed.

End AdmissionFacts.

(** X4. At most [MAX_CONCURRENT_PAGES] requests are past [acquire()] at
    any time: after every sequence of arrivals and completions, with
    teardowns that complete or throw, the open sessions are no more than
    the permits that are out, which are no more than the capacity. *)
Theorem sessions_never_exceed_capacity `{Platform} (evs : list Event) (b : B) (d : Disk) :
  0 <= MAX_CONCURRENT_PAGES ->
  let s := run_system evs (boot b d) in
  Z.of_nat (length (sessions s)) <= outstanding s
  /\ outstanding s <= MAX_CONCURRENT_PAGES.
Proof.
  intros Hmax s.
  destruct (run_system_within evs (boot b d)) as [[Hp _] Hlen].
  { split; [apply SemaphoreFacts.settled_new, Hmax|]. unfold outstanding. cbn. lia. }
  fold s in Hp, Hlen. split; [exact Hlen|]. unfold outstanding. lia.
Qed.

(** Three arrivals at capacity 2, on the platform whose [page.close()]
    rejects, and the completion of the first. *)
Lemma sessions_never_exceed_capacity_witness :
  0 <= MAX_CONCURRENT_PAGES (Platform := Stuck.platform)
  /\ (let s := run_system (H := Stuck.platform)
                 [Arrive 1%nat; Arrive 2%nat; Arrive 3%nat;
                  Finish 1%nat (Demo.request "about:blank") "about:blank"]
                 (boot (H := Stuck.platform) 0%nat Demo.empty_disk) in
      Z.of_nat (length (sessions s)) <= 2).
Proof.
  split; [cbn; lia|]. intros s.
  destruct (sessions_never_exceed_capacity (H := Stuck.platform)
              [Arrive 1%nat; Arrive 2%nat; Arrive 3%nat;
               Finish 1%nat (Demo.request "about:blank") "about:blank"]
              0%nat Demo.empty_disk ltac:(cbn; lia)) as [H1 H2].
  fold s in H1, H2. cbn [MAX_CONCURRENT_PAGES Stuck.platform] in H2. lia.
Defined.

(** X5. Requests get past [acquire()] in the order in which they reached
    it: after every sequence of arrivals and completions, the requests
    that arrived are, in order, those whose promise was resolved followed
    by those still queued. *)
Theorem requests_are_admitted_in_arrival_order `{Platform}
    (evs : list Event) (b : B) (d : Disk) :
  0 <= MAX_CONCURRENT_PAGES ->
  let l := admissions evs (boot b d) {| arrived := []; resolved := [] |} in
  arrived l
  = resolved l ++ Semaphore.queue (pageSemaphore (world (run_system evs (boot b d)))).
Proof.
  intros Hmax l. apply admissions_fifo; [|reflexivity].
  apply SemaphoreFacts.settled_new, Hmax.
Qed.

(** Capacity 2: four arrivals and the completion of the second. *)
Lemma requests_are_admitted_in_arrival_order_witness :
  0 <= MAX_CONCURRENT_PAGES (Platform := Demo.platform)
  /\ (let evs := [Arrive 5%nat; Arrive 6%nat; Arrive 7%nat; Arrive 8%nat;
                  Finish 6%nat (Demo.request "about:blank") "about:blank"] in
      let l := admissions (H := Demo.platform) evs
                 (boot (H := Demo.platform) 0%nat Demo.empty_disk)
                 {| arrived := []; resolved := [] |} in
      arrived l = [5; 6; 7; 8]%nat
      /\ resolved l ++ [8%nat] = arrived l).
Proof.
  split; [cbn; lia|]. intros evs l.
  pose proof (requests_are_admitted_in_arrival_order (H := Demo.platform) evs 0%nat
                Demo.empty_disk ltac:(cbn; lia)) as Hl.
  cbn zeta in Hl. fold l in Hl.
  assert (Hq : Semaphore.queue
                 (pageSemaphore
                    (world (run_system (H := Demo.platform) evs
                              (boot (H := Demo.platform) 0%nat Demo.empty_disk))))
               = [8%nat]) by (vm_compute; reflexivity).
  rewrite Hq in Hl. split; [|now rewrite Hl].
  vm_compute. reflexivity.
Defined.

(** X6. A close that rejects in the [finally] block costs a permit.  For a
    request that holds a page and a context, if [page.close()] rejects,
    the handler throws after its response was sent, [context.close()] is
    never called and [pageSemaphore.release()] is not reached: the
    semaphore and the wake-ups are as they were when the request was
    admitted.  If only [context.close()] rejects, both closes are issued
    and the permit is not released either. *)
Theorem rejected_close_keeps_the_permit `{Platform} (req : UrlModel) (target : string)
    (w : World) (ctx : Ctx) (page : Page) :
  held_handles req w = (Some ctx, Some page) ->
  let w' := fst (scrape_admitted req target w) in
  ((forall b, exists e, snd (perform (Page_close page) b) = Throw e) ->
   (exists e, snd (scrape_admitted req target w) = Throw e)
   /\ pageSemaphore w' = pageSemaphore w
   /\ woken w' = woken w
   /\ (exists resp, sent w' = sent w ++ [resp])
   /\ exists new, calls w' = calls w ++ new /\ closes new = [Page_close page])
  /\ ((forall b, snd (perform (Page_close page) b) = Normal tt) ->
      (forall b, exists e, snd (perform (Context_close ctx) b) = Throw e) ->
      (exists e, snd (scrape_admitted req target w) = Throw e)
      /\ pageSemaphore w' = pageSemaphore w
      /\ woken w' = woken w
      /\ (exists resp, sent w' = sent w ++ [resp])
      /\ exists new,
           calls w' = calls w ++ new
           /\ closes new = [Page_close page; Context_close ctx]).
Proof.
  intros Hheld w'.
  revert Hheld. subst w'. unfold held_handles, scrape_admitted.
  generalize (keeps_createContext (default false (skip_tls_verification req)) w).
  destruct (createContext _ w) as [w1 [ctx'|e]]; cbn [fst snd];
    intros [S1 W1 T1 _ (n1 & C1 & F1)]; [|discriminate].
  generalize (keeps_call (Context_newPage ctx') eq_refl w1).
  destruct (call (Context_newPage ctx') w1) as [w2 [page'|e]]; cbn [fst snd];
    intros [S2 W2 T2 _ (n2 & C2 & F2)];
    change (ret (Context_newPage ctx')) with Page in *; [|discriminate].
  intros Hh. injection Hh as -> ->.
  destruct (guarded_try_run req target page w2)
    as (w3 & resp & E & S3 & W3 & (n3 & C3 & F3) & T3 & _).
  unfold try_finally. rewrite E.
  unfold scrape_finally, bind, call, mreturn, pageSemaphore_release.
  split.
  - intros Hp. destruct (Hp (env w3)) as [e He].
    destruct (perform (Page_close page) (env w3)) as [b1 r1]. cbn in He. subst r1.
    cbn. split; [eauto|]. split; [congruence|]. split; [congruence|].
    split; [exists resp; congruence|].
    exists (n1 ++ n2 ++ n3 ++ [Page_close page]). split.
    + rewrite C3, C2, C1. now rewrite <- !app_assoc.
    + unfold closes in *. rewrite !List.filter_app, F1, F2, F3. reflexivity.
  - intros Hp Hc. specialize (Hp (env w3)).
    destruct (perform (Page_close page) (env w3)) as [b1 r1]. cbn in Hp. subst r1.
    cbn. destruct (Hc b1) as [e He].
    destruct (perform (Context_close ctx) b1) as [b2 r2]. cbn in He. subst r2.
    cbn. split; [eauto|]. split; [congruence|]. split; [congruence|].
    split; [exists resp; congruence|].
    exists (n1 ++ n2 ++ n3 ++ [Page_close page; Context_close ctx]). split.
    + rewrite C3, C2, C1. now rewrite <- !app_assoc.
    + unfold closes in *. rewrite !List.filter_app, F1, F2, F3. reflexivity.
Qed.


(** The request on the platform whose [page.close()] rejects: the page is
    the only handle closed and both permits are still there. *)
Lemma rejected_close_keeps_the_permit_witness :
  let w' := fst (scrape_admitted (H := Stuck.platform) (Demo.request "about:blank")
                   "about:blank" Stuck.w0) in
  pageSemaphore w' = Semaphore.new 2 /\ closes (calls w') = [Page_close 3%nat].
Proof.
  intros w'.
  destruct (proj1 (rejected_close_keeps_the_permit (H := Stuck.platform)
                     (Demo.request "about:blank") "about:blank" Stuck.w0 1%nat 3%nat
                     ltac:(vm_compute; reflexivity)))
    as (_ & Hs & _ & _ & new & Cn & Fn).
  { intros b. eexists. reflexivity. }
  fold w' in Hs, Cn. split; [rewrite Hs; reflexivity|]. rewrite Cn. exact Fn.
Defined.

(** ** The shape of a response *)

Section ResponseFacts.

Context `{Platform}.

Lemma truthy_opt_keep (o : option string) (d : string) :
  (if truthy_opt o then o else None) = Some d -> o = Some d /\ d <> "".
Proof.
  destruct o as [x|]; [|discriminate]. cbn. unfold truthy.
  destruct (String.eqb_spec x ""); cbn; [discriminate|].
  intros E. injection E as <-. auto.
Qed.

(** The stretch of lines 494-499 yields results only for a non-empty
    [actions] array, and then those of [executeActions]. *)
Lemma scrape_actions_inv req page w w' ar :
  scrape_actions req page w = (w', Normal (Some ar)) ->
  exists acts, actions req = Some acts /\ acts <> []
    /\ snd (executeActions page acts
              (fst (console_log ("Executing " +:+ show_nat (length acts) +:+ " actions...")
                      w))) = Normal ar.
Proof.
  unfold scrape_actions. destruct (actions req) as [acts|]; [|discriminate].
  destruct acts as [|a acts]; [discriminate|]. cbn [length Nat.ltb Nat.leb].
  unfold bind at 1 2, console_log at 1, console_write at 1. cbn [fst snd].
  intros E. exists (a :: acts). split; [reflexivity|]. split; [discriminate|].
  unfold console_log, console_write. cbn [fst].
  destruct (executeActions page (a :: acts) _) as [w1 [r|e]]; [|discriminate].
  cbn in E. injection E as _ <-. reflexivity.
Qed.

(** The stretch of lines 501-520, by the screenshot flags. *)
Lemma scrape_screenshot_inv req page ar w w' shot :
  scrape_screenshot req page ar w = (w', Normal shot) ->
  (wants_screenshot req = false /\ shot = (None, ar))
  \/ (wants_screenshot req = true
      /\ exists d,
           takeScreenshot page (Some (default false (full_page_screenshot req)))
             (fst (console_log "Taking screenshot..." w)) = (w', Normal d)
           /\ fst shot = Some d
           /\ snd shot
              = match ar with
                | Some r =>
                    Some (if (0 <? length (screenshots r))%nat
                          then unshift_screenshot d r else r)
                | None =>
                    if truthy d
                    then Some {| screenshots := [d]; scrapes := [];
                                 javascriptReturns := []; pdfs := [] |}
                    else None
                end).
Proof.
  unfold scrape_screenshot. destruct (wants_screenshot req).
  - unfold bind at 1 2 3, console_log at 1, console_write at 1. cbn [fst snd].
    unfold console_log, console_write. cbn [fst].
    destruct (takeScreenshot page _ _) as [w1 [d|e]]; [|discriminate].
    cbn. intros E. injection E as <- <-. right. split; [reflexivity|].
    exists d. cbn. split; [reflexivity|]. split; [reflexivity|].
    destruct ar as [r|]; [|reflexivity].
    now destruct (length (screenshots r)).
  - cbn. intros E. injection E as <- <-. left. split; [reflexivity|].
    now destruct ar.
Qed.

(** The response of a request whose try block completes. *)
Lemma completed_render_response req target page w w3 resp :
  scrape_try req target page w = (w3, Normal tt) ->
  sent w3 = sent w ++ [resp] ->
  exists w1 w2 w3' result ar shot,
    scrape_navigate req target page w = (w1, Normal result)
    /\ scrape_actions req page w1 = (w2, Normal ar)
    /\ scrape_screenshot req page ar w2 = (w3', Normal shot)
    /\ resp = render_response result shot.
Proof.
  intros E Hsent.
  destruct (scrape_try_inv _ _ _ _ _ E)
    as (w1 & w2 & w3' & result & ar & shot & E1 & E2 & E3 & Hjs).
  destruct (scrape_try_completes _ _ _ _ _ _ _ _ _ _ E1 E2 E3 Hjs)
    as (w4 & E4 & _ & _ & _ & _ & T4).
  rewrite E in E4. injection E4 as <-.
  rewrite Hsent in T4. apply app_inv_head in T4. injection T4 as ->.
  exists w1, w2, w3', result, ar, shot. auto.
Qed.

End ResponseFacts.

(** X7. What a response can look like.  Every admitted request is answered
    once, with the 500 failure document or with a 200 render document; in
    a render document a status code of 200 comes without [pageError], a
    [pageError] is the non-empty text [getError] gives for a status other
    than 200, a [screenshot] is non-empty and present only when a
    screenshot flag was set, an [actions] block has at least one entry in
    one of its four arrays, and it is present only when the request had a
    non-empty [actions] array or a screenshot flag. *)
Theorem render_documents_are_well_formed `{Platform} (req : UrlModel) (target : string)
    (w : World) :
  exists resp,
    sent (fst (scrape_admitted req target w)) = sent w ++ [resp]
    /\ (resp = failure_response
        \/ exists r,
             resp = {| http_status := 200; http_body := RenderBody r |}
             /\ (pageStatusCode r = Some 200 -> pageError r = None)
             /\ (forall e, pageError r = Some e ->
                   e <> "" /\ pageStatusCode r <> Some 200
                   /\ getError (pageStatusCode r) = Some e)
             /\ (forall d, res_screenshot r = Some d ->
                   d <> "" /\ wants_screenshot req = true)
             /\ (forall ar, res_actions r = Some ar -> has_output ar = true)
             /\ (res_actions r <> None ->
                 wants_screenshot req = true
                 \/ exists acts, actions req = Some acts /\ acts <> [])).
Proof.
  destruct (scrape_admitted_sent req target w) as (resp & Hsent & Ha).
  exists resp. split; [exact Hsent|]. unfold answer_of in Ha.
  destruct (createContext _ w) as [w1 [ctx|e]]; [|left; exact Ha].
  destruct (call (Context_newPage ctx) w1) as [w2 [page|e]]; [|left; exact Ha].
  cbn [ret] in page.
  destruct (scrape_try req target page w2) as [w3 [[]|e]] eqn:E; [|left; exact Ha].
  right.
  destruct (completed_render_response _ _ _ _ _ _ E Ha)
    as (w1' & w2' & w3' & result & ar & shot & E1 & E2 & E3 & ->).
  eexists. split; [reflexivity|].
  cbn [render_json pageStatusCode pageError res_screenshot res_actions].
  assert (Hshot : forall d, fst shot = Some d -> wants_screenshot req = true).
  { intros d Hd. destruct (scrape_screenshot_inv _ _ _ _ _ _ E3)
      as [[_ ->]|[Hw _]]; [discriminate | exact Hw]. }
  split; [|split; [|split; [|split]]].
  - intros ->. unfold pageError_of. rewrite bool_decide_eq_true_2 by reflexivity.
    reflexivity.
  - intros e0 He. apply truthy_opt_keep in He as [He Hne].
    unfold pageError_of in He.
    destruct (bool_decide (so_status result = Some 200)) eqn:Hs; [discriminate|].
    apply bool_decide_eq_false in Hs. auto.
  - intros d Hd. apply truthy_opt_keep in Hd as [Hd Hne]. eauto.
  - intros r Hr. destruct (snd shot) as [r'|]; [|discriminate].
    destruct (has_output r') eqn:Ho; [|discriminate]. now injection Hr as <-.
  - intros Hsome.
    destruct (scrape_screenshot_inv _ _ _ _ _ _ E3) as [[_ ->]|[Hw _]]; [|now left].
    cbn [snd] in Hsome. destruct ar as [r'|]; [|now elim Hsome].
    right. destruct (scrape_actions_inv _ _ _ _ _ E2) as (acts & Hacts & Hne & _).
    eauto.
Qed.

(** A page that answers 404 on the concrete platform. *)
Lemma render_documents_are_well_formed_witness :
  let run := scrape_admitted (H := Demo.platform)
               (Demo.request "https://example.com/gone") "https://example.com/gone"
               Demo.w0 in
  exists r,
    sent (fst run) = [{| http_status := 200; http_body := RenderBody r |}]
    /\ pageError r = Some "Client Error"
    /\ pageStatusCode r <> Some 200
    /\ res_actions r = None.
Proof.
  intros run.
  assert (Hs : sent (fst run)
               = [{| http_status := 200;
                     http_body :=
                       RenderBody {| content := Demo.html;
                                     pageStatusCode := Some 404;
                                     contentType := Some "text/html";
                                     res_screenshot := None;
                                     res_actions := None;
                                     pageError := Some "Client Error" |} |}])
    by (vm_compute; reflexivity).
  destruct (render_documents_are_well_formed (H := Demo.platform)
              (Demo.request "https://example.com/gone") "https://example.com/gone"
              Demo.w0) as (resp & Hsent & [->|(r & -> & _ & Herr & _)]).
  - fold run in Hsent. rewrite Hs in Hsent. discriminate.
  - fold run in Hsent. rewrite Hs in Hsent. injection Hsent as <-.
    eexists. split; [exact Hs|]. split; [reflexivity|].
    split; [exact (proj1 (proj2 (Herr "Client Error" eq_refl))) | reflexivity].
Defined.

(** X8. The top-level screenshot joins [actions.screenshots] only in two
    of three cases.  In a render whose stretches complete with the
    screenshot flags set, the document handed to [res.json] is this:
    without action results the capture becomes the only entry of a new
    [actions] block; with action results that hold no screenshot it is
    left out of [actions], which is then the block the actions made, or
    omitted when they produced nothing.  The render is answered 200 with
    that document, unless [JSON.stringify] rejects it because of a value a
    script returned: then the try block throws and sends nothing. *)
Theorem top_level_screenshot_without_action_screenshots `{Platform} (req : UrlModel)
    (target : string) (page : Page) (w w1 w2 w3 : World) (result : ScrapeOutcome)
    (ar : option ActionResults) (screenshotData : string) :
  wants_screenshot req = true ->
  scrape_navigate req target page w = (w1, Normal result) ->
  scrape_actions req page w1 = (w2, Normal ar) ->
  (forall r, ar = Some r -> screenshots r = []) ->
  takeScreenshot page (Some (default false (full_page_screenshot req)))
    (fst (console_log "Taking screenshot..." w2)) = (w3, Normal screenshotData) ->
  exists r,
    res_screenshot r = (if truthy screenshotData then Some screenshotData else None)
    /\ res_actions r
       = match ar with
         | None =>
             if truthy screenshotData
             then Some {| screenshots := [screenshotData]; scrapes := [];
                          javascriptReturns := []; pdfs := [] |}
             else None
         | Some made => if has_output made then Some made else None
         end
    /\ match json_fault (RenderBody r) with
       | None =>
           exists w4,
             scrape_try req target page w = (w4, Normal tt)
             /\ sent w4 = sent w ++ [{| http_status := 200; http_body := RenderBody r |}]
       | Some message =>
           exists w4,
             scrape_try req target page w = (w4, Throw (ErrorObj message))
             /\ sent w4 = sent w
       end.
Proof.
  intros Hwant E1 E2 Hnone E3.
  destruct (scrape_screenshot req page ar w2) as [w3' [shot|e]] eqn:Es.
  - destruct (scrape_screenshot_inv _ _ _ _ _ _ Es) as [[Hw _]|(_ & d & Ed & Hd & Hr)];
      [congruence|].
    rewrite E3 in Ed. injection Ed as <- <-.
    exists (render_json result (pageError_of (so_status result)) (fst shot) (snd shot)).
    cbn [render_json res_screenshot res_actions]. rewrite Hd, Hr. cbn [truthy_opt].
    split; [reflexivity|]. split.
    { destruct ar as [made|].
      + rewrite (Hnone made eq_refl). reflexivity.
      + destruct (truthy screenshotData); reflexivity. }
    rewrite <- Hd, <- Hr.
    change (RenderBody (render_json result (pageError_of (so_status result)) (fst shot)
                          (snd shot)))
      with (http_body (render_response result shot)).
    destruct (json_fault _) as [message|] eqn:Hj.
    + destruct (scrape_try_unserializable _ _ _ _ _ _ _ _ _ _ _ E1 E2 Es Hj)
        as (w4 & E4 & S4).
      exists w4. split; [exact E4 | exact (steady_sent _ _ S4)].
    + destruct (scrape_try_completes _ _ _ _ _ _ _ _ _ _ E1 E2 Es Hj)
        as (w4 & E4 & _ & _ & _ & _ & T4).
      exists w4. split; [exact E4 | exact T4].
  - exfalso. revert Es. unfold scrape_screenshot. rewrite Hwant.
    unfold bind at 1 2 3, console_log at 1, console_write at 1. cbn [fst snd].
    unfold console_log, console_write in E3. cbn [fst] in E3. rewrite E3.
    discriminate.
Qed.

(** A scrape action followed by the top-level capture: the document holds
    the screenshot, and an [actions] block with the scrape and no
    screenshot. *)
Lemma top_level_screenshot_without_action_screenshots_witness :
  let req := Demo.with_screenshot
               (Demo.with_actions [Scrape] (Demo.request "https://example.com/")) in
  exists r made,
    sent (fst (scrape_try (H := Demo.platform) req "https://example.com/" 3%nat Demo.w0))
    = [{| http_status := 200; http_body := RenderBody r |}]
    /\ res_screenshot r = Some "iVBORw=="
    /\ res_actions r = Some made
    /\ screenshots made = []
    /\ length (scrapes made) = 1%nat.
Proof.
  intros req.
  set (nav := scrape_navigate (H := Demo.platform) req "https://example.com/" 3%nat
                Demo.w0).
  set (result := normal_or {| so_content := ""; so_status := None; so_headers := None;
                              so_contentType := None |} (snd nav)).
  assert (E1 : nav = (fst nav, Normal result)).
  { apply run_eq. vm_compute. reflexivity. }
  set (act := scrape_actions (H := Demo.platform) req 3%nat (fst nav)).
  set (made := normal_or empty_results
                 (snd (executeActions (H := Demo.platform) 3%nat [Scrape]
                         (fst (console_log "Executing 1 actions..." (fst nav)))))).
  assert (E2 : act = (fst act, Normal (Some made))).
  { apply run_eq. vm_compute. reflexivity. }
  set (cap := takeScreenshot (H := Demo.platform) 3%nat
                (Some (default false (full_page_screenshot req)))
                (fst (console_log "Taking screenshot..." (fst act)))).
  assert (E3 : cap = (fst cap, Normal "iVBORw==")).
  { apply run_eq. vm_compute. reflexivity. }
  assert (Hmade : screenshots made = []) by (vm_compute; reflexivity).
  destruct (top_level_screenshot_without_action_screenshots (H := Demo.platform) req
              "https://example.com/" 3%nat Demo.w0 _ _ _ result (Some made) "iVBORw=="
              eq_refl E1 E2 ltac:(intros r Hr; injection Hr as <-; exact Hmade) E3)
    as (r & Hs & Ha & Hrun).
  assert (Hj : json_fault (RenderBody r) = None).
  { unfold json_fault. rewrite Ha. vm_compute. reflexivity. }
  rewrite Hj in Hrun. destruct Hrun as (w4 & E4 & T4).
  exists r, made. rewrite E4. cbn [fst]. split; [exact T4|].
  split; [exact Hs|]. split; [rewrite Ha; vm_compute; reflexivity|].
  split; [exact Hmade | vm_compute; reflexivity].
Defined.


(** ** The required selector *)

Section SelectorFacts.

Context `{Platform}.

Lemma truthy_nonempty (s : string) : s <> "" -> truthy s = true.
Proof. destruct s; [congruence | reflexivity]. Qed.

(** With a required selector that never appears, [scrapePage] throws. *)
Lemma scrapePage_selector_throws page target wu wal ms sel w :
  sel <> "" ->
  (forall b, exists e, snd (perform (Page_waitForSelector page sel ms) b) = Throw e) ->
  exists e, snd (scrapePage page target wu wal ms (Some sel) w) = Throw e.
Proof.
  intros Hne Hsel.
  unfold scrapePage, bind, console_log, console_write, call, when, try_catch, throw,
    mreturn.
  rewrite (truthy_nonempty sel Hne). cbn.
  destruct (perform (Page_goto page target wu ms) (env w)) as [b1 [response|e1]];
    [|cbn; eauto].
  cbn. destruct (0 <? wal); cbn.
  - destruct (perform (Page_waitForTimeout page wal) b1) as [b2 [[]|e2]];
      [|cbn; eauto].
    cbn. destruct (Hsel b2) as [e He].
    destruct (perform (Page_waitForSelector page sel ms) b2) as [b3 r3].
    cbn in He. subst r3. cbn. eauto.
  - destruct (Hsel b1) as [e He].
    destruct (perform (Page_waitForSelector page sel ms) b1) as [b3 r3].
    cbn in He. subst r3. cbn. eauto.
Qed.

End SelectorFacts.

(** X9. A required selector that does not appear fails the request.  When
    [page.waitForSelector] rejects for a non-empty [check_selector],
    [scrapePage], once navigation and the wait after load went through,
    throws an [Error] with the message [Required selector not found] in
    place of the rejection, after exactly these calls, so without reading
    the page content; and the request is answered with the 500 failure
    document.  An empty [check_selector] is the same as none. *)
Theorem missing_required_selector_fails_the_request `{Platform} (sel : string) (ms : Z) :
  sel <> "" ->
  (forall p b, exists e, snd (perform (Page_waitForSelector p sel ms) b) = Throw e) ->
  (forall (page : Page) (target : string) (wu : WaitUntil) (wal : Z) (w : World)
          (response : option Resp),
      let g := perform (Page_goto page target wu ms) (env w) in
      snd g = Normal response ->
      (0 < wal -> snd (perform (Page_waitForTimeout page wal) (fst g)) = Normal tt) ->
      let run := scrapePage page target wu wal ms (Some sel) w in
      snd run = Throw (ErrorObj "Required selector not found")
      /\ calls (fst run)
         = calls w
           ++ [Page_goto page target wu ms]
           ++ (if 0 <? wal then [Page_waitForTimeout page wal] else [])
           ++ [Page_waitForSelector page sel ms])
  /\ (forall (req : UrlModel) (target : string) (w : World),
         check_selector req = Some sel ->
         default 15000 (timeout req) = ms ->
         sent (fst (scrape_admitted req target w)) = sent w ++ [failure_response])
  /\ (forall (page : Page) (target : string) (wu : WaitUntil) (wal : Z) (w : World),
         scrapePage page target wu wal ms (Some "") w
         = scrapePage page target wu wal ms None w).
Proof.
  intros Hne Hsel. split; [|split].
  - intros page target wu wal w response g Hg Hwait run. subst run.
    unfold scrapePage, bind, console_log, console_write, call, when, try_catch, throw,
      mreturn.
    rewrite (truthy_nonempty sel Hne). cbn.
    fold g. destruct g as [b1 r1]. cbn [fst snd] in Hg, Hwait. subst r1. cbn.
    destruct (Z.ltb_spec 0 wal) as [Hpos|Hno].
    + specialize (Hwait Hpos). cbn.
      destruct (perform (Page_waitForTimeout page wal) b1) as [b2 r2].
      cbn in Hwait. subst r2. cbn.
      destruct (Hsel page b2) as [e He].
      destruct (perform (Page_waitForSelector page sel ms) b2) as [b3 r3].
      cbn in He. subst r3. cbn. split; [reflexivity|]. now rewrite <- !app_assoc.
    + cbn. destruct (Hsel page b1) as [e He].
      destruct (perform (Page_waitForSelector page sel ms) b1) as [b3 r3].
      cbn in He. subst r3. cbn. split; [reflexivity|]. now rewrite <- !app_assoc.
  - intros req target w Hreq Hms. apply scrape_admitted_failure. intros page w2.
    assert (Hpage : forall w0, exists e,
               snd (scrapePage page target load (default 0 (wait_after_load req))
                      (default 15000 (timeout req)) (check_selector req) w0) = Throw e).
    { intros w0. rewrite Hreq, Hms. apply scrapePage_selector_throws; [exact Hne|].
      intros b. apply Hsel. }
    unfold scrape_try, scrape_navigate, bind at 1 2.
    destruct (headers req) as [hs|].
    + destruct (call (Page_setExtraHTTPHeaders page hs) w2) as [w1 [[]|e1]];
        [|cbn; eauto].
      destruct (Hpage w1) as [e He].
      destruct (scrapePage _ _ _ _ _ _ w1) as [w3 c]. cbn in He. subst c. cbn. eauto.
    + unfold mreturn. destruct (Hpage w2) as [e He].
      destruct (scrapePage _ _ _ _ _ _ w2) as [w3 c]. cbn in He. subst c. cbn. eauto.
  - reflexivity.
Qed.

(** The selector [#missing] on the concrete platform. *)
Lemma missing_required_selector_fails_the_request_witness :
  "#missing" <> ""
  /\ snd (scrapePage (H := Demo.platform) 3%nat "https://example.com/" load 0 15000
            (Some "#missing") Demo.w0)
     = Throw (ErrorObj "Required selector not found")
  /\ calls (fst (scrapePage (H := Demo.platform) 3%nat "https://example.com/" load 0
                   15000 (Some "#missing") Demo.w0))
     = [Page_goto 3%nat "https://example.com/" load 15000;
        Page_waitForSelector 3%nat "#missing" 15000].
Proof.
  split; [discriminate|].
  apply (proj1 (missing_required_selector_fails_the_request (H := Demo.platform)
                  "#missing" 15000 ltac:(discriminate)
                  ltac:(intros p b; eexists; reflexivity))
           3%nat "https://example.com/" load 0 Demo.w0
           (Some {| resp_handle := 0; resp_status := 200 |}) eq_refl ltac:(lia)).
Defined.


(** ** What a batch of actions yields *)

Section YieldFacts.

Context `{Platform}.

Lemma returns_click_each elements : fault_free -> returns (click_each elements).
Proof. intros Hok. induction elements; cbn; returns_tac Hok. assumption. Qed.

Lemma returns_executeAction page a r : fault_free -> returns (executeAction page a r).
Proof.
  intros Hok. destruct a; cbn; returns_tac Hok;
    auto using returns_takeScreenshot, returns_click_each.
Qed.

(** An action that completes has pushed one entry to the array of its
    kind, if it has one, and nothing else. *)
Lemma executeAction_yield page a w w' d :
  executeAction page a empty_results w = (w', Normal d) ->
  length (screenshots d) = (if is_screenshot_action a then 1 else 0)%nat
  /\ length (scrapes d) = (if is_scrape_action a then 1 else 0)%nat
  /\ length (javascriptReturns d) = (if is_javascript_action a then 1 else 0)%nat
  /\ length (pdfs d) = (if is_pdf_action a then 1 else 0)%nat.
Proof.
  destruct a; unfold_js; cbn; case_js; intros Hrun; inversion Hrun; subst; cbn; auto.
Qed.

Lemma action_step_yield page total i a r w :
  exists d,
    snd (action_step page total i a r w) = Normal (append_results r d)
    /\ (length (screenshots d) <= if is_screenshot_action a then 1 else 0)%nat
    /\ (length (scrapes d) <= if is_scrape_action a then 1 else 0)%nat
    /\ (length (javascriptReturns d) <= if is_javascript_action a then 1 else 0)%nat
    /\ (length (pdfs d) <= if is_pdf_action a then 1 else 0)%nat
    /\ (fault_free ->
        length (screenshots d) = (if is_screenshot_action a then 1 else 0)%nat
        /\ length (scrapes d) = (if is_scrape_action a then 1 else 0)%nat
        /\ length (javascriptReturns d) = (if is_javascript_action a then 1 else 0)%nat
        /\ length (pdfs d) = (if is_pdf_action a then 1 else 0)%nat).
Proof.
  rewrite action_step_onto. cbn [snd].
  unfold action_step, bind, try_catch, console_log at 1, console_write at 1.
  cbn [fst snd].
  match goal with |- context [executeAction page a empty_results ?w0] =>
    pose proof (returns_executeAction page a empty_results) as Hret;
    destruct (executeAction page a empty_results w0) as [w1 [d|e]] eqn:E
  end.
  - exists d. cbn. split; [reflexivity|].
    destruct (executeAction_yield _ _ _ _ _ E) as (H1 & H2 & H3 & H4).
    rewrite H1, H2, H3, H4. auto 10.
  - exists empty_results. cbn. split; [reflexivity|].
    split; [lia|]. split; [lia|]. split; [lia|]. split; [lia|].
    intros Hok. specialize (Hret Hok).
    match type of E with _ _ _ _ ?w0 = _ =>
      destruct (Hret w0) as [d Hd]; rewrite E in Hd; discriminate
    end.
Qed.

Lemma count_actions_cons kind a rest :
  count_actions kind (a :: rest)
  = ((if kind a then 1 else 0) + count_actions kind rest)%nat.
Proof. unfold count_actions. cbn. now destruct (kind a). Qed.

Lemma executeActions_from_yield page total acts : forall i r w,
  exists d,
    snd (executeActions_from page total i acts r w) = Normal (append_results r d)
    /\ (length (screenshots d) <= count_actions is_screenshot_action acts)%nat
    /\ (length (scrapes d) <= count_actions is_scrape_action acts)%nat
    /\ (length (javascriptReturns d) <= count_actions is_javascript_action acts)%nat
    /\ (length (pdfs d) <= count_actions is_pdf_action acts)%nat
    /\ (fault_free ->
        length (screenshots d) = count_actions is_screenshot_action acts
        /\ length (scrapes d) = count_actions is_scrape_action acts
        /\ length (javascriptReturns d) = count_actions is_javascript_action acts
        /\ length (pdfs d) = count_actions is_pdf_action acts).
Proof.
  induction acts as [|a rest IH]; intros i r w.
  - exists empty_results. cbn. rewrite append_results_empty_r.
    split; [reflexivity|]. unfold count_actions. cbn. auto 10.
  - cbn [executeActions_from]. unfold bind.
    destruct (action_step_yield page total i a r w)
      as (d1 & E1 & A1 & A2 & A3 & A4 & Aok).
    destruct (action_step page total i a r w) as [w1 c]. cbn in E1. subst c.
    destruct (IH (S i) (append_results r d1) w1)
      as (d2 & E2 & B1 & B2 & B3 & B4 & Bok).
    exists (append_results d1 d2). rewrite E2, append_results_assoc.
    split; [reflexivity|]. rewrite !count_actions_cons.
    unfold append_results. cbn [screenshots scrapes javascriptReturns pdfs].
    rewrite !length_app.
    split; [lia|]. split; [lia|]. split; [lia|]. split; [lia|].
    intros Hok. destruct (Aok Hok) as (? & ? & ? & ?).
    destruct (Bok Hok) as (? & ? & ? & ?). lia.
Qed.


End YieldFacts.

(** X10. The entries of [actionResults] count the actions that completed.
    A batch returns at most one screenshot per [screenshot] action, one
    scrape per [scrape] action, one return value per [executeJavascript]
    action and one PDF per [pdf] action, so none of a kind the batch does
    not contain; on a platform without faults each array has exactly one
    entry per action of its kind. *)
Theorem action_results_count_completed_actions `{Platform} (page : Page)
    (acts : list Action) (w : World) :
  exists r,
    snd (executeActions page acts w) = Normal r
    /\ (length (screenshots r) <= count_actions is_screenshot_action acts)%nat
    /\ (length (scrapes r) <= count_actions is_scrape_action acts)%nat
    /\ (length (javascriptReturns r) <= count_actions is_javascript_action acts)%nat
    /\ (length (pdfs r) <= count_actions is_pdf_action acts)%nat
    /\ (fault_free ->
        length (screenshots r) = count_actions is_screenshot_action acts
        /\ length (scrapes r) = count_actions is_scrape_action acts
        /\ length (javascriptReturns r) = count_actions is_javascript_action acts
        /\ length (pdfs r) = count_actions is_pdf_action acts).
Proof.
  unfold executeActions.
  destruct (executeActions_from_yield page (length acts) acts 0%nat empty_results w)
    as (d & E & Hd).
  exists d. now rewrite append_results_empty_l in E.
Qed.

(** Three producing actions among five, on the platform without faults. *)
Lemma action_results_count_completed_actions_witness :
  exists r,
    snd (executeActions (H := Demo.calm) 3%nat
           [Scrape; Press "Enter"; Screenshot None; Scrape; Wait None None]
           Demo.calm_w0) = Normal r
    /\ length (screenshots r) = 1%nat
    /\ length (scrapes r) = 2%nat
    /\ length (javascriptReturns r) = 0%nat
    /\ length (pdfs r) = 0%nat.
Proof.
  destruct (action_results_count_completed_actions (H := Demo.calm) 3%nat
              [Scrape; Press "Enter"; Screenshot None; Scrape; Wait None None]
              Demo.calm_w0) as (r & E & _ & _ & _ & _ & Hok).
  exists r. split; [exact E|]. apply Hok. intros c b. eexists. reflexivity.
Defined.

(** X11. Actions cannot answer the request, return its permit or close
    its page.  Whatever the actions and whatever the platform does, a
    batch leaves the semaphore, the wake-ups and the responses as they
    were, only appends to the console, and issues no [close] call. *)
Theorem actions_leave_the_request_state_alone `{Platform} (page : Page)
    (acts : list Action) (w : World) :
  let w' := fst (executeActions page acts w) in
  pageSemaphore w' = pageSemaphore w
  /\ woken w' = woken w
  /\ sent w' = sent w
  /\ (exists lines, console w' = console w ++ lines)
  /\ (exists new, calls w' = calls w ++ new /\ closes new = []).
Proof.
  destruct (keeps_executeActions_from page (length acts) acts 0%nat empty_results w)
    as [S W T L C].
  cbn zeta. unfold executeActions. auto.
Qed.




(** ** A context whose routes cannot be installed *)

(** X13. A context is leaked when a route cannot be installed on it.  If
    [browser.newContext] resolves to a context and [context.route]
    rejects for it, [createContext] throws before [requestContext] is
    assigned: the request is answered with the 500 failure document and
    its permit is released, and the calls made are the user agent, the
    new context and the first route, so the context is never closed. *)
Theorem failed_route_installation_leaks_the_context `{Platform} (req : UrlModel)
    (target : string) (w : World) (userAgent : string) (ctx : Ctx) :
  let skip := default false (skip_tls_verification req) in
  let u := perform UserAgent_toString (env w) in
  snd u = Normal userAgent ->
  snd (perform (Browser_newContext (contextOptions userAgent skip)) (fst u))
  = Normal ctx ->
  (forall pattern name b, exists e,
      snd (perform (Context_route ctx pattern name) b) = Throw e) ->
  let w' := fst (scrape_admitted req target w) in
  snd (scrape_admitted req target w) = Normal tt
  /\ sent w' = sent w ++ [failure_response]
  /\ pageSemaphore w' = fst (Semaphore.release (pageSemaphore w))
  /\ calls w'
     = calls w
       ++ [UserAgent_toString;
           Browser_newContext (contextOptions userAgent skip);
           if BLOCK_MEDIA
           then Context_route ctx
                  "**/*.{png,jpg,jpeg,gif,svg,mp3,mp4,avi,flac,ogg,wav,webm}" media_route
           else Context_route ctx "**/*" ad_route].
Proof.
  intros skip u Hu Hctx Hroute w'. subst w'.
  unfold scrape_admitted, createContext, try_finally, scrape_catch, scrape_finally,
    pageSemaphore_release, res_json, console_error, console_write, when, bind, call,
    mreturn.
  fold skip. fold u. destruct u as [b1 r1]. cbn [fst snd] in Hu, Hctx. subst r1.
  cbn. 
  destruct (perform (Browser_newContext (contextOptions userAgent skip)) b1)
    as [b2 r2].
  cbn in Hctx. subst r2. cbn.
  destruct BLOCK_MEDIA; cbn.
  - destruct (Hroute "**/*.{png,jpg,jpeg,gif,svg,mp3,mp4,avi,flac,ogg,wav,webm}"
                media_route b2) as [e He].
    destruct (perform (Context_route ctx _ media_route) b2) as [b3 r3].
    cbn in He. subst r3. cbn.
    destruct (Semaphore.release (pageSemaphore w)) as [s next]. cbn.
    rewrite <- !app_assoc. auto.
  - destruct (Hroute "**/*" ad_route b2) as [e He].
    destruct (perform (Context_route ctx "**/*" ad_route) b2) as [b3 r3].
    cbn in He. subst r3. cbn.
    destruct (Semaphore.release (pageSemaphore w)) as [s next]. cbn.
    rewrite <- !app_assoc. auto.
Qed.

(** The request on the platform whose [context.route()] rejects. *)
Lemma failed_route_installation_leaks_the_context_witness :
  let run := scrape_admitted (H := Stuck.unrouted) (Demo.request "https://example.com/")
               "https://example.com/" Stuck.unrouted_w0 in
  sent (fst run) = [failure_response]
  /\ closes (calls (fst run)) = []
  /\ exists options, In (Browser_newContext options) (calls (fst run)).
Proof.
  intros run.
  destruct (failed_route_installation_leaks_the_context (H := Stuck.unrouted)
              (Demo.request "https://example.com/") "https://example.com/"
              Stuck.unrouted_w0 "Mozilla/5.0 (X11; Linux x86_64)" 1%nat
              eq_refl eq_refl ltac:(intros pattern name b; eexists; reflexivity))
    as (_ & Hsent & _ & Hcalls).
  fold run in Hsent, Hcalls. split; [exact Hsent|].
  rewrite Hcalls. split; [reflexivity|].
  eexists. right. left. reflexivity.
Defined.


(** ** Captures on disk *)

Section CaptureFacts.

Context `{Platform}.

(** A capture that returns, in full: its calls and the disk it leaves. *)
Lemma takeScreenshot_run (page : Page) (fullPage : option bool) (w w' : World)
    (data : string) :
  takeScreenshot page fullPage w = (w', Normal data) ->
  exists (png : Buffer) (iso : string) (b : B),
    let file := path_join SCREENSHOTS_DIR
                  ("screenshot-" +:+ replace_colon_dot iso +:+ ".png") in
    let present := bool_decide (SCREENSHOTS_DIR ∈ dirs (disk w))
                   || bool_decide (is_Some (files (disk w) !! SCREENSHOTS_DIR)) in
    snd (perform (Page_screenshot page (default false fullPage)) (env w)) = Normal png
    /\ snd (perform Date_toISOString b) = Normal iso
    /\ data = Buffer_toString_base64 png
    /\ files (disk w') = <[ file := png ]> (files (disk w))
    /\ dirs (disk w')
       = (if present then dirs (disk w) else {[ SCREENSHOTS_DIR ]} ∪ dirs (disk w))
    /\ calls w'
       = calls w
         ++ Page_screenshot page (default false fullPage)
            :: (if present then [] else [Fs_mkdirSync SCREENSHOTS_DIR])
            ++ [Date_toISOString; Fs_writeFileSync file png].
Proof.
  unfold takeScreenshot, fs_existsSync, fs_mkdirSync, fs_writeFileSync, get_disk,
    set_disk, console_log, console_write, when, bind, mreturn, call.
  intros E.
  destruct (perform (Page_screenshot page (default false fullPage)) (env w))
    as [b1 [png|e1]] eqn:E1; [|discriminate].
  cbn in E.
  destruct (bool_decide (SCREENSHOTS_DIR ∈ dirs (disk w))
            || bool_decide (is_Some (files (disk w) !! SCREENSHOTS_DIR))) eqn:Ex;
    cbn in E.
  - destruct (perform Date_toISOString b1) as [b2 [iso|e2]] eqn:E2; [|discriminate].
    cbn in E.
    destruct (perform (Fs_writeFileSync _ png) b2) as [b3 [[]|e3]] eqn:E3; [|discriminate].
    cbn in E. injection E as <- <-.
    exists png, iso, b1. cbn. rewrite E2. cbn.
    rewrite <- !app_assoc. auto 10.
  - destruct (perform (Fs_mkdirSync SCREENSHOTS_DIR) b1) as [b2 [[]|e2]] eqn:E2;
      [|discriminate].
    cbn in E.
    destruct (perform Date_toISOString b2) as [b3 [iso|e3]] eqn:E3; [|discriminate].
    cbn in E.
    destruct (perform (Fs_writeFileSync _ png) b3) as [b4 [[]|e4]] eqn:E4; [|discriminate].
    cbn in E. injection E as <- <-.
    exists png, iso, b2. cbn. rewrite E3. cbn.
    rewrite <- !app_assoc. auto 10.
Qed.

End CaptureFacts.

(** X14. The screenshots directory is created at most once, and captures
    taken within one clock reading share a file.  A capture that follows
    a completed capture makes three calls, the screenshot, the clock and
    the write, and no [mkdirSync]; if the clock gives the same time to
    both, the second capture overwrites the file of the first, so that the
    disk holds one new file, with the bytes of the second. *)
Theorem second_capture_reuses_directory_and_file `{Platform} (page1 page2 : Page)
    (full1 full2 : option bool) (w w1 w2 : World) (data1 data2 : string) :
  takeScreenshot page1 full1 w = (w1, Normal data1) ->
  takeScreenshot page2 full2 w1 = (w2, Normal data2) ->
  exists (png2 : Buffer) (file2 : string),
    data2 = Buffer_toString_base64 png2
    /\ calls w2
       = calls w1
         ++ [Page_screenshot page2 (default false full2); Date_toISOString;
             Fs_writeFileSync file2 png2]
    /\ dirs (disk w2) = dirs (disk w1)
    /\ forall iso,
         (forall b, snd (perform Date_toISOString b) = Normal iso) ->
         file2 = path_join SCREENSHOTS_DIR
                   ("screenshot-" +:+ replace_colon_dot iso +:+ ".png")
         /\ files (disk w2) = <[ file2 := png2 ]> (files (disk w)).
Proof.
  intros E1 E2.
  destruct (takeScreenshot_run _ _ _ _ _ E1)
    as (png1 & iso1 & b1 & _ & Hc1 & _ & Hf1 & Hd1 & _).
  destruct (takeScreenshot_run _ _ _ _ _ E2)
    as (png2 & iso2 & b2 & _ & Hc2 & Hdata & Hf2 & Hd2 & Hcalls).
  cbn zeta in *.
  assert (Hpresent : bool_decide (SCREENSHOTS_DIR ∈ dirs (disk w1))
                     || bool_decide (is_Some (files (disk w1) !! SCREENSHOTS_DIR))
                     = true).
  { apply orb_true_iff.
    destruct (bool_decide (SCREENSHOTS_DIR ∈ dirs (disk w))
              || bool_decide (is_Some (files (disk w) !! SCREENSHOTS_DIR))) eqn:Hp.
    - apply orb_true_iff in Hp as [Hp|Hp]; apply bool_decide_eq_true in Hp.
      + left. apply bool_decide_eq_true. rewrite Hd1. exact Hp.
      + right. apply bool_decide_eq_true. rewrite Hf1.
        apply lookup_insert_is_Some'. now right.
    - left. apply bool_decide_eq_true. rewrite Hd1.
      apply elem_of_union_l, elem_of_singleton. reflexivity. }
  rewrite Hpresent in Hd2, Hcalls.
  exists png2, (path_join SCREENSHOTS_DIR
                  ("screenshot-" +:+ replace_colon_dot iso2 +:+ ".png")).
  split; [exact Hdata|]. split; [exact Hcalls|]. split; [exact Hd2|].
  intros iso Hclock.
  rewrite (Hclock b1) in Hc1. injection Hc1 as <-.
  rewrite (Hclock b2) in Hc2. injection Hc2 as <-.
  split; [reflexivity|]. rewrite Hf2, Hf1. apply insert_insert_eq.
Qed.

(** Two captures on the concrete platform, whose clock stands still. *)
Lemma second_capture_reuses_directory_and_file_witness :
  let first := takeScreenshot (H := Demo.platform) 3%nat None Demo.w0 in
  let second := takeScreenshot (H := Demo.platform) 4%nat (Some false) (fst first) in
  exists png2,
    snd second = Normal (Buffer_toString_base64 png2)
    /\ files (disk (fst second))
       = <[ "/srv/screenshots/screenshot-2024-01-02T03-04-05-678Z.png" := png2 ]> ∅
    /\ length (calls (fst second)) = (length (calls (fst first)) + 3)%nat.
Proof.
  intros first second.
  assert (E1 : first = (fst first, Normal "iVBORw==")).
  { apply run_eq. vm_compute. reflexivity. }
  assert (E2 : second = (fst second, Normal "iVBORw==")).
  { apply run_eq. vm_compute. reflexivity. }
  destruct (second_capture_reuses_directory_and_file (H := Demo.platform) 3%nat 4%nat
              None (Some false) Demo.w0 (fst first) (fst second) _ _ E1 E2)
    as (png2 & file2 & Hdata & Hcalls & _ & Hclock).
  destruct (Hclock "2024-01-02T03:04:05.678Z" ltac:(reflexivity)) as [Hfile Hfiles].
  exists png2. split; [rewrite E2; cbn [snd]; now rewrite Hdata|].
  split.
  - rewrite Hfiles, Hfile. reflexivity.
  - rewrite Hcalls, length_app. reflexivity.
Defined.


(** ** Strings the service builds and tests *)

Section StringFacts.

Lemma prefix_app (a b : string) :
  String.prefix a b = true <-> exists post, b = a +:+ post.
Proof.
  revert b. induction a as [|c a IH]; intros b.
  - split; [intros _; now exists b | intros _; now destruct b].
  - destruct b as [|c' b]; cbn.
    + split; [discriminate | intros [post Hb]; discriminate].
    + destruct (ascii_dec c c') as [->|Hne].
      * rewrite IH. split; intros [post Hb]; exists post.
        -- now rewrite Hb.
        -- now injection Hb.
      * split; [discriminate|]. intros [post Hb]. injection Hb as Hc _. congruence.
Qed.

(** [includes] is the substring test. *)
Lemma includes_spec (s sub : string) :
  includes s sub = true <-> exists pre post, s = pre +:+ sub +:+ post.
Proof.
  induction s as [|c s IH].
  - cbn [includes]. destruct (String.prefix sub "") eqn:Hp.
    + split; [intros _|reflexivity].
      apply prefix_app in Hp as [post Hp]. exists "", post. exact Hp.
    + split; [discriminate|]. intros (pre & post & Hs).
      destruct pre as [|c pre]; [|discriminate]. cbn in Hs.
      assert (String.prefix sub "" = true) by (apply prefix_app; eauto).
      congruence.
  - cbn [includes]. destruct (String.prefix sub (String c s)) eqn:Hp.
    + split; [intros _|reflexivity].
      apply prefix_app in Hp as [post Hp]. exists "", post. exact Hp.
    + rewrite IH. split.
      * intros (pre & post & Hs). exists (String c pre), post. cbn. now rewrite Hs.
      * intros (pre & post & Hs). destruct pre as [|c' pre].
        -- cbn in Hs.
           assert (String.prefix sub (String c s) = true) by (apply prefix_app; eauto).
           congruence.
        -- cbn in Hs. injection Hs as _ Hs. eauto.
Qed.

End StringFacts.

(** X15. The ad filter matches substrings.  For a request whose URL
    parses, the handler of the catch-all route aborts it exactly when the
    host name has the form [pre ++ domain ++ post] for an entry [domain] of
    [AD_SERVING_DOMAINS], whatever surrounds it, and then the host name is
    what gets logged; every other request is continued. *)
Theorem ad_filter_blocks_by_substring `{Platform} (requestUrl hostname : string) :
  URL_hostname requestUrl = Some hostname ->
  (route_result (ad_route_handler requestUrl) = Normal RouteAbort
   <-> exists domain pre post,
         In domain AD_SERVING_DOMAINS /\ hostname = pre +:+ domain +:+ post)
  /\ (route_result (ad_route_handler requestUrl) = Normal RouteAbort
      -> route_logged (ad_route_handler requestUrl) = [hostname])
  /\ (route_result (ad_route_handler requestUrl) <> Normal RouteAbort
      -> route_result (ad_route_handler requestUrl) = Normal RouteContinue
         /\ route_logged (ad_route_handler requestUrl) = []).
Proof.
  intros Hurl. unfold ad_route_handler. rewrite Hurl.
  destruct (existsb (fun domain => includes hostname domain) AD_SERVING_DOMAINS) eqn:Hex.
  - cbn [route_result route_logged]. split; [|split; [reflexivity | congruence]].
    split; [intros _ | reflexivity].
    apply existsb_exists in Hex as (domain & Hin & Hinc).
    apply includes_spec in Hinc as (pre & post & Hs). eauto.
  - cbn [route_result route_logged]. split; [|split; [discriminate | auto]].
    split; [discriminate|]. intros (domain & pre & post & Hin & Hs).
    assert (existsb (fun domain => includes hostname domain) AD_SERVING_DOMAINS = true).
    { apply existsb_exists. exists domain. split; [exact Hin|].
      apply includes_spec. eauto. }
    congruence.
Qed.

(** A host that merely contains [facebook.net] is blocked. *)
Lemma ad_filter_blocks_by_substring_witness :
  route_result (ad_route_handler (H := Demo.platform) "https://myfacebook.network/feed")
  = Normal RouteAbort.
Proof.
  apply (proj1 (ad_filter_blocks_by_substring (H := Demo.platform)
                  "https://myfacebook.network/feed" "myfacebook.network" eq_refl)).
  exists "facebook.net", "my", "work". split; [|reflexivity].
  cbn. tauto.
Defined.

Section TimestampFacts.

Lemma replace_colon_dot_get (s : string) : forall (n : nat) (c : ascii),
  String.get n (replace_colon_dot s) = Some c ->
  c <> ":"%char /\ c <> "."%char
  /\ exists c0, String.get n s = Some c0
       /\ (c0 = c \/ (c = "-"%char /\ (c0 = ":"%char \/ c0 = "."%char))).
Proof.
  induction s as [|x s IH]; intros n c; cbn [replace_colon_dot]; [discriminate|].
  destruct n as [|n]; cbn [String.get]; [|apply IH].
  destruct (Ascii.eqb_spec x ":") as [->|Hc]; cbn [orb].
  - intros E. injection E as <-. repeat split; try discriminate. eauto 6.
  - destruct (Ascii.eqb_spec x ".") as [->|Hd].
    + intros E. injection E as <-. repeat split; try discriminate. eauto 6.
    + intros E. injection E as <-. repeat split; auto. eauto.
Qed.

Lemma replace_colon_dot_length (s : string) :
  String.length (replace_colon_dot s) = String.length s.
Proof. induction s as [|x s IH]; cbn; [reflexivity | now rewrite IH]. Qed.

Lemma replace_colon_dot_fixed (s : string) :
  (forall n, String.get n s <> Some ":"%char /\ String.get n s <> Some "."%char) ->
  replace_colon_dot s = s.
Proof.
  induction s as [|x s IH]; intros Hs; cbn; [reflexivity|].
  destruct (Hs 0%nat) as [Hc Hd]. cbn in Hc, Hd.
  destruct (Ascii.eqb_spec x ":") as [->|_]; [congruence|].
  destruct (Ascii.eqb_spec x ".") as [->|_]; [congruence|].
  cbn. f_equal. apply IH. intros n. exact (Hs (S n)).
Qed.

End TimestampFacts.

(** X16. The time stamp in a screenshot's file name has no colon and no
    dot.  The replacement keeps the length of the ISO time, turns every
    [:] and [.] into [-] and leaves every other character where it was;
    applied to its own output it changes nothing. *)
Theorem timestamp_has_no_colon_or_dot (iso : string) :
  String.length (replace_colon_dot iso) = String.length iso
  /\ (forall (n : nat) (c : ascii),
         String.get n (replace_colon_dot iso) = Some c ->
         c <> ":"%char /\ c <> "."%char
         /\ exists c0, String.get n iso = Some c0
              /\ (c0 = c \/ (c = "-"%char /\ (c0 = ":"%char \/ c0 = "."%char))))
  /\ replace_colon_dot (replace_colon_dot iso) = replace_colon_dot iso.
Proof.
  split; [apply replace_colon_dot_length|]. split; [apply replace_colon_dot_get|].
  apply replace_colon_dot_fixed. intros n.
  destruct (String.get n (replace_colon_dot iso)) as [c|] eqn:E; [|split; discriminate].
  destruct (replace_colon_dot_get iso n c E) as (Hc & Hd & _).
  split; congruence.
Qed.

Lemma timestamp_has_no_colon_or_dot_witness :
  exists c0,
    String.get 13 "2024-01-02T03:04:05.678Z" = Some c0
    /\ (c0 = "-"%char \/ ("-"%char = "-"%char /\ (c0 = ":"%char \/ c0 = "."%char))).
Proof.
  exact (proj2 (proj2 (proj1 (proj2 (timestamp_has_no_colon_or_dot
                                       "2024-01-02T03:04:05.678Z"))
                         13%nat "-"%char eq_refl))).
Defined.


(** ** The head of the [/scrape] handler and the health probe *)

Section EntryFacts.

Context {H : Platform} {R : Runtime}.

Lemma only_logs_console_write l line : only_logs (console_write l line).
Proof. intros w. now exists [(l, line)]. Qed.

Lemma only_logs_mreturn : only_logs (mreturn tt).
Proof.
  intros w. exists []. unfold mreturn, logging. rewrite app_nil_r. now destruct w.
Qed.

Lemma only_logs_bind (m : M unit) (k : unit -> M unit) :
  only_logs m -> (forall x, only_logs (k x)) -> only_logs (bind m k).
Proof.
  intros Hm Hk w. destruct (Hm w) as [l1 E1]. unfold bind. rewrite E1.
  destruct (Hk tt (logging l1 w)) as [l2 E2]. rewrite E2.
  exists (l1 ++ l2). unfold logging. cbn. now rewrite app_assoc.
Qed.

(** The banner only writes to the console. *)
Lemma scrape_banner_run req : only_logs (scrape_banner req).
Proof.
  unfold scrape_banner.
  repeat (apply only_logs_bind; [apply only_logs_console_write | intros _]).
  apply only_logs_console_write.
Qed.

(** What [initializeBrowser] does to a process. *)
Lemma initializeBrowser_run p :
  let w := proc_world p in
  let launch := chromium_launch {| headless := HEADLESS; args := LAUNCH_ARGS |} (env w) in
  initializeBrowser p
  = ({| proc_world :=
          {| env := fst launch; disk := disk w;
             console := console w ++ [(log, "Launching browser with headless: "
                                            +:+ show_bool HEADLESS)];
             calls := calls w; pageSemaphore := pageSemaphore w; woken := woken w;
             sent := sent w |};
        browser := match snd launch with
                   | Normal _ => true
                   | Throw _ => browser p
                   end;
        launched := launched p ++ [{| headless := HEADLESS; args := LAUNCH_ARGS |}] |},
     snd launch).
Proof.
  unfold initializeBrowser, pbind, in_world, console_log, console_write.
  cbn [fst snd env disk console calls pageSemaphore woken sent proc_world browser
       launched].
  destruct (chromium_launch _ (env (proc_world p))) as [b r]. reflexivity.
Qed.


Lemma only_logs_when b (m : M unit) : only_logs m -> only_logs (when b m).
Proof. intros Hm. destruct b; [exact Hm | apply only_logs_mreturn]. Qed.

Lemma logging_app l1 l2 w : logging l2 (logging l1 w) = logging (l1 ++ l2) w.
Proof. unfold logging. cbn. now rewrite app_assoc. Qed.

(** The head of the handler for a URL that passes both tests. *)
Lemma scrape_head_valid who req p :
  truthy_opt (url req) = true ->
  isValidUrl (default "" (url req)) = true ->
  exists lines,
    scrape_head who req p
    = match ensure_browser {| proc_world := logging lines (proc_world p);
                              browser := browser p; launched := launched p |} with
      | (p3, Throw e) => (p3, Unanswered e)
      | (p3, Normal _) =>
          let '(w, now) := pageSemaphore_acquire who (proc_world p3) in
          ({| proc_world := w; browser := browser p3; launched := launched p3 |},
           if now then Granted else Queued)
      end.
Proof.
  intros Hurl Hvalid. unfold scrape_head, in_world.
  destruct (scrape_banner_run req (proc_world p)) as [l1 ->].
  cbn [fst proc_world browser launched]. rewrite Hurl, Hvalid. cbn [negb].
  destruct (only_logs_when (negb (truthy_opt PROXY_SERVER)) _
              (only_logs_console_write warn
                 "⚠️ WARNING: No proxy server provided. Your IP address may be blocked.")
              (logging l1 (proc_world p))) as [l2 E2].
  unfold console_warn. rewrite E2. cbn [fst]. rewrite logging_app.
  exists (l1 ++ l2). reflexivity.
Qed.

(** The head of the handler for a URL that fails a test. *)
Lemma scrape_head_invalid who req p :
  truthy_opt (url req) = false \/ isValidUrl (default "" (url req)) = false ->
  exists lines,
    scrape_head who req p
    = ({| proc_world :=
            fst (res_json 400
                   (ErrorBody (if truthy_opt (url req)
                               then "Invalid URL" else "URL is required"))
                   (logging lines (proc_world p)));
          browser := browser p; launched := launched p |}, Rejected).
Proof.
  intros Hbad. unfold scrape_head, in_world.
  destruct (scrape_banner_run req (proc_world p)) as [l1 ->].
  cbn [fst proc_world browser launched]. exists l1.
  destruct (truthy_opt (url req)); cbn [negb]; [|reflexivity].
  destruct Hbad as [Hbad|Hbad]; [discriminate|]. rewrite Hbad. reflexivity.
Qed.

End EntryFacts.

(** X17. A request without a usable URL is turned away before anything
    happens.  The head of the handler answers 400 exactly when [url] is
    missing, empty or rejected by the [URL] constructor, with
    [URL is required] in the first two cases and [Invalid URL] in the
    third; it has then made no platform call, launched nothing, and left
    the disk, the semaphore and the [browser] variable as they were. *)
Theorem unusable_url_is_rejected_untouched {H : Platform} {R : Runtime} (who : Waiter)
    (req : UrlModel) (p : Process) :
  let p' := fst (scrape_head who req p) in
  (snd (scrape_head who req p) = Rejected
   <-> (url req = None \/ url req = Some ""
        \/ exists target, url req = Some target /\ URL_hostname target = None))
  /\ (snd (scrape_head who req p) = Rejected ->
      sent (proc_world p')
      = sent (proc_world p)
        ++ [{| http_status := 400;
               http_body := ErrorBody (if truthy_opt (url req)
                                       then "Invalid URL" else "URL is required") |}]
      /\ calls (proc_world p') = calls (proc_world p)
      /\ env (proc_world p') = env (proc_world p)
      /\ disk (proc_world p') = disk (proc_world p)
      /\ pageSemaphore (proc_world p') = pageSemaphore (proc_world p)
      /\ woken (proc_world p') = woken (proc_world p)
      /\ browser p' = browser p
      /\ launched p' = launched p).
Proof.
  cbn zeta.
  assert (Hbad : truthy_opt (url req) = false \/ isValidUrl (default "" (url req)) = false
                 <-> (url req = None \/ url req = Some ""
                      \/ exists target, url req = Some target /\ URL_hostname target = None)).
  { unfold isValidUrl. destruct (url req) as [target|]; cbn.
    - unfold truthy. destruct (String.eqb_spec target "") as [->|Hne]; cbn.
      + split; auto.
      + destruct (URL_hostname target) as [host|] eqn:Ehost.
        * split; [intros [E|E]; discriminate|].
          intros [E|[E|(t & E & Et)]]; [discriminate|congruence|].
          injection E as <-. congruence.
        * split; [intros _|auto]. right. right. eauto.
    - split; auto. }
  destruct (truthy_opt (url req)) eqn:Hurl;
    [destruct (isValidUrl (default "" (url req))) eqn:Hvalid|].
  - destruct (scrape_head_valid who req p Hurl Hvalid) as [lines ->].
    match goal with |- (snd ?a = _ <-> _) /\ _ =>
      assert (Hno : snd a <> Rejected)
    end.
    { destruct (ensure_browser _) as [p3 [[]|e]]; [|discriminate].
      destruct (pageSemaphore_acquire who (proc_world p3)) as [w [|]]; discriminate. }
    split; [|intros E; elim (Hno E)].
    split; [intros E; elim (Hno E)|].
    intros Hc. apply Hbad in Hc as [Hc|Hc]; discriminate.
  - destruct (scrape_head_invalid who req p (or_intror Hvalid)) as [lines ->].
    rewrite Hurl. cbn. split; [|auto 10].
    split; [intros _|reflexivity]. apply Hbad. now right.
  - destruct (scrape_head_invalid who req p (or_introl Hurl)) as [lines ->].
    rewrite Hurl. cbn. split; [|auto 10].
    split; [intros _|reflexivity]. apply Hbad. now left.
Qed.

(** A body without [url], and one whose [url] does not parse. *)
Lemma unusable_url_is_rejected_untouched_witness :
  sent (proc_world (fst (scrape_head (R := Host.runtime) 1%nat
                           {| url := None; wait_after_load := None; timeout := None;
                              headers := None; check_selector := None;
                              skip_tls_verification := None; actions := None;
                              screenshot := None; full_page_screenshot := None |}
                           Host.cold)))
  = [{| http_status := 400; http_body := ErrorBody "URL is required" |}]
  /\ sent (proc_world (fst (scrape_head (R := Host.runtime) 1%nat
                              (Demo.request "example.com") Host.cold)))
     = [{| http_status := 400; http_body := ErrorBody "Invalid URL" |}].
Proof.
  split.
  - refine (proj1 (proj2 (unusable_url_is_rejected_untouched (R := Host.runtime) 1%nat
                            _ Host.cold) _)).
    apply (proj2 (proj1 (unusable_url_is_rejected_untouched (R := Host.runtime) 1%nat
                           _ Host.cold))).
    now left.
  - refine (proj1 (proj2 (unusable_url_is_rejected_untouched (R := Host.runtime) 1%nat
                            (Demo.request "example.com") Host.cold) _)).
    apply (proj2 (proj1 (unusable_url_is_rejected_untouched (R := Host.runtime) 1%nat
                           (Demo.request "example.com") Host.cold))).
    right. right. exists "example.com". split; reflexivity.
Defined.


(** X18. A request that is served returns the permit it took.  With the
    browser launched, a free permit, nobody waiting and closes that
    complete, the handler run from its first line on a usable URL gets
    past [acquire()] at once, launches nothing, sends exactly one
    response, wakes nobody, and leaves the semaphore exactly as it found
    it. *)
Theorem served_request_returns_its_permit {H : Platform} {R : Runtime} (who : Waiter)
    (req : UrlModel) (p : Process) :
  browser p = true ->
  truthy_opt (url req) = true ->
  isValidUrl (default "" (url req)) = true ->
  0 < Semaphore.getAvailablePermits (pageSemaphore (proc_world p)) ->
  Semaphore.getQueueLength (pageSemaphore (proc_world p)) = 0%nat ->
  (forall pg b, snd (perform (Page_close pg) b) = Normal tt) ->
  (forall c b, snd (perform (Context_close c) b) = Normal tt) ->
  let p' := fst (scrape who req p) in
  snd (scrape who req p) = Granted
  /\ pageSemaphore (proc_world p') = pageSemaphore (proc_world p)
  /\ woken (proc_world p') = woken (proc_world p)
  /\ (exists resp, sent (proc_world p') = sent (proc_world p) ++ [resp])
  /\ launched p' = launched p
  /\ browser p' = true.
Proof.
  intros Hb Hurl Hvalid Hfree Hnone Hp Hc. cbn zeta. unfold scrape.
  destruct (scrape_head_valid who req p Hurl Hvalid) as [lines ->].
  unfold ensure_browser. cbn [browser]. rewrite Hb.
  unfold pageSemaphore_acquire, Semaphore.acquire. cbn [proc_world logging pageSemaphore].
  unfold Semaphore.getAvailablePermits in Hfree.
  destruct (Z.ltb_spec 0 (Semaphore.permits (pageSemaphore (proc_world p))));
    [|lia].
  cbn [fst snd browser launched proc_world]. unfold in_world. cbn [proc_world].
  match goal with |- context [scrape_admitted req ?t ?w0] =>
    destruct (scrape_admitted_teardown req t w0 Hp Hc) as (_ & Hsem & Hwoken & _);
    destruct (scrape_admitted_sent req t w0) as (resp & Hsent & _);
    destruct (scrape_admitted req t w0) as [w' c]
  end.
  cbn [fst snd proc_world browser launched pageSemaphore woken sent] in *.
  split; [reflexivity|]. rewrite Hsem, Hwoken.
  unfold Semaphore.getQueueLength in Hnone.
  destruct (pageSemaphore (proc_world p)) as [n q]. cbn in *.
  destruct q; [|discriminate]. cbn. rewrite app_nil_r.
  split; [f_equal; lia|]. split; [reflexivity|]. split; [eauto|]. auto.
Qed.

(** A request on the concrete platform with its browser launched. *)
Lemma served_request_returns_its_permit_witness :
  let run := scrape (R := Host.runtime) 1%nat (Demo.request "https://example.com/")
               Host.warm in
  snd run = Granted
  /\ pageSemaphore (proc_world (fst run)) = Semaphore.new 2
  /\ length (sent (proc_world (fst run))) = 1%nat.
Proof.
  intros run.
  destruct (served_request_returns_its_permit (R := Host.runtime) 1%nat
              (Demo.request "https://example.com/") Host.warm
              eq_refl eq_refl eq_refl ltac:(cbn; lia) eq_refl
              ltac:(reflexivity) ltac:(reflexivity))
    as (Ha & Hs & _ & (resp & Hsent) & _).
  fold run in Ha, Hs, Hsent. split; [exact Ha|]. split; [exact Hs|].
  rewrite Hsent. reflexivity.
Defined.

(** X19. A launch that rejects leaves the request unanswered.  When the
    [browser] variable is unassigned and [chromium.launch] rejects, the
    head of the handler, on a usable URL, throws the launch error before
    [acquire()]: no response is sent, the semaphore is as it was, the one
    launch made had [HEADLESS] and the fixed arguments, and [browser]
    stays unassigned; the health probe in the same situation answers 503
    with the error's message and makes no platform call. *)
Theorem rejected_launch_leaves_the_request_unanswered {H : Platform} {R : Runtime}
    (who : Waiter) (req : UrlModel) (p : Process) (e : Thrown) :
  browser p = false ->
  snd (chromium_launch {| headless := HEADLESS; args := LAUNCH_ARGS |}
         (env (proc_world p))) = Throw e ->
  (truthy_opt (url req) = true ->
   isValidUrl (default "" (url req)) = true ->
   let p' := fst (scrape_head who req p) in
   snd (scrape_head who req p) = Unanswered e
   /\ snd (scrape who req p) = Unanswered e
   /\ sent (proc_world p') = sent (proc_world p)
   /\ pageSemaphore (proc_world p') = pageSemaphore (proc_world p)
   /\ calls (proc_world p') = calls (proc_world p)
   /\ launched p' = launched p ++ [{| headless := HEADLESS; args := LAUNCH_ARGS |}]
   /\ browser p' = false)
  /\ (let p' := fst (health p) in
      snd (health p)
      = {| health_status := 503; health_body := Unhealthy (health_error e) |}
      /\ calls (proc_world p') = calls (proc_world p)
      /\ launched p' = launched p ++ [{| headless := HEADLESS; args := LAUNCH_ARGS |}]
      /\ browser p' = false).
Proof.
  intros Hb Hlaunch. split.
  - intros Hurl Hvalid. cbn zeta. unfold scrape.
    destruct (scrape_head_valid who req p Hurl Hvalid) as [lines ->].
    unfold ensure_browser. cbn [browser]. rewrite Hb, initializeBrowser_run.
    cbn [proc_world logging env browser launched]. rewrite Hlaunch.
    cbn. auto 10.
  - cbn zeta. unfold health, pbind, ensure_browser. rewrite Hb, initializeBrowser_run.
    cbn zeta. rewrite Hlaunch. cbn. auto.
Qed.

(** The cold process on the host whose launch rejects. *)
Lemma rejected_launch_leaves_the_request_unanswered_witness :
  snd (scrape (R := Host.failing) 1%nat (Demo.request "https://example.com/") Host.cold)
  = Unanswered (ErrorObj "browserType.launch: Executable doesn't exist")
  /\ snd (health (R := Host.failing) Host.cold)
     = {| health_status := 503;
          health_body := Unhealthy "browserType.launch: Executable doesn't exist" |}.
Proof.
  destruct (rejected_launch_leaves_the_request_unanswered (R := Host.failing) 1%nat
              (Demo.request "https://example.com/") Host.cold
              (ErrorObj "browserType.launch: Executable doesn't exist") eq_refl eq_refl)
    as [Hscrape Hhealth].
  split.
  - exact (proj1 (proj2 (Hscrape eq_refl eq_refl))).
  - exact (proj1 Hhealth).
Defined.




(** ** The service and its client *)

Section ClientFacts.

Lemma toLowerCase_app (a b : string) :
  toLowerCase (a +:+ b) = toLowerCase a +:+ toLowerCase b.
Proof.
  induction a as [|c a IH]; [reflexivity|].
  change (String c a +:+ b) with (String c (a +:+ b)).
  change (toLowerCase (String c a)) with (String (lower_ascii c) (toLowerCase a)).
  change (toLowerCase (String c (a +:+ b)))
    with (String (lower_ascii c) (toLowerCase (a +:+ b))).
  rewrite IH. reflexivity.
Qed.

Lemma includes_toLowerCase (s sub : string) :
  includes s sub = true -> includes (toLowerCase s) (toLowerCase sub) = true.
Proof.
  intros Hinc. apply includes_spec in Hinc as (pre & post & ->).
  apply includes_spec. exists (toLowerCase pre), (toLowerCase post).
  now rewrite !toLowerCase_app.
Qed.

End ClientFacts.

(** X21. The client unwraps only what the service took from the response
    body.  When [scrapePage] returns an outcome whose content type passes
    the client's test, [contentType.includes("application/json")], then
    navigation had produced a response and the content of the outcome is
    the body of that response read as UTF-8, not the rendered HTML. *)
Theorem client_unwraps_only_raw_bodies `{Platform} (page : Page) (target : string)
    (waitUntil : WaitUntil) (waitAfterLoad timeout : Z) (checkSelector : option string)
    (w w' : World) (o : ScrapeOutcome) :
  scrapePage page target waitUntil waitAfterLoad timeout checkSelector w = (w', Normal o) ->
  Client.wants_inner_json (so_contentType o) = true ->
  exists (r : Resp) (wb : World) (body : Buffer),
    snd (perform (Page_goto page target waitUntil timeout) (env w)) = Normal (Some r)
    /\ snd (call (Response_body r) wb) = Normal body
    /\ so_content o = Buffer_toString_utf8 body.
Proof.
  intros E Hwants.
  destruct (scrapePage_inv _ _ _ _ _ _ _ _ _ E) as (response & html & wh & Eg & _ & Hr).
  destruct response as [r|]; [|subst o; discriminate].
  destruct Hr as (hs & _ & _ & _ & Hct & Hraw & _).
  rewrite Hct in Hwants. destruct (find_content_type hs) as [ct|] eqn:Ect; [|discriminate].
  cbn in Hwants.
  destruct Hraw as (body & Eb & Hc).
  { exists ct. split; [reflexivity|]. left.
    exact (includes_toLowerCase ct "application/json" Hwants). }
  exists r. eexists. exists body.
  split; [exact Eg|]. split; [exact Eb | exact Hc].
Qed.

(** A JSON endpoint that answers with a lower-case header. *)
Lemma client_unwraps_only_raw_bodies_witness :
  exists o,
    snd (scrapePage (H := Api.platform) 3%nat "https://example.com/api/items" load 0 15000
           None Api.w0) = Normal o
    /\ so_content o = "[1,2]".
Proof.
  set (run := scrapePage (H := Api.platform) 3%nat "https://example.com/api/items" load 0
                15000 None Api.w0).
  set (o := normal_or {| so_content := ""; so_status := None; so_headers := None;
                         so_contentType := None |} (snd run)).
  assert (E : run = (fst run, Normal o)).
  { apply run_eq. vm_compute. reflexivity. }
  destruct (client_unwraps_only_raw_bodies (H := Api.platform) 3%nat
              "https://example.com/api/items" load 0 15000 None Api.w0 (fst run) o E)
    as (r & wb & body & _ & Eb & Hc).
  { vm_compute. reflexivity. }
  exists o. split; [now rewrite E|].
  rewrite Hc. cbn in Eb. injection Eb as <-. reflexivity.
Defined.

(** X22. A navigation without a response object is answered with a
    document the client's schema rejects.  When [page.goto] resolves to
    [null] for the target, whatever else the request asks for, the one
    response sent is either the 500 failure document, which has no
    [content], or a render document whose [pageStatusCode] is [null],
    where the schema requires a number. *)
Theorem null_navigation_fails_the_client_schema `{Platform} (req : UrlModel)
    (target : string) (w : World) :
  (forall p b,
      snd (perform (Page_goto p target load (default 15000 (timeout req))) b)
      = Normal None) ->
  exists resp,
    sent (fst (scrape_admitted req target w)) = sent w ++ [resp]
    /\ Client.schema_accepts (http_body resp) = false
    /\ (resp = failure_response
        \/ exists r, resp = {| http_status := 200; http_body := RenderBody r |}
                     /\ pageStatusCode r = None).
Proof.
  intros Hnull.
  destruct (scrape_admitted_sent req target w) as (resp & Hsent & Ha).
  exists resp. split; [exact Hsent|]. unfold answer_of in Ha.
  assert (Hfail : Client.schema_accepts (http_body failure_response) = false
                  /\ (failure_response = failure_response
                      \/ exists r,
                           failure_response
                           = {| http_status := 200; http_body := RenderBody r |}
                           /\ pageStatusCode r = None)) by (split; [reflexivity | now left]).
  destruct (createContext _ w) as [w1 [ctx|e]]; [|now subst resp].
  destruct (call (Context_newPage ctx) w1) as [w2 [page|e]]; [|now subst resp].
  cbn [ret] in page.
  destruct (scrape_try req target page w2) as [w3 [[]|e]] eqn:E; [|now subst resp].
  destruct (completed_render_response _ _ _ _ _ _ E Ha)
    as (w1' & w2' & w3' & result & ar & shot & E1 & _ & _ & ->).
  pose proof (scrape_navigate_null_status _ _ _ _ _ _ Hnull E1) as Hstatus.
  unfold render_response, Client.schema_accepts. cbn [http_body render_json pageStatusCode].
  rewrite Hstatus. split; [reflexivity|]. right. eexists. split; [reflexivity|].
  exact Hstatus.
Qed.

(** [about:blank] on the concrete platform. *)
Lemma null_navigation_fails_the_client_schema_witness :
  exists resp,
    sent (fst (scrape_admitted (H := Demo.platform) (Demo.request "about:blank")
                 "about:blank" Demo.w0)) = [resp]
    /\ Client.schema_accepts (http_body resp) = false.
Proof.
  destruct (null_navigation_fails_the_client_schema (H := Demo.platform)
              (Demo.request "about:blank") "about:blank" Demo.w0
              ltac:(reflexivity)) as (resp & Hsent & Hrej & _).
  exists resp. split; [exact Hsent | exact Hrej].
Defined.

(** ** The text of a capture *)

Section Base64Facts.

Lemma base64_length_aux (n : nat) : forall b : Buffer,
  (length b <= n)%nat ->
  String.length (Buffer_toString_base64 b) = (4 * ((length b + 2) / 3))%nat.
Proof.
  induction n as [n IH] using (well_founded_induction lt_wf).
  intros [|x [|y [|z rest]]] Hlen; try reflexivity.
  cbn [Buffer_toString_base64 String.length length].
  rewrite (IH (length rest)) by (cbn in Hlen; lia).
  replace (S (S (S (length rest))) + 2)%nat with (length rest + 2 + 1 * 3)%nat by lia.
  rewrite Nat.div_add by lia. lia.
Qed.

End Base64Facts.

(** X23. The text of a capture is empty only for an empty capture.  A
    capture that returns gives the base64 text of the bytes
    [page.screenshot] resolved to, four characters for every three bytes
    or part of three; so the text is a truthy string, and the render
    document gets its [screenshot], exactly when there is at least one
    byte. *)
Theorem capture_text_is_empty_only_for_empty_capture `{Platform} (page : Page)
    (fullPage : option bool) (w w' : World) (data : string) :
  takeScreenshot page fullPage w = (w', Normal data) ->
  exists png : Buffer,
    snd (perform (Page_screenshot page (default false fullPage)) (env w)) = Normal png
    /\ String.length data = (4 * ((length png + 2) / 3))%nat
    /\ (truthy data = true <-> png <> [])
    /\ (forall result pageError ar,
           res_screenshot (render_json result pageError (Some data) ar)
           = (if bool_decide (png = []) then None else Some data)).
Proof.
  intros E.
  destruct (takeScreenshot_run _ _ _ _ _ E) as (png & iso & b & Ep & _ & -> & _).
  exists png. split; [exact Ep|].
  split; [apply (base64_length_aux (length png)); lia|].
  assert (Ht : truthy (Buffer_toString_base64 png) = true <-> png <> []).
  { destruct png as [|x [|y [|z rest]]]; cbn; split; congruence. }
  split; [exact Ht|]. intros result pageError ar. cbn [render_json res_screenshot truthy_opt].
  destruct (truthy (Buffer_toString_base64 png)) eqn:Hd.
  - rewrite bool_decide_eq_false_2; [reflexivity | now apply Ht].
  - rewrite bool_decide_eq_true_2; [reflexivity|].
    destruct png as [|x rest]; [reflexivity|].
    assert (false = true) by (apply Ht; discriminate).
    discriminate.
Qed.

(** The four bytes of the concrete capture give eight characters. *)
Lemma capture_text_is_empty_only_for_empty_capture_witness :
  exists data,
    snd (takeScreenshot (H := Demo.platform) 3%nat None Demo.w0) = Normal data
    /\ String.length data = 8%nat.
Proof.
  set (run := takeScreenshot (H := Demo.platform) 3%nat None Demo.w0).
  assert (E : run = (fst run, Normal "iVBORw==")).
  { apply run_eq. vm_compute. reflexivity. }
  destruct (capture_text_is_empty_only_for_empty_capture (H := Demo.platform) 3%nat None
              Demo.w0 (fst run) "iVBORw==" E) as (png & Ep & Hlen & _).
  exists "iVBORw==". split; [now rewrite E|].
  cbn in Ep. injection Ep as <-. exact Hlen.
Defined.
